(** * CCSDS_Simulator: a shallow embedding of the packet codec, the stores and
      the operation handlers, with the properties of the specification.

    Sources embedded here:
    - [simulator.py]      : [CCSDSSimulator.create_ccsds_packet], [_calculate_crc],
                            [generate_telemetry], [send_packets]
    - [mo_service.py]     : [CCSDSParser.parse_packet], [CCSDSReceiver.run],
                            [_extract_parameters], [_get_units], [get_ccsds_parameters],
                            [get_parameter], [get_telemetry], [get_latest_telemetry],
                            [get_all_telemetry], [send_telecommand],
                            [get_pending_commands], [get_statistics]
    - [mo_service_xml.py] : [CCSDSReceiver.run], [json_get_parameter_values],
                            [xml_operations], [_process_get_parameter_values_xml],
                            [_process_set_parameter_values_xml],
                            [_process_get_service_info_xml],
                            [get_xml_operations_history],
                            [initialize_sample_parameters]
    - [xml_validator.py]  : [validate_mo_xml], [_semantic_validation],
                            [dict_to_xml], [xml_to_dict], [_element_to_dict]
*)

From Stdlib Require Import ZArith List String Ascii Lia Bool.
From Stdlib Require Import Strings.Byte DecimalString.
From stdpp Require Import base option gmap strings list sorting.

Import ListNotations.
Set Warnings "-register-all".
Local Open Scope string_scope.
Local Open Scope list_scope.
Local Open Scope stdpp_scope.
Local Open Scope Z_scope.

(* ===================================================================== *)
(** * Bytes and [struct] packing *)
(* ===================================================================== *)

Module Bytes.

(** A Python [bytes] object is a [list byte]; iterating over it yields
    the integers 0..255. *)
Definition byte_val (b : byte) : Z := Z.of_N (Byte.to_N b).

(** The byte whose value is [z mod 256]. *)
Definition byte_of_Z (z : Z) : byte :=
  match Byte.of_N (Z.to_N (z mod 256)) with
  | Some b => b
  | None => Byte.x00
  end.

Definition len (data : list byte) : Z := Z.of_nat (length data).

(** [struct.pack('>B', v)]: raises [struct.error] unless [0 <= v <= 255]. *)
Definition pack_B (v : Z) : option (list byte) :=
  if (0 <=? v) && (v <? 256) then Some [byte_of_Z v] else None.

(** [struct.pack('>H', v)]: big-endian unsigned 16-bit; raises
    [struct.error] unless [0 <= v <= 65535]. *)
Definition pack_H (v : Z) : option (list byte) :=
  if (0 <=? v) && (v <? 65536)
  then Some [byte_of_Z (Z.shiftr v 8); byte_of_Z v]
  else None.

(** [struct.pack('>I', v)]: big-endian unsigned 32-bit. *)
Definition pack_I (v : Z) : option (list byte) :=
  if (0 <=? v) && (v <? 4294967296)
  then Some [byte_of_Z (Z.shiftr v 24); byte_of_Z (Z.shiftr v 16);
             byte_of_Z (Z.shiftr v 8); byte_of_Z v]
  else None.

(** Big-endian value of two bytes. *)
Definition be16 (hi lo : byte) : Z := Z.lor (Z.shiftl (byte_val hi) 8) (byte_val lo).

(** [struct.unpack('>HHH', buf)]: raises unless [buf] has exactly 6 bytes. *)
Definition unpack_HHH (buf : list byte) : option (Z * Z * Z) :=
  match buf with
  | [a; b; c; d; e; f] => Some (be16 a b, be16 c d, be16 e f)
  | _ => None
  end.

(** [data[:n]] and [data[n:]] for [n >= 0]; [data[a:-2]]. *)
Definition slice_to (n : nat) (data : list byte) : list byte := firstn n data.
Definition slice_from (n : nat) (data : list byte) : list byte := skipn n data.
(** [data[a:-k]]: Python clamps, the result is empty when the bounds cross. *)
Definition slice_between (a k : nat) (data : list byte) : list byte :=
  skipn a (firstn (length data - k) data).

Definition hex_digit (n : Z) : ascii :=
  if n <? 10 then ascii_of_nat (Z.to_nat (48 + n)) else ascii_of_nat (Z.to_nat (87 + n)).

(** [bytes.hex()]: two lower-case hexadecimal digits per byte. *)
Fixpoint hex (data : list byte) : string :=
  match data with
  | [] => EmptyString
  | b :: rest =>
      String (hex_digit (Z.shiftr (byte_val b) 4))
        (String (hex_digit (Z.land (byte_val b) 15)) (hex rest))
  end.

End Bytes.

Import Bytes.


(* ===================================================================== *)
(** * Python values *)
(* ===================================================================== *)

(** The dynamically typed values that travel through the services: what
    [json.loads] returns and what the handlers put into their response
    dictionaries.  A [dict] is kept as an association list in insertion
    order (the order [dict.items()] iterates in); its keys are strings.
    A [float] is identified by its [repr], the text [str()] prints. *)
Inductive pyval : Type :=
| PNone
| PBool (b : bool)
| PInt (z : Z)
| PFloat (repr : string)
| PStr (s : string)
| PList (items : list pyval)
| PDict (entries : list (string * pyval)).

(** [isinstance(v, dict)] *)
Definition is_dict (v : pyval) : bool :=
  match v with PDict _ => true | _ => false end.

(** [isinstance(v, (int, float))]: [bool] is a subclass of [int] in
    Python, so [True] and [False] pass this test. *)
Definition is_int_or_float (v : pyval) : bool :=
  match v with PBool _ | PInt _ | PFloat _ => true | _ => false end.

(** [k in d] and [d[k]] / [d.get(k)] on an insertion-ordered dict. *)
Fixpoint dict_get (k : string) (d : list (string * pyval)) : option pyval :=
  match d with
  | [] => None
  | (k', v) :: rest => if String.eqb k k' then Some v else dict_get k rest
  end.

(** [d[k] = v]: replaces the value in place when the key exists, appends
    the key otherwise. *)
Fixpoint dict_set (k : string) (v : pyval) (d : list (string * pyval))
  : list (string * pyval) :=
  match d with
  | [] => [(k, v)]
  | (k', v') :: rest =>
      if String.eqb k k' then (k', v) :: rest else (k', v') :: dict_set k v rest
  end.

(* ===================================================================== *)
(** * Python strings *)
(* ===================================================================== *)

(** The [str] methods the services call.  Strings are byte strings here;
    the case conversions and the white-space test act on ASCII letters and
    ASCII white space and leave every other byte as it is, which is what
    Python does on ASCII text. *)
Definition ascii_upper (c : ascii) : ascii :=
  let n := nat_of_ascii c in
  if ((97 <=? n) && (n <=? 122))%nat then ascii_of_nat (n - 32) else c.

Definition ascii_lower (c : ascii) : ascii :=
  let n := nat_of_ascii c in
  if ((65 <=? n) && (n <=? 90))%nat then ascii_of_nat (n + 32) else c.

Fixpoint string_map (f : ascii -> ascii) (s : string) : string :=
  match s with
  | EmptyString => EmptyString
  | String c rest => String (f c) (string_map f rest)
  end.

(** [s.upper()] and [s.lower()] *)
Definition py_upper (s : string) : string := string_map ascii_upper s.
Definition py_lower (s : string) : string := string_map ascii_lower s.

(** The text on which the model of the case conversions is exact. *)
Definition is_ascii (s : string) : bool :=
  forallb (fun c => (nat_of_ascii c <? 128)%nat) (list_ascii_of_string s).

(** [needle in haystack] *)
Fixpoint contains (needle haystack : string) : bool :=
  String.prefix needle haystack ||
  match haystack with
  | EmptyString => false
  | String _ rest => contains needle rest
  end.

(** [c.isspace()] on ASCII: tab, line feed, vertical tab, form feed,
    carriage return, the four separators 0x1c..0x1f and the space. *)
Definition ascii_isspace (c : ascii) : bool :=
  let n := nat_of_ascii c in
  (((9 <=? n) && (n <=? 13)) || ((28 <=? n) && (n <=? 32)))%nat.

Fixpoint lstrip (s : string) : string :=
  match s with
  | EmptyString => EmptyString
  | String c rest => if ascii_isspace c then lstrip rest else s
  end.

(** Drops trailing white space: a character stays when it is not white
    space or when something that stays follows it. *)
Fixpoint rstrip (s : string) : string :=
  match s with
  | EmptyString => EmptyString
  | String c rest =>
      match rstrip rest with
      | EmptyString => if ascii_isspace c then EmptyString else String c EmptyString
      | kept => String c kept
      end
  end.

(** [s.strip()] *)
Definition py_strip (s : string) : string := rstrip (lstrip s).

(** [str(n)] for an [int]. *)
Definition str_of_int (z : Z) : string := NilZero.string_of_int (Z.to_int z).

(** An entry of [parameter_store], the dictionary both services keep per
    parameter.  Every writer sets ["value"], ["timestamp"] and
    ["validity"]; ["units"] and ["quality"] are read with [.get], and
    ["source"] is set by the telemetry path only. *)
Record ParamData := {
  pd_value : pyval;
  pd_timestamp : string;
  pd_validity : string;
  pd_units : option string;
  pd_quality : option string;
  pd_source : option string
}.

(* ===================================================================== *)
(** * A state monad for the handlers *)
(* ===================================================================== *)

(** Handlers read the wall clock and the module-level stores; they are
    functions from the state before to a result and the state after. *)
Definition M (S A : Type) : Type := S -> A * S.

Definition ret {S A : Type} (a : A) : M S A := fun s => (a, s).

Definition bind {S A B : Type} (m : M S A) (f : A -> M S B) : M S B :=
  fun s => let (a, s') := m s in f a s'.

Declare Scope monad_scope.
Delimit Scope monad_scope with M.
Notation "'do' x <- m ; k" := (bind m (fun x => k))
  (at level 10, x name, m at level 100, k at level 200) : monad_scope.

(** [out = []; for x in xs: out.append(f(x))] *)
Fixpoint for_each {S A B : Type} (f : A -> M S B) (xs : list A) : M S (list B) :=
  match xs with
  | [] => ret []
  | x :: rest =>
      bind (f x) (fun y => bind (for_each f rest) (fun ys => ret (y :: ys)))
  end.

(** The JSON text codec of the standard library, as the two services use
    it: [json_dumps d] is [json.dumps(d).encode('utf-8')], and
    [json_loads b] is [json.loads(b.decode('utf-8', errors='ignore'))],
    [None] when it raises.  The empty text is not a JSON document. *)
Class Json := {
  json_dumps : pyval -> list byte;
  json_loads : list byte -> option pyval;
  json_loads_nil : json_loads [] = None
}.

(** A codec for the JSON documents without contents ([{}], [[]], [null],
    [true], [false]); it is what the examples below run the model with. *)
Definition sample_dumps (v : pyval) : list byte :=
  list_byte_of_string
    match v with
    | PDict [] => "{}"
    | PList [] => "[]"
    | PBool true => "true"
    | PBool false => "false"
    | _ => "null"
    end.

Definition sample_loads (b : list byte) : option pyval :=
  let s := string_of_list_byte b in
  if String.eqb s "{}" then Some (PDict [])
  else if String.eqb s "[]" then Some (PList [])
  else if String.eqb s "true" then Some (PBool true)
  else if String.eqb s "false" then Some (PBool false)
  else if String.eqb s "null" then Some PNone
  else None.

#[export] Instance sample_json : Json := {|
  json_dumps := sample_dumps;
  json_loads := sample_loads;
  json_loads_nil := eq_refl
|}.

(** [HTTPException(status_code, detail)], which the endpoints raise; the
    detail is a text or a dictionary. *)
Inductive HTTPException : Type :=
| Http (status_code : Z) (detail : pyval).

(** [l[:limit]] *)
Definition py_slice_to {A : Type} (limit : Z) (l : list A) : list A :=
  if 0 <=? limit then take (Z.to_nat limit) l
  else take (length l - Z.to_nat (- limit)) l.

(** [l[start:]] *)
Definition py_slice_from {A : Type} (start : Z) (l : list A) : list A :=
  if 0 <=? start then drop (Z.to_nat start) l
  else drop (length l - Z.to_nat (- start)) l.

(** [l[-k:]] for [k > 0] *)
Definition py_last {A : Type} (k : nat) (l : list A) : list A :=
  drop (length l - k) l.

(** A codec that reads every non-empty text as the document [doc]; the
    examples use it to receive a packet with given telemetry. *)
Definition reading_json (doc : pyval) : Json := {|
  json_dumps := fun _ => list_byte_of_string "{}";
  json_loads := fun b => match b with [] => None | _ :: _ => Some doc end;
  json_loads_nil := eq_refl
|}.

(* ===================================================================== *)
(** * simulator.py *)
(* ===================================================================== *)

Module Simulator.

Record CCSDSSimulator := {
  host : string;
  port : Z;
  packet_counter : Z;
  apid : Z
}.

(** One turn of the inner loop [for _ in range(8)]. *)
Definition crc_bit (crc : Z) : Z :=
  let crc := if negb (Z.land crc 0x8000 =? 0)
             then Z.lxor (Z.shiftl crc 1) 0x1021
             else Z.shiftl crc 1 in
  Z.land crc 0xFFFF.

(** One turn of the outer loop [for byte in data]. *)
Definition crc_byte (crc : Z) (b : byte) : Z :=
  let crc := Z.lxor crc (Z.shiftl (byte_val b) 8) in
  Nat.iter 8 crc_bit crc.

Definition _calculate_crc (data : list byte) : Z :=
  fold_left crc_byte data 0xFFFF.

Section Encode.
Context `{Json}.

(** [create_ccsds_packet(self, data)].  [now_unix] is what
    [int(datetime.now(timezone.utc).timestamp())] reads.  The result is
    [None] when a [struct.pack] raises; [self] is then left as it was. *)
Definition create_ccsds_packet (self : CCSDSSimulator) (data : pyval) (now_unix : Z)
  : option (list byte * CCSDSSimulator) :=
  let packet_version := 0 in
  let packet_type := 0 in
  let sec_header_flag := 1 in
  let word1 := Z.lor (Z.lor (Z.lor (Z.shiftl packet_version 13)
                                   (Z.shiftl packet_type 12))
                            (Z.shiftl sec_header_flag 11))
                     (apid self) in
  let sequence_flags := 3 in
  let sequence_count := packet_counter self mod 16384 in
  let word2 := Z.lor (Z.shiftl sequence_flags 14) sequence_count in
  let json_data := json_dumps data in
  let sec_header_length := 11 in
  let crc_length := 2 in
  let total_data_length := sec_header_length + len json_data + crc_length in
  let word3 := total_data_length - 7 in
  w1 ← pack_H word1;
  w2 ← pack_H word2;
  w3 ← pack_H word3;
  let header := w1 ++ w2 ++ w3 in
  let timestamp_seconds := now_unix mod 86400 in
  t ← pack_I timestamp_seconds;
  pus1 ← pack_B 1;
  pus2 ← pack_B 3;
  pus3 ← pack_B 1;
  dst ← pack_H 1000;
  src ← pack_H 2000;
  let sec_header := t ++ (pus1 ++ pus2 ++ pus3) ++ dst ++ src in
  let packet := header ++ sec_header ++ json_data in
  let crc := _calculate_crc packet in
  c ← pack_H crc;
  Some (packet ++ c,
        {| host := host self; port := port self;
           packet_counter := packet_counter self + 1; apid := apid self |}).

End Encode.

(** What one call of [generate_telemetry] reads from the clock and draws
    from [random]: the text of [current_time.isoformat()], the three
    choices, the integers, and for each rounded float the text [repr]
    gives it. *)
Record Draw := {
  drawn_time : string;
  drawn_subsystem : string;
  drawn_status : string;
  drawn_mode : string;
  drawn_errors : Z;
  drawn_temperature_bus : string;
  drawn_temperature_battery : string;
  drawn_voltage_bus : string;
  drawn_current_bus : string;
  drawn_battery_charge : Z;
  drawn_solar_current : string;
  drawn_gyro_x : string;
  drawn_gyro_y : string;
  drawn_gyro_z : string;
  drawn_data_volume : Z;
  drawn_compression_rate : string;
  drawn_active_instruments : Z
}.

(** [generate_telemetry(self)] *)
Definition generate_telemetry (self : CCSDSSimulator) (d : Draw) : pyval :=
  PDict [
    ("timestamp", PStr (drawn_time d));
    ("packet_id", PInt (packet_counter self));
    ("subsystem", PStr (drawn_subsystem d));
    ("health", PDict [
       ("status", PStr (drawn_status d));
       ("mode", PStr (drawn_mode d));
       ("errors", PInt (drawn_errors d))]);
    ("measurements", PDict [
       ("temperature_bus", PFloat (drawn_temperature_bus d));
       ("temperature_battery", PFloat (drawn_temperature_battery d));
       ("voltage_bus", PFloat (drawn_voltage_bus d));
       ("current_bus", PFloat (drawn_current_bus d));
       ("battery_charge", PInt (drawn_battery_charge d));
       ("solar_current", PFloat (drawn_solar_current d));
       ("gyro_x", PFloat (drawn_gyro_x d));
       ("gyro_y", PFloat (drawn_gyro_y d));
       ("gyro_z", PFloat (drawn_gyro_z d))]);
    ("payload", PDict [
       ("data_volume", PInt (drawn_data_volume d));
       ("compression_rate", PFloat (drawn_compression_rate d));
       ("active_instruments", PInt (drawn_active_instruments d))])].

Section Send.
Context `{Json}.

(** The loop of [send_packets(interval, count)]: one turn per entry of
    [draws], which holds what the turn draws and what the clock reads
    when the packet is stamped; the result lists the datagrams handed to
    [sock.sendto], in order.  An exception of [create_ccsds_packet] ends
    the loop. *)
Fixpoint send_packets (draws : list (Draw * Z)) (self : CCSDSSimulator)
  : list (list byte) * CCSDSSimulator :=
  match draws with
  | [] => ([], self)
  | (d, now_unix) :: rest =>
      let telemetry := generate_telemetry self d in
      match create_ccsds_packet self telemetry now_unix with
      | None => ([], self)
      | Some (packet, self') =>
          let '(sent, final) := send_packets rest self' in
          (packet :: sent, final)
      end
  end.

End Send.

(** One set of draws, for the examples. *)
Definition sample_draw : Draw :=
  {| drawn_time := "2024-12-27T10:30:45.123456+00:00";
     drawn_subsystem := "EPS";
     drawn_status := "NOMINAL";
     drawn_mode := "SUN_POINT";
     drawn_errors := 0;
     drawn_temperature_bus := "27.31";
     drawn_temperature_battery := "18.04";
     drawn_voltage_bus := "12.345";
     drawn_current_bus := "2.61";
     drawn_battery_charge := 85;
     drawn_solar_current := "3.2";
     drawn_gyro_x := "0.0123";
     drawn_gyro_y := "-0.0456";
     drawn_gyro_z := "0.0789";
     drawn_data_volume := 512;
     drawn_compression_rate := "0.75";
     drawn_active_instruments := 2 |}.

(** The simulator as [__init__] leaves it, after 16385 packets. *)
Definition sample_simulator : CCSDSSimulator :=
  {| host := "127.0.0.1"; port := 12345; packet_counter := 16385; apid := 100 |}.

End Simulator.

(* ===================================================================== *)
(** * mo_service.py: the packet parser *)
(* ===================================================================== *)

Module MoService.

(** The ["header"] dictionary of a parsed packet. *)
Record Header := {
  version : Z;
  type_ : string;
  apid : Z;
  sequence_flags : Z;
  sequence_count : Z;
  data_length : Z
}.

(** The dictionary [parse_packet] returns on success. *)
Record Packet := {
  header : Header;
  telemetry : pyval;
  raw_size : Z;
  timestamp : string
}.

(** [parse_packet] returns either [{"error": msg}] or a packet dictionary;
    callers tell them apart with ["error" not in parsed]. *)
Inductive ParseResult :=
| ParseError (msg : string)
| Parsed (p : Packet).

Definition raw_telemetry (payload : list byte) : pyval :=
  PDict [("raw", PStr (hex payload))].

Section Parser.
Context `{Json}.

(** [CCSDSParser.parse_packet(data)]; [now] is what
    [datetime.now(timezone.utc).isoformat()] reads when it is reached. *)
Definition parse_packet (data : list byte) (now : string) : ParseResult :=
  if len data <? 6 then ParseError "Packet too short"
  else
    match unpack_HHH (slice_to 6 data) with
    | None => ParseError "Parse error: unpack requires a buffer of 6 bytes"
    | Some (word1, word2, word3) =>
        let packet_version := Z.land (Z.shiftr word1 13) 0x07 in
        let packet_type := Z.land (Z.shiftr word1 12) 0x01 in
        let sec_header_flag := Z.land (Z.shiftr word1 11) 0x01 in
        let apid := Z.land word1 0x07FF in
        let sequence_flags := Z.land (Z.shiftr word2 14) 0x03 in
        let sequence_count := Z.land word2 0x3FFF in
        let data_length := word3 in
        let telemetry :=
          if negb (sec_header_flag =? 0) && (17 <=? len data) then
            let json_start := 17 in
            if json_start <? len data - 2 then
              let json_data := slice_between 17 2 data in
              match json_loads json_data with
              | Some t => t
              | None => raw_telemetry json_data
              end
            else raw_telemetry (slice_from 6 data)
          else raw_telemetry (slice_from 6 data) in
        Parsed {|
          header := {|
            version := packet_version;
            type_ := if packet_type =? 0 then "TM" else "TC";
            apid := apid;
            sequence_flags := sequence_flags;
            sequence_count := sequence_count;
            data_length := data_length
          |};
          telemetry := telemetry;
          raw_size := len data;
          timestamp := now
        |}
    end.

End Parser.

(* --------------------------------------------------------------------- *)
(** ** The module-level stores and the receiver thread *)
(* --------------------------------------------------------------------- *)

(** [telemetry_store], [parameter_store] and [command_queue], with the
    wall clock: [clock n] is the text the [n]-th call of
    [datetime.now(timezone.utc).isoformat()] returns, [ticks] counts the
    calls made so far. *)
Record State := {
  telemetry_store : gmap Z Packet;
  parameter_store : gmap string ParamData;
  command_queue : list pyval;
  clock : nat -> string;
  ticks : nat
}.

Definition initial_state (clock : nat -> string) : State :=
  {| telemetry_store := ∅; parameter_store := ∅; command_queue := [];
     clock := clock; ticks := 0 |}.

(** The reading the next call of [now()] returns. *)
Definition next_reading (st : State) : string := clock st (ticks st).

Definition advance (st : State) : State :=
  {| telemetry_store := telemetry_store st;
     parameter_store := parameter_store st;
     command_queue := command_queue st;
     clock := clock st; ticks := S (ticks st) |}.

(** [datetime.now(timezone.utc).isoformat()] *)
Definition now : M State string := fun st => (next_reading st, advance st).

Definition set_telemetry_store (ts : gmap Z Packet) (st : State) : State :=
  {| telemetry_store := ts;
     parameter_store := parameter_store st;
     command_queue := command_queue st;
     clock := clock st; ticks := ticks st |}.

Definition set_parameter_store (ps : gmap string ParamData) (st : State) : State :=
  {| telemetry_store := telemetry_store st;
     parameter_store := ps;
     command_queue := command_queue st;
     clock := clock st; ticks := ticks st |}.

(** [_get_units(param_name)] *)
Definition _get_units (param_name : string) : string :=
  let param_lower := py_lower param_name in
  if contains "temp" param_lower || contains "temperature" param_lower then "°C"
  else if contains "voltage" param_lower then "V"
  else if contains "current" param_lower then "A"
  else if contains "gyro" param_lower then "rad/s"
  else if contains "charge" param_lower then "%"
  else "".

(** The body of the loops [for key, value in telemetry[...].items()]. *)
Definition store_items (prefix : string) (units_of : string -> string)
    (stamp source : string) (items : list (string * pyval))
    (ps : gmap string ParamData) : gmap string ParamData :=
  fold_left
    (fun ps '(key, value) =>
       <[ prefix +:+ py_upper key :=
            {| pd_value := value; pd_timestamp := stamp; pd_validity := "VALID";
               pd_units := Some (units_of key); pd_quality := None;
               pd_source := Some source |} ]> ps)
    items ps.

(** [_extract_parameters(parsed, packet_id)] on the parameter store.  The
    flag is [false] when the call raises ([telemetry["measurements"]] or
    [telemetry["health"]] is not a dictionary and has no [.items()]); the
    store then keeps what was written before. *)
Definition _extract_parameters (parsed : Packet) (packet_id : Z)
    (ps : gmap string ParamData) : gmap string ParamData * bool :=
  let source := "Packet_" +:+ str_of_int packet_id in
  match telemetry parsed with
  | PDict t =>
      let measured :=
        match dict_get "measurements" t with
        | None => Some ps
        | Some (PDict m) =>
            Some (store_items "MEAS_" _get_units (timestamp parsed) source m ps)
        | Some _ => None
        end in
      match measured with
      | None => (ps, false)
      | Some ps1 =>
          let health :=
            match dict_get "health" t with
            | None => Some ps1
            | Some (PDict h) =>
                Some (store_items "HEALTH_" (fun _ => "") (timestamp parsed) source h ps1)
            | Some _ => None
            end in
          match health with
          | None => (ps1, false)
          | Some ps2 =>
              match dict_get "subsystem" t with
              | None => (ps2, true)
              | Some v =>
                  (<[ "SUBSYSTEM" :=
                        {| pd_value := v; pd_timestamp := timestamp parsed;
                           pd_validity := "VALID"; pd_units := Some "";
                           pd_quality := None; pd_source := Some source |} ]> ps2,
                   true)
              end
          end
      end
  | _ => (ps, true)
  end.

Section Receiver.
Context `{Json}.

(** One turn of the loop of [CCSDSReceiver.run] that received [data].  A
    parse error is printed and the stores stay as they are; an exception
    of [_extract_parameters] is caught by the loop after the telemetry
    store was written. *)
Definition receive (data : list byte) (st : State) : State :=
  match parse_packet data (next_reading st) with
  | ParseError _ => st
  | Parsed parsed =>
      let st := advance st in
      let packet_id := sequence_count (header parsed) in
      let st := set_telemetry_store (<[ packet_id := parsed ]> (telemetry_store st)) st in
      if is_dict (telemetry parsed)
      then set_parameter_store
             (fst (_extract_parameters parsed packet_id (parameter_store st))) st
      else st
  end.

(** The loop over the datagrams the socket delivers, in order. *)
Definition run (datagrams : list (list byte)) (st : State) : State :=
  fold_left (fun st data => receive data st) datagrams st.

End Receiver.

(* --------------------------------------------------------------------- *)
(** ** [POST /ccsds/parameters] *)
(* --------------------------------------------------------------------- *)

(** The pydantic model [Parameter] (a reserved word here, hence the
    underscore). *)
Record Parameter_ := {
  name : string;
  value : pyval;
  p_timestamp : string;
  validity : string;
  units : option string;
  quality : option string
}.

Record GetParameterValuesRequest := {
  parameterIds : list string;
  requestId : string
}.

Record GetParameterValuesResponse := {
  parameters : list Parameter_;
  r_requestId : string;
  r_timestamp : string
}.

(** The body of [for param_id in request.parameterIds]. *)
Definition get_one (param_id : string) : M State Parameter_ :=
  fun st =>
    let param_id_upper := py_upper param_id in
    match parameter_store st !! param_id_upper with
    | Some param_data =>
        ret {| name := param_id_upper;
               value := pd_value param_data;
               p_timestamp := pd_timestamp param_data;
               validity := pd_validity param_data;
               units := pd_units param_data;
               quality := Some (default "GOOD" (pd_quality param_data)) |} st
    | None =>
        (do stamp <- now;
         ret {| name := param_id_upper;
                value := PNone;
                p_timestamp := stamp;
                validity := "INVALID";
                units := None;
                quality := Some "UNKNOWN" |})%M st
    end.

(** What the response holds for the identifier [param_id] when the call
    ran from state [st] to state [st']: under the name it reports, which
    is the identifier in upper case (the model of [upper()] is Python's on
    ASCII text), the stored entry when that name is in the store, the
    synthesized one with a clock reading taken during the call
    otherwise. *)
Definition answers (st st' : State) (param_id : string) (p : Parameter_) : Prop :=
  (is_ascii param_id = true -> name p = py_upper param_id) /\
  match parameter_store st !! name p with
  | Some param_data =>
      value p = pd_value param_data /\
      p_timestamp p = pd_timestamp param_data /\
      validity p = pd_validity param_data /\
      units p = pd_units param_data /\
      quality p = Some (default "GOOD" (pd_quality param_data))
  | None =>
      value p = PNone /\
      validity p = "INVALID" /\
      quality p = Some "UNKNOWN" /\
      units p = None /\
      exists n : nat, (ticks st <= n < ticks st')%nat /\ p_timestamp p = clock st n
  end.

(** [get_ccsds_parameters(request)] *)
Definition get_ccsds_parameters (request : GetParameterValuesRequest)
  : M State GetParameterValuesResponse :=
  (do parameters <- for_each get_one (parameterIds request);
   do stamp <- now;
   ret {| parameters := parameters;
          r_requestId := requestId request;
          r_timestamp := stamp |})%M.

(* --------------------------------------------------------------------- *)
(** ** The other endpoints *)
(* --------------------------------------------------------------------- *)

(** [GET /parameter/{param_name}]: the upper-cased name and the stored
    entry, or 404. *)
Definition get_parameter (param_name : string) (st : State)
  : HTTPException + (string * ParamData) :=
  let param_name_upper := py_upper param_name in
  match parameter_store st !! param_name_upper with
  | None => inl (Http 404 (PStr ("Parameter '" +:+ param_name +:+ "' not found")))
  | Some param_data => inr (param_name_upper, param_data)
  end.

(** [GET /telemetry/{packet_id}] *)
Definition get_telemetry (packet_id : Z) (st : State) : HTTPException + Packet :=
  match telemetry_store st !! packet_id with
  | None => inl (Http 404 (PStr ("Packet " +:+ str_of_int packet_id +:+ " not found")))
  | Some parsed => inr parsed
  end.

(** [telemetry_store.keys()], in some order. *)
Definition telemetry_keys (st : State) : list Z :=
  map fst (map_to_list (telemetry_store st)).

(** [GET /telemetry/latest]: the packet under [max(telemetry_store.keys())].
    The lookup of that key cannot fail; the model answers 500 where it
    would. *)
Definition get_latest_telemetry (st : State) : HTTPException + Packet :=
  match telemetry_keys st with
  | [] => inl (Http 404 (PStr "No telemetry received"))
  | k :: ks =>
      let latest_id := fold_left Z.max ks k in
      match telemetry_store st !! latest_id with
      | Some parsed => inr parsed
      | None => inl (Http 500 PNone)
      end
  end.

(** [sorted(telemetry_store.keys(), reverse=True)]; the keys of a
    dictionary are distinct, so this is the ascending order reversed. *)
Definition sorted_keys_desc (st : State) : list Z :=
  reverse (merge_sort Z.le (telemetry_keys st)).

(** [GET /telemetry?limit=n]: the count and the packets, most recent
    sequence count first.  (A key of the list is in the store; [omap]
    would drop one that is not.) *)
Definition get_all_telemetry (limit : Z) (st : State) : Z * list (Z * Packet) :=
  let packet_ids := py_slice_to limit (sorted_keys_desc st) in
  (Z.of_nat (length packet_ids),
   omap (fun pid => pair pid <$> telemetry_store st !! pid) packet_ids).

(** The pydantic model [Telecommand] and its [.dict()]. *)
Record Telecommand := {
  commandId : string;
  serviceType : Z;
  serviceSubtype : Z;
  tc_parameters : list (string * pyval);
  tc_timestamp : string
}.

Definition telecommand_dict (command : Telecommand) : pyval :=
  PDict [("commandId", PStr (commandId command));
         ("serviceType", PInt (serviceType command));
         ("serviceSubtype", PInt (serviceSubtype command));
         ("parameters", PDict (tc_parameters command));
         ("timestamp", PStr (tc_timestamp command))].

Record TelecommandResponse := {
  tr_commandId : string;
  tr_status : string;
  tr_timestamp : string;
  tr_message : option string
}.

Definition append_command (c : pyval) : M State unit :=
  fun st =>
    (tt,
     {| telemetry_store := telemetry_store st;
        parameter_store := parameter_store st;
        command_queue := command_queue st ++ [c];
        clock := clock st; ticks := ticks st |}).

(** [POST /commands/send] *)
Definition send_telecommand (command : Telecommand) : M State TelecommandResponse :=
  (do _ <- append_command (telecommand_dict command);
   do stamp <- now;
   ret {| tr_commandId := commandId command;
          tr_status := "ACKNOWLEDGED";
          tr_timestamp := stamp;
          tr_message := Some ("Telecommand " +:+ commandId command
                              +:+ " queued for transmission") |})%M.

(** [GET /commands/pending]: the length of the queue and its last ten
    commands. *)
Definition get_pending_commands (st : State) : Z * list pyval :=
  (Z.of_nat (length (command_queue st)), py_last 10 (command_queue st)).

(** The dictionary [GET /statistics] returns once telemetry has come. *)
Record Statistics := {
  total_packets : Z;
  unique_apids : Z;
  latest_packet : Z;
  oldest_packet : Z;
  total_monitored : Z;
  valid_parameters : Z;
  pending : Z
}.

(** [GET /statistics]; [None] is the answer
    [{"message": "No telemetry received yet"}]. *)
Definition get_statistics (st : State) : option Statistics :=
  match telemetry_keys st with
  | [] => None
  | k :: ks =>
      let apids :=
        remove_dups (map (fun kp => apid (header (snd kp)))
                         (map_to_list (telemetry_store st))) in
      Some {| total_packets := Z.of_nat (size (telemetry_store st));
              unique_apids := Z.of_nat (length apids);
              latest_packet := fold_left Z.max ks k;
              oldest_packet := fold_left Z.min ks k;
              total_monitored := Z.of_nat (size (parameter_store st));
              valid_parameters :=
                Z.of_nat (length (List.filter
                                    (fun kp => String.eqb (pd_validity (snd kp)) "VALID")
                                    (map_to_list (parameter_store st))));
              pending := Z.of_nat (length (command_queue st)) |}
  end.

End MoService.

(* ===================================================================== *)
(** * Python [str()] and [repr()] *)
(* ===================================================================== *)

Module PyStr.

Definition hex2 (n : nat) : string :=
  String (hex_digit (Z.of_nat (n / 16))) (String (hex_digit (Z.of_nat (n mod 16))) "").

(** The double quote character. *)
Definition dquote : ascii := ascii_of_nat 34.

(** One character of [repr(s)] inside the quotes [q]. *)
Definition repr_char (q c : ascii) : string :=
  let n := nat_of_ascii c in
  if Ascii.eqb c "\"%char then "\\"
  else if Ascii.eqb c q then String "\"%char (String q "")
  else if (n =? 10)%nat then "\n"
  else if (n =? 13)%nat then "\r"
  else if (n =? 9)%nat then "\t"
  else if ((n <? 32) || (n =? 127))%nat then "\x" +:+ hex2 n
  else String c "".

Fixpoint repr_chars (q : ascii) (s : string) : string :=
  match s with
  | EmptyString => EmptyString
  | String c rest => repr_char q c +:+ repr_chars q rest
  end.

(** [repr(s)] for a [str]: single quotes, unless the text holds a single
    quote and no double quote.  Bytes above 127 are kept as they are, as
    Python keeps printable non-ASCII characters. *)
Definition repr_str (s : string) : string :=
  let q := if contains "'" s && negb (contains (String dquote "") s)
           then dquote else "'"%char in
  String q (repr_chars q s +:+ String q "").

Definition join (sep : string) (parts : list string) : string :=
  match parts with
  | [] => ""
  | p :: rest => fold_left (fun acc x => acc +:+ sep +:+ x) rest p
  end.

(** [repr(v)] *)
Fixpoint py_repr (v : pyval) : string :=
  match v with
  | PNone => "None"
  | PBool true => "True"
  | PBool false => "False"
  | PInt z => str_of_int z
  | PFloat r => r
  | PStr s => repr_str s
  | PList items => "[" +:+ join ", " (map py_repr items) +:+ "]"
  | PDict entries =>
      "{" +:+ join ", "
                (map (fun kv => repr_str (fst kv) +:+ ": " +:+ py_repr (snd kv)) entries)
          +:+ "}"
  end.

(** [str(v)]: the text itself for a [str], the [repr] otherwise. *)
Definition py_str (v : pyval) : string :=
  match v with
  | PStr s => s
  | _ => py_repr v
  end.

End PyStr.

Import PyStr.

(* ===================================================================== *)
(** * xml.etree.ElementTree *)
(* ===================================================================== *)

(** The part of the standard library's element trees that
    [xml_validator.py] and [mo_service_xml.py] use. *)
Module ET.

(** An [Element]: tag, attribute dictionary, text before the first child,
    children.  (The [tail] is written by [indent] only and never read by
    the repository's code; it is left out.) *)
Inductive Element : Type :=
| Elem (tag : string) (attrib : list (string * string)) (text : option string)
       (children : list Element).

Definition tag (e : Element) : string := match e with Elem t _ _ _ => t end.
Definition attrib (e : Element) : list (string * string) :=
  match e with Elem _ a _ _ => a end.
Definition text (e : Element) : option string := match e with Elem _ _ x _ => x end.
Definition children (e : Element) : list Element :=
  match e with Elem _ _ _ cs => cs end.

(** [attrib[k] = v] on the attribute dictionary. *)
Fixpoint attrib_set (k v : string) (a : list (string * string))
  : list (string * string) :=
  match a with
  | [] => [(k, v)]
  | (k', v') :: rest =>
      if String.eqb k k' then (k', v) :: rest else (k', v') :: attrib_set k v rest
  end.

Fixpoint attrib_get (k : string) (a : list (string * string)) : option string :=
  match a with
  | [] => None
  | (k', v) :: rest => if String.eqb k k' then Some v else attrib_get k rest
  end.

(** [element.set(k, v)] *)
Definition set (k v : string) (e : Element) : Element :=
  match e with Elem t a x cs => Elem t (attrib_set k v a) x cs end.

(** [s.endswith(suffix)] *)
Definition ends_with (suffix s : string) : bool :=
  let n := String.length s in
  let k := String.length suffix in
  (k <=? n)%nat && String.eqb (substring (n - k) k s) suffix.

(** The path step [{*}name]: the tag [name] in any namespace or in none. *)
Definition tag_matches (name el_tag : string) : bool :=
  String.eqb el_tag name || ends_with (String "}" name) el_tag.

(** The elements below [e], in document order: what [.//] ranges over. *)
Fixpoint descendants (e : Element) : list Element :=
  match e with
  | Elem _ _ _ cs => flat_map (fun c => c :: descendants c) cs
  end.

(** [e.findall('.//{*}name')] and [e.find('.//{*}name')] *)
Definition findall (name : string) (e : Element) : list Element :=
  List.filter (fun d => tag_matches name (tag d)) (descendants e).

Definition find (name : string) (e : Element) : option Element :=
  head (findall name e).

(** [not text or not text.strip()] *)
Definition blank (x : option string) : bool :=
  match x with
  | None => true
  | Some s => String.eqb (py_strip s) ""
  end.

Fixpoint spaces (n : nat) : string :=
  match n with
  | O => ""
  | S n' => "  " +:+ spaces n'
  end.

(** ["\n" + level * space] *)
Definition indentation (level : nat) : string := String (ascii_of_nat 10) (spaces level).

(** [_indent_children(elem, level)], entered for elements with children
    only. *)
Fixpoint indent_at (level : nat) (e : Element) : Element :=
  match e with
  | Elem t a x cs =>
      match cs with
      | [] => e
      | _ :: _ =>
          Elem t a (if blank x then Some (indentation (S level)) else x)
               (map (indent_at (S level)) cs)
      end
  end.

(** [ET.indent(tree, space="  ", level=0)] *)
Definition indent (e : Element) : Element := indent_at 0 e.

(** ** Text out, text in

    The XML text [ET.tostring] writes is kept as the tree it spells.
    [fromstring] reads such a text back as the parser does: an [xmlns]
    attribute declares the default namespace of its element and of the
    elements below, an [xmlns:prefix] attribute declares a prefix, neither
    is reported as an attribute, and a tag in a namespace reads
    [{uri}tag].  The model covers documents whose names are plain ASCII
    names without prefix, whose text is printable ASCII, line feeds and
    tabs, and whose attribute values are printable ASCII; on any other
    document it answers [None], as it does where the parser raises
    [ParseError]. *)
Inductive document : Type := Document (root : Element).

Definition tostring (e : Element) : document := Document e.

Definition is_letter (n : nat) : bool :=
  (((65 <=? n) && (n <=? 90)) || ((97 <=? n) && (n <=? 122)))%nat.

Definition name_start_char (c : ascii) : bool :=
  let n := nat_of_ascii c in is_letter n || (n =? 95)%nat.

Definition name_char (c : ascii) : bool :=
  let n := nat_of_ascii c in
  (is_letter n || ((48 <=? n) && (n <=? 57)) || (n =? 95) || (n =? 45) || (n =? 46))%nat.

Fixpoint all_chars (f : ascii -> bool) (s : string) : bool :=
  match s with
  | EmptyString => true
  | String c rest => f c && all_chars f rest
  end.

(** A name of the modelled fragment. *)
Definition xml_name_ok (s : string) : bool :=
  match s with
  | EmptyString => false
  | String c rest => name_start_char c && all_chars name_char rest
  end.

Definition data_char (c : ascii) : bool :=
  let n := nat_of_ascii c in
  (((32 <=? n) && (n <=? 126)) || (n =? 10) || (n =? 9))%nat.

(** Character data of the modelled fragment. *)
Definition xml_data_ok (s : string) : bool := all_chars data_char s.

(** Attribute values of the modelled fragment: printable ASCII only (the
    parser turns white space in attribute values into spaces). *)
Definition attr_data_char (c : ascii) : bool :=
  let n := nat_of_ascii c in ((32 <=? n) && (n <=? 126))%nat.

Definition xml_attr_data_ok (s : string) : bool := all_chars attr_data_char s.

(** A prefix declaration [xmlns:p] the model reads: [p] is a name that
    does not start with the reserved letters [xml]. *)
Definition prefix_decl (k : string) : bool :=
  String.prefix "xmlns:" k &&
  let p := substring 6 (String.length k - 6) k in
  xml_name_ok p && negb (String.prefix "xml" (py_lower p)).

Definition is_decl (k : string) : bool := String.eqb k "xmlns" || prefix_decl k.

(** An attribute the model reads: a declaration (a prefix is bound to a
    non-empty URI) or a plain name, with data of the fragment. *)
Definition attr_ok (kv : string * string) : bool :=
  xml_attr_data_ok (snd kv) &&
  (String.eqb (fst kv) "xmlns"
   || (prefix_decl (fst kv) && negb (String.eqb (snd kv) ""))
   || xml_name_ok (fst kv)).

Definition qualify (ns t : string) : string :=
  if String.eqb ns "" then t else "{" +:+ ns +:+ "}" +:+ t.

(** Children are read one after the other; one that fails fails the
    document. *)
Fixpoint sequence {A : Type} (l : list (option A)) : option (list A) :=
  match l with
  | [] => Some []
  | None :: _ => None
  | Some x :: rest =>
      match sequence rest with
      | Some xs => Some (x :: xs)
      | None => None
      end
  end.

(** Reading the element [e] in the scope of the default namespace [ns]. *)
Fixpoint read (ns : string) (e : Element) : option Element :=
  match e with
  | Elem t a x cs =>
      let ns' := match attrib_get "xmlns" a with Some uri => uri | None => ns end in
      if xml_name_ok t && forallb attr_ok a
         && match x with Some s => xml_data_ok s | None => true end
      then
        match sequence (map (read ns') cs) with
        | Some cs' =>
            Some (Elem (qualify ns' t)
                       (List.filter (fun kv => negb (is_decl (fst kv))) a)
                       (match x with Some "" => None | _ => x end)
                       cs')
        | None => None
        end
      else None
  end.

(** [ET.fromstring(text)] *)
Definition fromstring (d : document) : option Element :=
  match d with Document e => read "" e end.

End ET.

(* ===================================================================== *)
(** * xml_validator.py: the tree codec *)
(* ===================================================================== *)

Module XmlValidator.
Import ET.

Definition reserved (k : string) : bool :=
  String.eqb k "@attributes" || String.eqb k "#text".

(** The inner function [dict_to_element(tag, value)] of [dict_to_xml].
    The result is [None] where the code raises: the value under
    ['@attributes'] has no [.items()]. *)
Fixpoint dict_to_element (tag : string) (value : pyval) {struct value}
  : option Element :=
  match value with
  | PDict entries =>
      let attrs :=
        match dict_get "@attributes" entries with
        | None => Some []
        | Some (PDict a) =>
            Some (fold_left (fun acc kv => attrib_set (fst kv) (py_str (snd kv)) acc) a [])
        | Some _ => None
        end in
      let text :=
        match dict_get "#text" entries with
        | Some v => Some (py_str v)
        | None => None
        end in
      let kids :=
        (fix each_entry (l : list (string * pyval)) : option (list Element) :=
           match l with
           | [] => Some []
           | (child_tag, child_value) :: rest =>
               if reserved child_tag then each_entry rest
               else
                 let made :=
                   match child_value with
                   | PList items =>
                       (fix each_item (l : list pyval) : option (list Element) :=
                          match l with
                          | [] => Some []
                          | item :: l' =>
                              match dict_to_element child_tag item, each_item l' with
                              | Some e, Some es => Some (e :: es)
                              | _, _ => None
                              end
                          end) items
                   | _ =>
                       match dict_to_element child_tag child_value with
                       | Some e => Some [e]
                       | None => None
                       end
                   end in
                 match made, each_entry rest with
                 | Some es, Some more => Some (es ++ more)
                 | _, _ => None
                 end
           end) entries in
      match attrs, kids with
      | Some a, Some cs => Some (Elem tag a text cs)
      | _, _ => None
      end
  | PList items =>
      let kids :=
        (fix each_item (l : list pyval) : option (list Element) :=
           match l with
           | [] => Some []
           | item :: l' =>
               match dict_to_element "item" item, each_item l' with
               | Some e, Some es => Some (e :: es)
               | _, _ => None
               end
           end) items in
      match kids with
      | Some cs => Some (Elem tag [] None cs)
      | None => None
      end
  | _ => Some (Elem tag [] (Some (py_str value)) [])
  end.

(** The three loops of [dict_to_element], by name: the elements made for
    the items of a list, for one dictionary entry, for all the entries. *)
Definition make_items (child_tag : string) (items : list pyval)
  : option (list Element) :=
  sequence (map (dict_to_element child_tag) items).

Definition make_children (child_tag : string) (child_value : pyval)
  : option (list Element) :=
  match child_value with
  | PList items => make_items child_tag items
  | _ => match dict_to_element child_tag child_value with
         | Some e => Some [e]
         | None => None
         end
  end.

Fixpoint make_all (entries : list (string * pyval)) : option (list Element) :=
  match entries with
  | [] => Some []
  | (child_tag, child_value) :: rest =>
      if reserved child_tag then make_all rest
      else match make_children child_tag child_value, make_all rest with
           | Some es, Some more => Some (es ++ more)
           | _, _ => None
           end
  end.

Definition make_attrs (entries : list (string * pyval))
  : option (list (string * string)) :=
  match dict_get "@attributes" entries with
  | None => Some []
  | Some (PDict a) =>
      Some (fold_left (fun acc kv => attrib_set (fst kv) (py_str (snd kv)) acc) a [])
  | Some _ => None
  end.

Definition make_text (entries : list (string * pyval)) : option string :=
  match dict_get "#text" entries with
  | Some v => Some (py_str v)
  | None => None
  end.

Definition mo_namespace : string :=
  "http://www.ccsds.org/schema/Service/MonitorAndControl".
Definition common_namespace : string := "http://www.ccsds.org/schema/Common".

(** [dict_to_xml(data, root_tag)] *)
Definition dict_to_xml (data : pyval) (root_tag : string) : option document :=
  match dict_to_element root_tag data with
  | Some root =>
      let root := set "xmlns" mo_namespace root in
      let root := set "xmlns:common" common_namespace root in
      Some (tostring (indent root))
  | None => None
  end.

(** [s.split(sep)] for a one-character separator. *)
Fixpoint split_on (sep : ascii) (s : string) : list string :=
  match s with
  | EmptyString => [EmptyString]
  | String c rest =>
      if Ascii.eqb c sep then EmptyString :: split_on sep rest
      else match split_on sep rest with
           | [] => [String c EmptyString]
           | first :: more => String c first :: more
           end
  end.

(** [if '}' in tag: tag = tag.split('}')[1]] *)
Definition local_tag (t : string) : string :=
  if contains "}" t then nth 1 (split_on "}" t) "" else t.

(** The body of the loop over the children: merge a child's dictionary
    into [result] under [t]. *)
Definition add_child (result : list (string * pyval)) (t : string) (child_dict : pyval)
  : list (string * pyval) :=
  match dict_get t result with
  | Some (PList l) => dict_set t (PList (l ++ [child_dict])) result
  | Some old => dict_set t (PList [old; child_dict]) result
  | None => dict_set t child_dict result
  end.

(** [_element_to_dict(element)] *)
Fixpoint _element_to_dict (element : Element) : pyval :=
  match element with
  | Elem _ a x cs =>
      let result :=
        match a with
        | [] => []
        | _ :: _ => [("@attributes", PDict (map (fun kv => (fst kv, PStr (snd kv))) a))]
        end in
      match cs with
      | _ :: _ =>
          PDict (fold_left
                   (fun result child =>
                      add_child result (local_tag (tag child)) (_element_to_dict child))
                   cs result)
      | [] =>
          match x with
          | Some s =>
              if negb (String.eqb s "") && negb (String.eqb (py_strip s) "")
              then PDict (dict_set "#text" (PStr (py_strip s)) result)
              else PDict result
          | None => PDict result
          end
      end
  end.

(** [xml_to_dict(xml_content)].  [None] stands for the dictionary
    [{"error": str(e)}] the code returns when the parser raises; the
    parser's message is not modelled. *)
Definition xml_to_dict (xml_content : document) : option pyval :=
  match fromstring xml_content with
  | Some root => Some (_element_to_dict root)
  | None => None
  end.

(** A tree through the codec and back. *)
Definition round_trip (t : pyval) (root_tag : string) : option pyval :=
  match dict_to_xml t root_tag with
  | Some xml => xml_to_dict xml
  | None => None
  end.

(** ** Validation *)

(** The exceptions that [validate_mo_xml] and the XML endpoint catch. *)
Inductive Exception : Type :=
| ET_ParseError (xml_content : document)
| KeyError (key : string)
| XMLSchemaValidationError (xml_content : document)
| TypeError
| AttributeError
| Raised (e : HTTPException).

(** What the services take from outside the repository: the schema
    [load_schemas] stored under the key ['mo'], when its file was there,
    as the test that [schema.validate] makes (it raises where the test
    fails); [str(e)] for an exception that was caught; and the characters
    of an XML text, of which the services keep a prefix:
    [text_prefix n d] is [d[:n]]. *)
Class Library := {
  mo_schema : option (document -> bool);
  str_exception : Exception -> string;
  text_prefix : Z -> document -> string
}.

(** The chain of tests on [root.tag] in [validate_mo_xml]. *)
Definition classify (root_tag : string) : option string :=
  if contains "GetParameterValuesRequest" root_tag then Some "GetParameterValuesRequest"
  else if contains "GetParameterValuesResponse" root_tag
       then Some "GetParameterValuesResponse"
  else if contains "SetParameterValuesRequest" root_tag
       then Some "SetParameterValuesRequest"
  else if contains "SetParameterValuesResponse" root_tag
       then Some "SetParameterValuesResponse"
  else if contains "GetServiceInfoRequest" root_tag then Some "GetServiceInfoRequest"
  else if contains "GetServiceInfoResponse" root_tag then Some "GetServiceInfoResponse"
  else None.

(** [_semantic_validation(root, operation)]: the warnings of the result
    (its recommendations are always empty), or the exception raised: a
    [TypeError] where the text of the timestamp element is [None]. *)
Definition _semantic_validation (root : Element) (operation : string)
  : Exception + list string :=
  if contains "GetParameterValuesRequest" operation then
    match find "parameterIdList" root with
    | Some param_list =>
        let params := findall "parameterId" param_list in
        inr ((if (length params =? 0)%nat then ["Parameter list is empty"] else []) ++
             (if (1000 <? length params)%nat
              then ["Parameter list exceeds recommended limit of 1000"] else []))
    | None => inr []
    end
  else if contains "GetParameterValuesResponse" operation then
    let checked :=
      match find "timestamp" root with
      | Some timestamp =>
          match text timestamp with
          | Some ts_text =>
              inr (if negb (contains "Z" ts_text || contains "+" ts_text
                            || contains "-" ts_text)
                   then ["Timestamp should include timezone indicator"] else [])
          | None => inl TypeError
          end
      | None => inr []
      end in
    match checked with
    | inl e => inl e
    | inr warnings =>
        inr (warnings ++
             match find "result" root with
             | Some result_elem =>
                 match find "status" result_elem with
                 | Some status =>
                     match text status, find "errorCode" result_elem with
                     | Some "FAILURE", None =>
                         ["Failure result should include error code"]
                     | _, _ => []
                     end
                 | None => []
                 end
             | None => []
             end)
    end
  else inr [].

(** The dictionary [validate_mo_xml] returns: valid with the operation
    and the warnings, or not valid with the errors and, where the
    dictionary has the key, the operation. *)
Inductive Validation : Type :=
| Valid (operation : string) (warnings : list string)
| Invalid (errors : list string) (operation : option string).

Section Validate.
Context `{Library}.

(** [validate_mo_xml(xml_content, operation)] *)
Definition validate_mo_xml (xml_content : document) (operation : string) : Validation :=
  match fromstring xml_content with
  | None => Invalid [str_exception (ET_ParseError xml_content)] (Some operation)
  | Some root =>
      match classify (tag root) with
      | None => Invalid ["Unknown operation type: " +:+ tag root] None
      | Some named =>
          match mo_schema with
          | None => Invalid [str_exception (KeyError "mo")] (Some operation)
          | Some schema_validate =>
              if schema_validate xml_content then
                match _semantic_validation root named with
                | inr warnings => Valid named warnings
                | inl e => Invalid [str_exception e] (Some named)
                end
              else Invalid [str_exception (XMLSchemaValidationError xml_content)]
                           (Some named)
          end
      end
  end.

End Validate.

(** ** Trees in the form [xml_to_dict] produces *)

(** The text of a leaf as [_element_to_dict] reports it: not empty, no
    white space at either end, character data of the fragment. *)
Definition canonical_text (s : string) : bool :=
  xml_data_ok s && negb (String.eqb s "") && String.eqb (py_strip s) s.

(** An attribute as [_element_to_dict] reports it: a plain name that is
    not a namespace declaration, with a string value. *)
Definition canonical_attr (kv : string * pyval) : bool :=
  xml_name_ok (fst kv) && negb (String.eqb (fst kv) "xmlns") &&
  match snd kv with
  | PStr s => xml_attr_data_ok s
  | _ => false
  end.

Fixpoint keys_distinct {A : Type} (l : list (string * A)) : bool :=
  match l with
  | [] => true
  | (k, _) :: rest => negb (existsb (String.eqb k) (map fst rest)) && keys_distinct rest
  end.

Definition canonical_attrs (a : list (string * pyval)) : bool :=
  match a with
  | [] => false
  | _ :: _ => forallb canonical_attr a && keys_distinct a
  end.

(** A tree in the form [_element_to_dict] produces: a dictionary that
    starts with its ['@attributes'] (a non-empty dictionary of strings)
    when it has any, and goes on either with the ['#text'] of a leaf or
    with one entry per child tag, each tag once, holding the child's
    dictionary or, for a tag met at least twice, the list of the
    children's dictionaries. *)
Fixpoint canonical (v : pyval) : bool :=
  match v with
  | PDict entries =>
      let child_ok (kv : string * pyval) : bool :=
        let '(k, child) := kv in
        xml_name_ok k &&
        match child with
        | PDict _ => canonical child
        | PList items =>
            (2 <=? length items)%nat &&
            forallb (fun item => is_dict item && canonical item) items
        | _ => false
        end in
      let body_ok (body : list (string * pyval)) : bool :=
        match body with
        | [(k, PStr s)] => String.eqb k "#text" && canonical_text s
        | _ => forallb child_ok body && keys_distinct body
        end in
      match entries with
      | (k, PDict a) :: rest =>
          if String.eqb k "@attributes" then canonical_attrs a && body_ok rest
          else body_ok entries
      | _ => body_ok entries
      end
  | _ => false
  end.

(** A dictionary is kept here as the list of its items, in the order of
    insertion.  [attributes_first t] is [t] with ['@attributes'] as the
    first item of every dictionary that has one, which is where
    [_element_to_dict] inserts it. *)
Fixpoint attributes_first (v : pyval) : pyval :=
  match v with
  | PDict entries =>
      let below :=
        (fix each (l : list (string * pyval)) : list (string * pyval) :=
           match l with
           | [] => []
           | (k, child) :: rest =>
               (k, if reserved k then child else attributes_first child) :: each rest
           end) entries in
      match dict_get "@attributes" below with
      | Some a =>
          PDict (("@attributes", a)
                 :: List.filter (fun kv => negb (String.eqb (fst kv) "@attributes")) below)
      | None => PDict below
      end
  | PList items =>
      PList ((fix each (l : list pyval) : list pyval :=
                match l with
                | [] => []
                | item :: rest => attributes_first item :: each rest
                end) items)
  | _ => v
  end.

(** The two steps of [attributes_first] on the items of a dictionary. *)
Definition items_below (entries : list (string * pyval)) : list (string * pyval) :=
  map (fun kv => (fst kv, if reserved (fst kv) then snd kv
                          else attributes_first (snd kv))) entries.

Definition attributes_front (l : list (string * pyval)) : list (string * pyval) :=
  match dict_get "@attributes" l with
  | Some a =>
      ("@attributes", a)
      :: List.filter (fun kv => negb (String.eqb (fst kv) "@attributes")) l
  | None => l
  end.

(** [a == b] on trees, as far as the order of the items of a dictionary
    goes: two dictionaries are equal when they hold equal values under
    every key, two lists when their items are equal one by one. *)
Inductive py_eq : pyval -> pyval -> Prop :=
| py_eq_same (v : pyval) : py_eq v v
| py_eq_list (l1 l2 : list pyval) :
    Forall2 py_eq l1 l2 -> py_eq (PList l1) (PList l2)
| py_eq_dict (d1 d2 : list (string * pyval)) :
    (forall k, option_Forall2 py_eq (dict_get k d1) (dict_get k d2)) ->
    py_eq (PDict d1) (PDict d2).

(** The attributes of a canonical tree, as strings. *)
Definition attr_strings (a : list (string * pyval)) : list (string * string) :=
  map (fun kv => (fst kv, py_str (snd kv))) a.

(** The dictionary [_element_to_dict] starts from: the attributes, when
    there are any. *)
Definition attrs_entry (a : list (string * string)) : list (string * pyval) :=
  match a with
  | [] => []
  | _ :: _ => [("@attributes", PDict (map (fun kv => (fst kv, PStr (snd kv))) a))]
  end.

(** The two conditions inside [canonical], by name. *)
Definition child_ok (kv : string * pyval) : bool :=
  let '(k, child) := kv in
  xml_name_ok k &&
  match child with
  | PDict _ => canonical child
  | PList items =>
      (2 <=? length items)%nat &&
      forallb (fun item => is_dict item && canonical item) items
  | _ => false
  end.

Definition body_ok (body : list (string * pyval)) : bool :=
  match body with
  | [(k, PStr s)] => String.eqb k "#text" && canonical_text s
  | _ => forallb child_ok body && keys_distinct body
  end.

(** The tree [t], written under [tag] at nesting depth [level] and read
    back in the service namespace, is [t] again; the element written
    declares no namespace of its own. *)
Definition reads_back (tag : string) (level : nat) (t : pyval) : Prop :=
  exists e e',
    dict_to_element tag t = Some e /\
    read mo_namespace (indent_at level e) = Some e' /\
    ET.tag e' = qualify mo_namespace tag /\
    _element_to_dict e' = t /\
    ("xmlns" ∉ map fst (attrib e)) /\
    ("xmlns:common" ∉ map fst (attrib e)).

(** What the loop over the children sees of a child: its local tag and
    its dictionary. *)
Definition seen (child : Element) : string * pyval :=
  (local_tag (ET.tag child), _element_to_dict child).

(** The dictionaries a dictionary entry stands for: itself, or the items
    of a list. *)
Definition items_of (child : pyval) : list pyval :=
  match child with
  | PList items => items
  | _ => [child]
  end.

(** The loop over the children in [_element_to_dict], on the pairs of a
    child's local tag and dictionary. *)
Definition merge (pairs : list (string * pyval)) (result : list (string * pyval))
  : list (string * pyval) :=
  fold_left (fun result p => add_child result (fst p) (snd p)) pairs result.

(** A measure of a value: the number of its nodes. *)
Fixpoint pysize (v : pyval) : nat :=
  match v with
  | PList items => S (list_sum (map pysize items))
  | PDict entries => S (list_sum (map (fun kv => pysize (snd kv)) entries))
  | _ => 1
  end.

End XmlValidator.

(* ===================================================================== *)
(** * mo_service_xml.py *)
(* ===================================================================== *)

Module MoServiceXml.
Import ET XmlValidator.

(** What the receiver of this service stores per datagram. *)
Record Datagram := {
  d_source : string;
  d_size : Z;
  d_timestamp : string
}.

(** An entry of [command_queue]: the request id, the extracted parameter
    sets (the text of each [parameterId] element and the
    [parameterValue] element itself) and the time of queueing. *)
Record Command := {
  c_request_id : option string;
  c_parameters : list (option string * Element);
  c_timestamp : string
}.

(** An entry of [xml_requests]; [x_xml] holds the first 1000 characters
    of the XML text. *)
Record XmlRequest := {
  x_request_id : option string;
  x_operation : string;
  x_timestamp : string;
  x_xml : string
}.

(** The module-level stores, with the wall clock as in [MoService]. *)
Record State := {
  telemetry_store : gmap Z Datagram;
  parameter_store : gmap string ParamData;
  command_queue : list Command;
  xml_requests : list XmlRequest;
  clock : nat -> string;
  ticks : nat
}.

Definition next_reading (st : State) : string := clock st (ticks st).

(** [datetime.now(timezone.utc).isoformat()] *)
Definition now : M State string :=
  fun st =>
    (next_reading st,
     {| telemetry_store := telemetry_store st;
        parameter_store := parameter_store st;
        command_queue := command_queue st;
        xml_requests := xml_requests st;
        clock := clock st; ticks := S (ticks st) |}).

Definition put_datagram (packet_id : Z) (d : Datagram) : M State unit :=
  fun st =>
    (tt,
     {| telemetry_store := <[ packet_id := d ]> (telemetry_store st);
        parameter_store := parameter_store st;
        command_queue := command_queue st;
        xml_requests := xml_requests st;
        clock := clock st; ticks := ticks st |}).

Definition queue_command (c : Command) : M State unit :=
  fun st =>
    (tt,
     {| telemetry_store := telemetry_store st;
        parameter_store := parameter_store st;
        command_queue := command_queue st ++ [c];
        xml_requests := xml_requests st;
        clock := clock st; ticks := ticks st |}).

Definition log_xml (x : XmlRequest) : M State unit :=
  fun st =>
    (tt,
     {| telemetry_store := telemetry_store st;
        parameter_store := parameter_store st;
        command_queue := command_queue st;
        xml_requests := xml_requests st ++ [x];
        clock := clock st; ticks := ticks st |}).

(** One turn of the loop of this service's [CCSDSReceiver.run], for the
    datagram [data] received from address [addr]. *)
Definition receive (data : list byte) (addr : string) : M State unit :=
  fun st =>
    let packet_id := Z.of_nat (size (telemetry_store st)) in
    (do stamp <- now;
     put_datagram packet_id
       {| d_source := addr; d_size := len data; d_timestamp := stamp |})%M st.

(** The pydantic model [JSONParameter]. *)
Record JSONParameter := {
  name : string;
  value : pyval;
  timestamp : string;
  validity : string;
  units : option string
}.

Record JSONGetParameterValuesRequest := {
  parameterIds : list string;
  requestId : string
}.

Record JSONGetParameterValuesResponse := {
  parameters : list JSONParameter;
  r_requestId : string;
  r_timestamp : string
}.

(** The body of the loop of [json_get_parameter_values]. *)
Definition json_get_one (param_id : string) : M State JSONParameter :=
  fun st =>
    let param_id_upper := py_upper param_id in
    match parameter_store st !! param_id_upper with
    | Some param_data =>
        ret {| name := param_id_upper;
               value := pd_value param_data;
               timestamp := pd_timestamp param_data;
               validity := pd_validity param_data;
               units := pd_units param_data |} st
    | None =>
        (do stamp <- now;
         ret {| name := param_id_upper;
                value := PNone;
                timestamp := stamp;
                validity := "INVALID";
                units := None |})%M st
    end.

(** [json_get_parameter_values(request)] *)
Definition json_get_parameter_values (request : JSONGetParameterValuesRequest)
  : M State JSONGetParameterValuesResponse :=
  (do parameters <- for_each json_get_one (parameterIds request);
   do stamp <- now;
   ret {| parameters := parameters;
          r_requestId := requestId request;
          r_timestamp := stamp |})%M.

(** A string that may be [None], as a Python value. *)
Definition opt_str (o : option string) : pyval :=
  match o with
  | Some s => PStr s
  | None => PNone
  end.

(** The [param_ids] list of [_process_get_parameter_values_xml]. *)
Definition get_param_ids (root : Element) : list (option string) :=
  match find "parameterIdList" root with
  | Some param_list => map text (findall "parameterId" param_list)
  | None => []
  end.

(** The body of the loop [for param_id in param_ids]: the [param_dict]
    appended to the response. *)
Definition xml_get_one (param_id : option string) : M State pyval :=
  fun st =>
    let param_id_upper :=
      match param_id with
      | Some s => if String.eqb s "" then "" else py_upper s
      | None => ""
      end in
    match parameter_store st !! param_id_upper with
    | Some param_data =>
        ret (PDict [
          ("parameterId", PStr param_id_upper);
          ("parameterValue",
             PDict [("floatValue",
                     if is_int_or_float (pd_value param_data)
                     then pd_value param_data else PFloat "0.0")]);
          ("validity", PStr (pd_validity param_data));
          ("generationTime", PStr (pd_timestamp param_data));
          ("qualityIndicator", PStr "GOOD")]) st
    | None =>
        (do stamp <- now;
         ret (PDict [
           ("parameterId", PStr param_id_upper);
           ("parameterValue", PDict [("stringValue", PStr "NOT_FOUND")]);
           ("validity", PStr "INVALID");
           ("generationTime", PStr stamp);
           ("qualityIndicator", PStr "UNKNOWN")]))%M st
    end.

(** The [response_dict] of [_process_get_parameter_values_xml] once the
    loop has filled its parameter list. *)
Definition get_response_dict (request_id : option string) (stamp : string)
    (params : list pyval) : pyval :=
  PDict [
    ("parameterList", PDict [("parameter", PList params)]);
    ("requestId", opt_str request_id);
    ("timestamp", PStr stamp);
    ("result", PDict [("status", PStr "SUCCESS")])].

Section GetHandler.
Context `{Library}.

(** [_process_get_parameter_values_xml(root, request_id)].  [None] is an
    exception of [dict_to_xml], which leaves the function before the
    response is logged. *)
Definition _process_get_parameter_values_xml (root : Element)
    (request_id : option string) : M State (option document) :=
  let param_ids := get_param_ids root in
  (do stamp <- now;
   do params <- for_each xml_get_one param_ids;
   match dict_to_xml (get_response_dict request_id stamp params)
                     "GetParameterValuesResponse" with
   | Some response_xml =>
       do logged <- now;
       do _ <- log_xml {| x_request_id := request_id;
                          x_operation := "GetParameterValuesResponse";
                          x_timestamp := logged;
                          x_xml := text_prefix 1000 response_xml |};
       ret (Some response_xml)
   | None => ret None
   end)%M.

End GetHandler.

(** The [param_sets] list of [_process_set_parameter_values_xml]. *)
Definition get_param_sets (root : Element) : list (option string * Element) :=
  match find "parameterSetList" root with
  | Some param_set_list =>
      flat_map
        (fun param_set_elem =>
           match find "parameterId" param_set_elem,
                 find "parameterValue" param_set_elem with
           | Some param_id_elem, Some param_value_elem =>
               [(text param_id_elem, param_value_elem)]
           | _, _ => []
           end)
        (findall "parameterSet" param_set_list)
  | None => []
  end.

(** The body of the loop [for param_set in param_sets]: the
    [result_dict] appended to the response. *)
Definition set_one (param_set : option string * Element) : M State pyval :=
  (do stamp <- now;
   ret (PDict [
     ("parameterId", opt_str (fst param_set));
     ("executionResult", PDict [("status", PStr "SUCCESS")]);
     ("completionTime", PStr stamp)]))%M.

Definition set_response_dict (request_id : option string) (stamp : string)
    (results : list pyval) : pyval :=
  PDict [
    ("parameterResultList", PDict [("parameterResult", PList results)]);
    ("requestId", opt_str request_id);
    ("timestamp", PStr stamp);
    ("result", PDict [("status", PStr "SUCCESS")])].

(** [_process_set_parameter_values_xml(root, request_id)] *)
Definition _process_set_parameter_values_xml (root : Element)
    (request_id : option string) : M State (option document) :=
  let param_sets := get_param_sets root in
  (do stamp <- now;
   do results <- for_each set_one param_sets;
   match dict_to_xml (set_response_dict request_id stamp results)
                     "SetParameterValuesResponse" with
   | Some response_xml =>
       do queued <- now;
       do _ <- queue_command {| c_request_id := request_id;
                                c_parameters := param_sets;
                                c_timestamp := queued |};
       ret (Some response_xml)
   | None => ret None
   end)%M.

(** [_process_get_service_info_xml(root, request_id)] *)
Definition service_info_dict (request_id : option string) (stamp : string) : pyval :=
  PDict [
    ("serviceInfo", PDict [
       ("serviceName", PStr "CCSDS MO Services");
       ("serviceType", PStr "MONITOR_AND_CONTROL");
       ("serviceVersion", PStr "2.0.0");
       ("description",
          PStr "Full CCSDS MO Services implementation with XML support");
       ("provider", PStr "CCSDS Simulator Project");
       ("supportedOperations", PDict [
          ("operation", PList [
             PDict [("operationId", PStr "GET_PARAMETER_VALUES");
                    ("operationName", PStr "GetParameterValues");
                    ("description", PStr "Retrieve parameter values from spacecraft")];
             PDict [("operationId", PStr "SET_PARAMETER_VALUES");
                    ("operationName", PStr "SetParameterValues");
                    ("description", PStr "Set parameter values on spacecraft")];
             PDict [("operationId", PStr "GET_SERVICE_INFO");
                    ("operationName", PStr "GetServiceInfo");
                    ("description",
                       PStr "Retrieve service capabilities and information")]])])]);
    ("requestId", opt_str request_id);
    ("timestamp", PStr stamp);
    ("result", PDict [("status", PStr "SUCCESS")])].

Definition _process_get_service_info_xml (root : Element)
    (request_id : option string) : M State (option document) :=
  (do stamp <- now;
   ret (dict_to_xml (service_info_dict request_id stamp) "GetServiceInfoResponse"))%M.

Section Operations.
Context `{Library}.

(** What the [except Exception] of [xml_operations] raises. *)
Definition processing_error (e : Exception) : HTTPException :=
  Http 500 (PStr ("XML processing error: " +:+ str_exception e)).

(** The answer of a handler, whose only exception is one of
    [dict_to_xml]. *)
Definition handled (r : option document) : HTTPException + document :=
  match r with
  | Some response_xml => inr response_xml
  | None => inl (processing_error AttributeError)
  end.

(** [xml_operations(xml_content)]: the response document, or the
    [HTTPException] that leaves the function. *)
Definition xml_operations (xml_content : document)
  : M State (HTTPException + document) :=
  match validate_mo_xml xml_content "" with
  | Invalid errors operation =>
      ret (inl (Http 400 (PDict [
                  ("message", PStr "XML validation failed");
                  ("errors", PList (map PStr errors));
                  ("operation", PStr (default "unknown" operation))])))
  | Valid operation _ =>
      match fromstring xml_content with
      | None => ret (inl (processing_error (ET_ParseError xml_content)))
      | Some root =>
          let request_id :=
            match find "requestId" root with
            | Some request_id_elem => text request_id_elem
            | None => Some "UNKNOWN"
            end in
          (do stamp <- now;
           do _ <- log_xml {| x_request_id := request_id;
                              x_operation := operation;
                              x_timestamp := stamp;
                              x_xml := text_prefix 1000 xml_content |};
           if contains "GetParameterValuesRequest" operation then
             do r <- _process_get_parameter_values_xml root request_id;
             ret (handled r)
           else if contains "SetParameterValuesRequest" operation then
             do r <- _process_set_parameter_values_xml root request_id;
             ret (handled r)
           else if contains "GetServiceInfoRequest" operation then
             do r <- _process_get_service_info_xml root request_id;
             ret (handled r)
           else
             ret (inl (processing_error
                         (Raised (Http 501 (PStr ("Operation not implemented: "
                                                  +:+ operation)))))))%M
      end
  end.

End Operations.

(** [get_xml_operations_history(limit)]: the count and the operations. *)
Definition get_xml_operations_history (limit : Z) (st : State) : Z * list XmlRequest :=
  let history :=
    if limit <? Z.of_nat (length (xml_requests st))
    then py_slice_from (- limit) (xml_requests st)
    else xml_requests st in
  (Z.of_nat (length history), history).

(** The loop of this service's receiver over the datagrams the socket
    delivers, each with the address it came from. *)
Definition run (datagrams : list (list byte * string)) (st : State) : State :=
  fold_left (fun st d => snd (receive (fst d) (snd d) st)) datagrams st.

(** The parameter store after [initialize_sample_parameters()], which
    runs on import; all five entries are written at clock readings
    [clock 0] .. [clock 4]. *)
Definition sample_entry (v : pyval) (stamp units : string) : ParamData :=
  {| pd_value := v; pd_timestamp := stamp; pd_validity := "VALID";
     pd_units := Some units; pd_quality := None; pd_source := None |}.

Definition initial_state (clock : nat -> string) : State :=
  {| telemetry_store := ∅;
     parameter_store :=
       <[ "BATTERY_CHARGE" := sample_entry (PInt 85) (clock 4%nat) "%" ]>
       (<[ "MODE_SELECTION" := sample_entry (PStr "SAFE_MODE") (clock 3%nat) "" ]>
       (<[ "CURRENT_BUS" := sample_entry (PFloat "2.5") (clock 2%nat) "A" ]>
       (<[ "VOLTAGE_BUS" := sample_entry (PFloat "12.3") (clock 1%nat) "V" ]>
       (<[ "TEMPERATURE_BUS" := sample_entry (PFloat "25.5") (clock 0%nat) "C" ]> ∅))));
     command_queue := [];
     xml_requests := [];
     clock := clock;
     ticks := 5 |}.

(** ** Statements about the handlers *)

(** From [st] to [st'] nothing changed but the number of clock readings
    taken. *)
Definition clock_advanced (st st' : State) : Prop :=
  telemetry_store st' = telemetry_store st /\
  parameter_store st' = parameter_store st /\
  command_queue st' = command_queue st /\
  xml_requests st' = xml_requests st /\
  clock st' = clock st /\
  (ticks st <= ticks st')%nat.

(** The key a request identifier is looked up under. *)
Definition store_key (param_id : option string) : string :=
  match param_id with
  | Some s => py_upper s
  | None => ""
  end.

(** What the XML response holds for one requested identifier, when the
    call ran from [st] to [st']. *)
Definition xml_answers (st st' : State) (param_id : option string) (p : pyval) : Prop :=
  match parameter_store st !! store_key param_id with
  | Some param_data =>
      exists shown,
        p = PDict [
              ("parameterId", PStr (store_key param_id));
              ("parameterValue", PDict [("floatValue", shown)]);
              ("validity", PStr (pd_validity param_data));
              ("generationTime", PStr (pd_timestamp param_data));
              ("qualityIndicator", PStr "GOOD")] /\
        match pd_value param_data with
        | PInt _ | PFloat _ | PBool _ => shown = pd_value param_data
        | PStr _ | PNone | PList _ | PDict _ => shown = PFloat "0.0"
        end
  | None =>
      exists n : nat,
        (ticks st <= n < ticks st')%nat /\
        p = PDict [
              ("parameterId", PStr (store_key param_id));
              ("parameterValue", PDict [("stringValue", PStr "NOT_FOUND")]);
              ("validity", PStr "INVALID");
              ("generationTime", PStr (clock st n));
              ("qualityIndicator", PStr "UNKNOWN")]
  end.

(** What the JSON response holds for one requested identifier, found
    under the name the response reports. *)
Definition json_answers (st st' : State) (param_id : string) (p : JSONParameter) : Prop :=
  (is_ascii param_id = true -> name p = py_upper param_id) /\
  match parameter_store st !! name p with
  | Some param_data =>
      value p = pd_value param_data /\
      timestamp p = pd_timestamp param_data /\
      validity p = pd_validity param_data /\
      units p = pd_units param_data
  | None =>
      value p = PNone /\
      validity p = "INVALID" /\
      units p = None /\
      exists n : nat, (ticks st <= n < ticks st')%nat /\ timestamp p = clock st n
  end.

(** The result reported for one parameter set, when the call ran from
    [st] to [st']. *)
Definition set_answers (st st' : State) (param_set : option string * Element)
    (r : pyval) : Prop :=
  exists n : nat,
    (ticks st <= n < ticks st')%nat /\
    r = PDict [
          ("parameterId", opt_str (fst param_set));
          ("executionResult", PDict [("status", PStr "SUCCESS")]);
          ("completionTime", PStr (clock st n))].

(** ** Sample requests *)

(** A clock for the examples: the [n]-th reading. *)
Definition sample_clock (n : nat) : string :=
  "2024-12-27T10:30:45." +:+ str_of_int (Z.of_nat n) +:+ "+00:00".

Definition parsed (xml : document) : Element :=
  match fromstring xml with
  | Some root => root
  | None => Elem "" [] None []
  end.

(** A SetParameterValuesRequest for the parameter [NEW_PARAM], which is
    not among the sample parameters. *)
Definition sample_set_request : Element :=
  parsed (Document
    (Elem "SetParameterValuesRequest" [("xmlns", mo_namespace)] None [
       Elem "parameterSetList" [] None [
         Elem "parameterSet" [] None [
           Elem "parameterId" [] (Some "NEW_PARAM") [];
           Elem "parameterValue" [] None [
             Elem "floatValue" [] (Some "42.0") []]]];
       Elem "requestId" [] (Some "CMD_20241227_001") [];
       Elem "executionMode" [] (Some "VALIDATED") []])).

(** A GetParameterValuesRequest for the parameters [flag], [mode_selection]
    and [missing]. *)
Definition sample_get_request : Element :=
  parsed (Document
    (Elem "GetParameterValuesRequest" [("xmlns", mo_namespace)] None [
       Elem "parameterIdList" [] None [
         Elem "parameterId" [] (Some "flag") [];
         Elem "parameterId" [] (Some "mode_selection") [];
         Elem "parameterId" [] (Some "missing") []];
       Elem "requestId" [] (Some "REQ_20241227_001") []])).

(** The sample store with one more parameter, [FLAG], whose value is the
    boolean [True]; a state for the examples, the service stores no
    boolean itself. *)
Definition state_with_flag : State :=
  let st := initial_state sample_clock in
  {| telemetry_store := telemetry_store st;
     parameter_store :=
       <[ "FLAG" := sample_entry (PBool true) (sample_clock 5) "" ]> (parameter_store st);
     command_queue := command_queue st;
     xml_requests := xml_requests st;
     clock := clock st;
     ticks := 6 |}.

(** Libraries for the examples: a schema that accepts every document;
    the texts are not spelled out. *)
Definition sample_library : Library :=
  {| mo_schema := Some (fun _ => true);
     str_exception := fun _ => "error";
     text_prefix := fun _ _ => "<?xml" |}.

(** The request [sample_get_request] is read from. *)
Definition sample_get_document : document :=
  Document
    (Elem "GetParameterValuesRequest" [("xmlns", mo_namespace)] None [
       Elem "parameterIdList" [] None [
         Elem "parameterId" [] (Some "flag") [];
         Elem "parameterId" [] (Some "mode_selection") [];
         Elem "parameterId" [] (Some "missing") []];
       Elem "requestId" [] (Some "REQ_20241227_001") []]).

(** A response document, sent to the service as if it were a request. *)
Definition sample_response_document : document :=
  Document
    (Elem "GetParameterValuesResponse" [("xmlns", mo_namespace)] None [
       Elem "parameterList" [] None [];
       Elem "requestId" [] (Some "REQ_20241227_001") [];
       Elem "timestamp" [] (Some "2024-12-27T10:30:45.456Z") [];
       Elem "result" [] None [Elem "status" [] (Some "SUCCESS") []]]).

(** A document that is none of the six operations. *)
Definition sample_unknown_document : document :=
  Document (Elem "Unknown" [("xmlns", mo_namespace)] None []).

Section Reachable.
Context `{Library}.

(** The states of the service: the state after import, and the state
    after the receiver took a datagram, after a request to one of the two
    endpoints that write, or after anything else read the clock. *)
Inductive reachable : State -> Prop :=
| reach_start (clk : nat -> string) : reachable (initial_state clk)
| reach_receive (data : list byte) (addr : string) (st : State) :
    reachable st -> reachable (receive data addr st).2
| reach_json (request : JSONGetParameterValuesRequest) (st : State) :
    reachable st -> reachable (json_get_parameter_values request st).2
| reach_xml (xml_content : document) (st : State) :
    reachable st -> reachable (xml_operations xml_content st).2
| reach_clock (st : State) :
    reachable st -> reachable (now st).2.

End Reachable.

(** What the XML response holds for one requested identifier, when the
    call ran from [st] to [st']: the entry is found under the identifier
    the response names, which is the requested one in upper case (the
    model of [upper()] is Python's on ASCII text; an empty or absent text
    gives the empty name). *)
Definition xml_reports (st st' : State) (param_id : option string) (p : pyval) : Prop :=
  exists named : string,
    (forall s, param_id = Some s -> is_ascii s = true -> named = py_upper s) /\
    (param_id = None -> named = "") /\
    match parameter_store st !! named with
    | Some param_data =>
        p = PDict [
              ("parameterId", PStr named);
              ("parameterValue",
                 PDict [("floatValue",
                         match pd_value param_data with
                         | PInt _ | PFloat _ => pd_value param_data
                         | _ => PFloat "0.0"
                         end)]);
              ("validity", PStr (pd_validity param_data));
              ("generationTime", PStr (pd_timestamp param_data));
              ("qualityIndicator", PStr "GOOD")]
    | None =>
        exists n : nat,
          (ticks st <= n < ticks st')%nat /\
          p = PDict [
                ("parameterId", PStr named);
                ("parameterValue", PDict [("stringValue", PStr "NOT_FOUND")]);
                ("validity", PStr "INVALID");
                ("generationTime", PStr (clock st n));
                ("qualityIndicator", PStr "UNKNOWN")]
    end.

(** The keys of the telemetry store are the numbers below its size. *)
Definition numbered (st : State) : Prop :=
  forall k : Z, is_Some (telemetry_store st !! k)
                <-> 0 <= k < Z.of_nat (size (telemetry_store st)).

End MoServiceXml.

(* ===================================================================== *)
(** * CRC16 as the specification words it *)
(* ===================================================================== *)

Module Crc16Spec.

(** Follows the text of the specification, not the code: "initial register
    0xFFFF; for each input byte, xor into the high byte of the register,
    then for 8 iterations, if the top bit is set shift left and xor with
    polynomial 0x1021, else shift left, masking to 16 bits after each
    step".  The register is a number below [2^16]; its top bit is bit 15,
    a left shift doubles it, masking is the remainder modulo [2^16]. *)
Definition shift_step (reg : Z) : Z :=
  if Z.testbit reg 15
  then (Z.lxor (2 * reg) 0x1021) mod 2 ^ 16
  else (2 * reg) mod 2 ^ 16.

Fixpoint shift_steps (n : nat) (reg : Z) : Z :=
  match n with
  | O => reg
  | S n' => shift_steps n' (shift_step reg)
  end.

Fixpoint compute_from (reg : Z) (data : list byte) : Z :=
  match data with
  | [] => reg
  | b :: rest => compute_from (shift_steps 8 (Z.lxor reg (byte_val b * 2 ^ 8))) rest
  end.

Definition compute (data : list byte) : Z := compute_from 0xFFFF data.

End Crc16Spec.

(* ##################################################################### *)
(** * Part II: properties of the embedded code *)
(* ##################################################################### *)

(* ===================================================================== *)
(** * Facts about bytes and big-endian words *)
(* ===================================================================== *)

Section ByteFacts.

Lemma byte_val_range (b : byte) : 0 <= byte_val b < 256.
Proof.
  unfold byte_val. pose proof (Byte.to_N_bounded b) as Hb.
  split; [apply N2Z.is_nonneg | lia].
Qed.

Lemma byte_val_of_Z (z : Z) : byte_val (byte_of_Z z) = z mod 256.
Proof.
  unfold byte_val, byte_of_Z.
  assert (Hr : 0 <= z mod 256 < 256) by (apply Z.mod_pos_bound; lia).
  destruct (Byte.of_N (Z.to_N (z mod 256))) as [b|] eqn:E.
  - apply Byte.to_of_N in E. rewrite E. rewrite Z2N.id; lia.
  - apply Byte.of_N_None_iff in E. lia.
Qed.

Lemma byte_of_Z_val (b : byte) : byte_of_Z (byte_val b) = b.
Proof.
  unfold byte_of_Z. pose proof (byte_val_range b) as Hr.
  rewrite Z.mod_small by lia. unfold byte_val. rewrite N2Z.id.
  now rewrite Byte.of_to_N.
Qed.

(** Or-ing a value below [2^k] under a value shifted by [k] is addition. *)
Lemma lor_shiftl_add (a b k : Z) :
  0 <= k -> 0 <= b < 2 ^ k -> Z.lor (Z.shiftl a k) b = a * 2 ^ k + b.
Proof.
  intros Hk Hb.
  assert (Hland : Z.land (Z.shiftl a k) b = 0).
  { apply Z.bits_inj'. intros n Hn. rewrite Z.land_spec, Z.bits_0.
    destruct (Z.ltb_spec n k).
    - rewrite Z.shiftl_spec_low by lia. reflexivity.
    - replace b with (b mod 2 ^ k) by (apply Z.mod_small; lia).
      rewrite Z.mod_pow2_bits_high by lia. apply andb_false_r. }
  pose proof (Z.add_lor_land (Z.shiftl a k) b) as Hadd.
  rewrite Hland, Z.shiftl_mul_pow2 in Hadd by lia.
  rewrite Z.shiftl_mul_pow2 by lia. lia.
Qed.

Lemma be16_arith (hi lo : byte) : be16 hi lo = byte_val hi * 256 + byte_val lo.
Proof.
  unfold be16. pose proof (byte_val_range lo).
  rewrite (lor_shiftl_add _ _ 8); [reflexivity | lia | simpl; lia].
Qed.

Lemma be16_range (hi lo : byte) : 0 <= be16 hi lo < 65536.
Proof.
  rewrite be16_arith.
  pose proof (byte_val_range hi). pose proof (byte_val_range lo). lia.
Qed.

(** Reading back a packed 16-bit word. *)
Lemma be16_pack (w : Z) :
  0 <= w < 65536 -> be16 (byte_of_Z (Z.shiftr w 8)) (byte_of_Z w) = w.
Proof.
  intros Hw. rewrite be16_arith, !byte_val_of_Z.
  rewrite Z.shiftr_div_pow2 by lia. change (2 ^ 8) with 256.
  rewrite (Z.mod_small (w / 256)).
  - pose proof (Z.div_mod w 256). lia.
  - split; [apply Z.div_pos; lia | apply Z.div_lt_upper_bound; lia].
Qed.

Lemma pack_H_Some (v : Z) (l : list byte) :
  pack_H v = Some l ->
  0 <= v < 65536 /\ l = [byte_of_Z (Z.shiftr v 8); byte_of_Z v].
Proof.
  unfold pack_H. destruct (Z.leb_spec 0 v), (Z.ltb_spec v 65536); simpl;
    intros E; inversion E; split; (lia || reflexivity).
Qed.

Lemma pack_H_ok (v : Z) :
  0 <= v < 65536 -> pack_H v = Some [byte_of_Z (Z.shiftr v 8); byte_of_Z v].
Proof.
  intros Hv. unfold pack_H.
  destruct (Z.leb_spec 0 v), (Z.ltb_spec v 65536); simpl; (reflexivity || lia).
Qed.

Lemma pack_I_ok (v : Z) :
  0 <= v < 4294967296 -> exists a b c d, pack_I v = Some [a; b; c; d].
Proof.
  intros Hv. unfold pack_I.
  destruct (Z.leb_spec 0 v), (Z.ltb_spec v 4294967296); simpl; try lia.
  do 4 eexists. reflexivity.
Qed.

Lemma pack_I_Some (v : Z) (l : list byte) :
  pack_I v = Some l -> length l = 4%nat.
Proof.
  unfold pack_I. destruct (_ && _); intros E; inversion E. reflexivity.
Qed.

Lemma len_app (a b : list byte) : len (a ++ b) = len a + len b.
Proof. unfold len. rewrite length_app. lia. Qed.

Lemma len_nonneg (a : list byte) : 0 <= len a.
Proof. unfold len. lia. Qed.

End ByteFacts.

Example hex_sample : hex [Byte.x00; Byte.xff; Byte.x1a] = "00ff1a".
Proof. reflexivity. Qed.

(* ===================================================================== *)
(** * CRC16 *)
(* ===================================================================== *)

Section CrcFacts.
Import Simulator.

Lemma crc_bit_range (crc : Z) : 0 <= crc_bit crc < 65536.
Proof.
  unfold crc_bit. change 0xFFFF with (Z.ones 16).
  rewrite Z.land_ones by lia. apply Z.mod_pos_bound. lia.
Qed.

Lemma crc_byte_range (crc : Z) (b : byte) : 0 <= crc_byte crc b < 65536.
Proof. unfold crc_byte. simpl. apply crc_bit_range. Qed.

Lemma _calculate_crc_range (data : list byte) : 0 <= _calculate_crc data < 65536.
Proof.
  unfold _calculate_crc.
  assert (H : forall l acc, 0 <= acc < 65536 -> 0 <= fold_left crc_byte l acc < 65536).
  { induction l as [|b l IH]; intros acc Hacc; simpl; [exact Hacc|].
    apply IH, crc_byte_range. }
  apply H. lia.
Qed.

(** The test [crc & 0x8000] of the code is the top bit of the register. *)
Lemma top_bit_test (crc : Z) :
  negb (Z.land crc 0x8000 =? 0) = Z.testbit crc 15.
Proof.
  destruct (Z.testbit crc 15) eqn:Hb.
  - destruct (Z.eqb_spec (Z.land crc 0x8000) 0) as [E|E]; [|reflexivity].
    assert (Hc : Z.testbit (Z.land crc 0x8000) 15 = true).
    { rewrite Z.land_spec, Hb. reflexivity. }
    rewrite E, Z.bits_0 in Hc. discriminate.
  - destruct (Z.eqb_spec (Z.land crc 0x8000) 0) as [E|E]; [reflexivity|].
    exfalso. apply E. apply Z.bits_inj'. intros n Hn.
    rewrite Z.land_spec, Z.bits_0.
    destruct (Z.eq_dec n 15) as [->|Hne]; [rewrite Hb; reflexivity|].
    change 0x8000 with (2 ^ 15). rewrite Z.pow2_bits_eqb by lia.
    destruct (Z.eqb_spec 15 n); [lia | apply andb_false_r].
Qed.

Lemma crc_bit_spec (crc : Z) : crc_bit crc = Crc16Spec.shift_step crc.
Proof.
  unfold crc_bit, Crc16Spec.shift_step.
  rewrite top_bit_test. change 0xFFFF with (Z.ones 16).
  rewrite Z.land_ones by lia.
  rewrite Z.shiftl_mul_pow2 by lia. change (2 ^ 1) with 2.
  rewrite (Z.mul_comm crc 2). destruct (Z.testbit crc 15); reflexivity.
Qed.

Lemma iter_crc_bit_spec (n : nat) (crc : Z) :
  Nat.iter n crc_bit crc = Crc16Spec.shift_steps n crc.
Proof.
  revert crc. induction n as [|n IH]; intros crc; [reflexivity|].
  rewrite Nat.iter_succ_r. simpl. rewrite IH, crc_bit_spec. reflexivity.
Qed.

Lemma crc_byte_spec (crc : Z) (b : byte) :
  crc_byte crc b = Crc16Spec.shift_steps 8 (Z.lxor crc (byte_val b * 2 ^ 8)).
Proof.
  unfold crc_byte. rewrite iter_crc_bit_spec.
  rewrite Z.shiftl_mul_pow2 by lia. reflexivity.
Qed.

(** The code's [_calculate_crc] computes the CRC16 of the specification. *)
Lemma _calculate_crc_spec (data : list byte) :
  _calculate_crc data = Crc16Spec.compute data.
Proof.
  unfold _calculate_crc, Crc16Spec.compute. generalize 0xFFFF.
  induction data as [|b data IH]; intros reg; [reflexivity|].
  simpl. rewrite IH, crc_byte_spec. reflexivity.
Qed.

End CrcFacts.

Example crc_empty : Simulator._calculate_crc [] = 0xFFFF.
Proof. reflexivity. Qed.

(** The check value of CRC-16/CCITT-FALSE on the ASCII text 123456789. *)
Example crc_check_value :
  Simulator._calculate_crc
    [Byte.x31; Byte.x32; Byte.x33; Byte.x34; Byte.x35; Byte.x36; Byte.x37;
     Byte.x38; Byte.x39] = 0x29B1.
Proof. vm_compute. reflexivity. Qed.

(* ===================================================================== *)
(** * The packet built by [create_ccsds_packet] *)
(* ===================================================================== *)

Section EncodeFacts.
Context `{Json}.
Import Simulator.
#[local] Arguments _calculate_crc : simpl never.

(** Shape of every packet [create_ccsds_packet] returns. *)
Lemma create_ccsds_packet_inv self data now_unix pkt self' :
  create_ccsds_packet self data now_unix = Some (pkt, self') ->
  exists w1 w2 w3 sec_header body,
    pack_H (Z.lor 2048 (apid self)) = Some w1 /\
    pack_H (Z.lor 49152 (packet_counter self mod 16384)) = Some w2 /\
    pack_H (11 + len (json_dumps data) + 2 - 7) = Some w3 /\
    length sec_header = 11%nat /\
    body = (w1 ++ w2 ++ w3) ++ sec_header ++ json_dumps data /\
    pkt = body ++ [byte_of_Z (Z.shiftr (_calculate_crc body) 8);
                   byte_of_Z (_calculate_crc body)] /\
    self' = {| host := host self; port := port self;
               packet_counter := packet_counter self + 1; apid := apid self |}.
Proof.
  unfold create_ccsds_packet. cbn zeta.
  change (Z.lor (Z.lor (Z.lor (0 ≪ 13) (0 ≪ 12)) (1 ≪ 11)) (apid self))
    with (Z.lor 2048 (apid self)).
  change (3 ≪ 14) with 49152.
  intros E.
  destruct (pack_H (Z.lor 2048 (apid self))) as [w1|] eqn:E1; [|discriminate].
  destruct (pack_H (Z.lor 49152 (packet_counter self mod 16384))) as [w2|] eqn:E2;
    [|discriminate].
  destruct (pack_H (11 + len (json_dumps data) + 2 - 7)) as [w3|] eqn:E3;
    [|discriminate].
  destruct (pack_I (now_unix mod 86400)) as [t|] eqn:E4; [|discriminate].
  cbn in E.
  match type of E with
  | context [pack_H (Simulator._calculate_crc ?b)] => set (body := b) in *
  end.
  rewrite (pack_H_ok _ (_calculate_crc_range body)) in E. cbn in E.
  inversion E; subst pkt self'; clear E.
  apply pack_I_Some in E4.
  eexists w1, w2, w3, _, body. repeat split; try reflexivity.
  rewrite length_app, E4. reflexivity.
Qed.

(** The simulator can build a packet whenever the APID fits its 11 bits and
    the payload fits the 16-bit length field. *)
Lemma create_ccsds_packet_succeeds self data now_unix :
  0 <= apid self < 2048 ->
  len (json_dumps data) <= 65529 ->
  exists pkt self', create_ccsds_packet self data now_unix = Some (pkt, self').
Proof.
  intros Ha Hl. unfold create_ccsds_packet. cbn zeta.
  change (Z.lor (Z.lor (Z.lor (0 ≪ 13) (0 ≪ 12)) (1 ≪ 11)) (apid self))
    with (Z.lor (1 ≪ 11) (apid self)).
  rewrite (lor_shiftl_add 1 (apid self) 11) by (simpl; lia).
  rewrite (lor_shiftl_add 3 (packet_counter self mod 16384) 14)
    by (try lia; apply Z.mod_pos_bound; lia).
  pose proof (Z.mod_pos_bound (packet_counter self) 16384 ltac:(lia)).
  pose proof (Z.mod_pos_bound now_unix 86400 ltac:(lia)).
  pose proof (len_nonneg (json_dumps data)).
  rewrite !pack_H_ok by (simpl; lia). cbn.
  destruct (pack_I_ok (now_unix mod 86400) ltac:(lia)) as (a & b & c & d & ->).
  cbn.
  match goal with
  | |- context [pack_H (Simulator._calculate_crc ?b)] =>
      rewrite (pack_H_ok _ (_calculate_crc_range b))
  end.
  cbn. eauto.
Qed.

End EncodeFacts.

(* ===================================================================== *)
(** * The parser *)
(* ===================================================================== *)

Section ParserFacts.
Context `{Json}.
Import MoService.

Lemma parse_packet_short (data : list byte) (now : string) :
  len data < 6 -> parse_packet data now = ParseError "Packet too short".
Proof.
  intros Hl. unfold parse_packet.
  destruct (Z.ltb_spec (len data) 6); [reflexivity | lia].
Qed.

(** What the parser returns on a buffer that holds a primary header. *)
Lemma parse_packet_header (a b c d e f : byte) (rest : list byte) (now : string) :
  let data := a :: b :: c :: d :: e :: f :: rest in
  parse_packet data now =
  Parsed {|
    header := {|
      version := Z.land (Z.shiftr (be16 a b) 13) 7;
      type_ := if Z.land (Z.shiftr (be16 a b) 12) 1 =? 0 then "TM" else "TC";
      apid := Z.land (be16 a b) 2047;
      sequence_flags := Z.land (Z.shiftr (be16 c d) 14) 3;
      sequence_count := Z.land (be16 c d) 16383;
      data_length := be16 e f
    |};
    telemetry :=
      if negb (Z.land (Z.shiftr (be16 a b) 11) 1 =? 0) && (20 <=? len data)
      then match json_loads (slice_between 17 2 data) with
           | Some t => t
           | None => raw_telemetry (slice_between 17 2 data)
           end
      else raw_telemetry rest;
    raw_size := len data;
    timestamp := now
  |}.
Proof.
  intros data. unfold parse_packet.
  assert (Hlen : len data = 6 + len rest).
  { unfold len, data. cbn [length]. lia. }
  pose proof (len_nonneg rest) as Hrest.
  destruct (Z.ltb_spec (len data) 6); [lia|].
  change (slice_to 6 data) with [a; b; c; d; e; f].
  cbn [unpack_HHH]. cbv zeta.
  change (slice_from 6 data) with rest.
  f_equal. f_equal.
  destruct (negb (Z.land (Z.shiftr (be16 a b) 11) 1 =? 0)); cbn [andb]; [|reflexivity].
  destruct (Z.leb_spec 17 (len data)), (Z.ltb_spec 17 (len data - 2)),
    (Z.leb_spec 20 (len data)); try lia; reflexivity.
Qed.

(** A buffer of at least six bytes starts with six bytes. *)
Lemma six_bytes (data : list byte) :
  6 <= len data -> exists a b c d e f rest, data = a :: b :: c :: d :: e :: f :: rest.
Proof.
  unfold len. intros Hl.
  do 6 (destruct data as [|? data]; [cbn in Hl; lia|]).
  eauto 8.
Qed.

Lemma slice_between_payload (pre payload : list byte) (x y : byte) :
  length pre = 17%nat -> slice_between 17 2 (pre ++ payload ++ [x; y]) = payload.
Proof.
  intros Hpre. unfold slice_between.
  rewrite !length_app, Hpre. cbn [length].
  replace (17 + (length payload + 2) - 2)%nat with (length (pre ++ payload))
    by (rewrite length_app; lia).
  rewrite app_assoc, take_app_length.
  rewrite drop_app_length'; [reflexivity | symmetry; exact Hpre].
Qed.

End ParserFacts.

(* ===================================================================== *)
(** * Encoding and decoding together *)
(* ===================================================================== *)

Section Codec.
Context `{Json}.
Import Simulator MoService.

Lemma word1_fields (a : Z) :
  0 <= a < 2048 ->
  0 <= Z.lor 2048 a < 65536 /\
  Z.land (Z.shiftr (Z.lor 2048 a) 11) 1 = 1 /\
  Z.land (Z.lor 2048 a) 2047 = a.
Proof.
  intros Ha.
  assert (E : Z.lor 2048 a = 2048 + a).
  { apply (lor_shiftl_add 1 a 11); simpl; lia. }
  rewrite E. split; [lia|].
  rewrite Z.shiftr_div_pow2 by lia. change (2 ^ 11) with 2048.
  change 2047 with (Z.ones 11). rewrite Z.land_ones by lia.
  change (2 ^ 11) with 2048.
  replace ((2048 + a) / 2048) with 1
    by (apply Z.div_unique with a; lia).
  split; [reflexivity|].
  symmetry. apply Z.mod_unique with 1; lia.
Qed.

Lemma word2_fields (s : Z) :
  0 <= s < 16384 ->
  0 <= Z.lor 49152 s < 65536 /\ Z.land (Z.lor 49152 s) 16383 = s.
Proof.
  intros Hs.
  assert (E : Z.lor 49152 s = 49152 + s).
  { apply (lor_shiftl_add 3 s 14); simpl; lia. }
  rewrite E. split; [lia|].
  change 16383 with (Z.ones 14). rewrite Z.land_ones by lia.
  change (2 ^ 14) with 16384.
  symmetry. apply Z.mod_unique with 3; lia.
Qed.

(** The parser on a buffer framed as primary header, 11-byte secondary
    header, non-empty payload and two trailing bytes, with the
    secondary-header flag set. *)
Lemma parse_packet_framed (a b c d e f x y : byte) (sh payload : list byte) now :
  length sh = 11%nat ->
  payload <> [] ->
  Z.land (Z.shiftr (be16 a b) 11) 1 <> 0 ->
  parse_packet ([a; b; c; d; e; f] ++ sh ++ payload ++ [x; y]) now =
  Parsed {|
    header := {|
      version := Z.land (Z.shiftr (be16 a b) 13) 7;
      type_ := if Z.land (Z.shiftr (be16 a b) 12) 1 =? 0 then "TM" else "TC";
      MoService.apid := Z.land (be16 a b) 2047;
      sequence_flags := Z.land (Z.shiftr (be16 c d) 14) 3;
      sequence_count := Z.land (be16 c d) 16383;
      data_length := be16 e f
    |};
    telemetry := match json_loads payload with
                 | Some t => t
                 | None => raw_telemetry payload
                 end;
    raw_size := 19 + len payload;
    timestamp := now
  |}.
Proof.
  intros Hsh Hne Hflag.
  change ([a; b; c; d; e; f] ++ sh ++ payload ++ [x; y])
    with (a :: b :: c :: d :: e :: f :: sh ++ payload ++ [x; y]).
  rewrite parse_packet_header.
  assert (Hslice : slice_between 17 2
            (a :: b :: c :: d :: e :: f :: sh ++ payload ++ [x; y]) = payload).
  { change (a :: b :: c :: d :: e :: f :: sh ++ payload ++ [x; y])
      with ([a; b; c; d; e; f] ++ sh ++ payload ++ [x; y]).
    rewrite (app_assoc _ sh). apply slice_between_payload.
    rewrite length_app, Hsh. reflexivity. }
  assert (Hlen : len (a :: b :: c :: d :: e :: f :: sh ++ payload ++ [x; y])
                 = 19 + len payload).
  { unfold len. cbn [length]. rewrite !length_app, Hsh. cbn [length]. lia. }
  assert (Hpos : 0 < len payload).
  { unfold len. destruct payload; [congruence | cbn [length]; lia]. }
  rewrite Hslice, Hlen.
  destruct (Z.eqb_spec (Z.land (Z.shiftr (be16 a b) 11) 1) 0); [contradiction|].
  destruct (Z.leb_spec 20 (19 + len payload)); [reflexivity | lia].
Qed.

(** ** C5 *)

(** C5. For every packet the encoder produces with payload [p], the third
    big-endian 16-bit word of the primary header, the declared data length,
    is [(11 + len p + 2) - 7]. *)
Theorem encode_declared_length self data now_unix pkt self' :
  create_ccsds_packet self data now_unix = Some (pkt, self') ->
  exists word1 word2 word3,
    unpack_HHH (slice_to 6 pkt) = Some (word1, word2, word3) /\
    word3 = (11 + len (json_dumps data) + 2) - 7.
Proof.
  intros E. apply create_ccsds_packet_inv in E.
  destruct E as (w1 & w2 & w3 & sh & body & E1 & E2 & E3 & Hsh & -> & -> & _).
  apply pack_H_Some in E1 as [_ ->], E2 as [_ ->], E3 as [R3 ->].
  cbn. do 3 eexists. split; [reflexivity|].
  apply be16_pack. exact R3.
Qed.

(** ** C4 *)

(** C4. Every packet the encoder produces ends with two bytes that hold,
    big-endian, the CRC16 of all the bytes before them, where CRC16 is the
    bit-serial function of the specification (register 0xFFFF, polynomial
    0x1021, byte xor-ed into the high byte, eight shift steps masked to 16
    bits). *)
Theorem encode_crc_trailer self data now_unix pkt self' :
  create_ccsds_packet self data now_unix = Some (pkt, self') ->
  exists body hi lo,
    pkt = body ++ [hi; lo] /\
    be16 hi lo = Crc16Spec.compute body.
Proof.
  intros E. apply create_ccsds_packet_inv in E.
  destruct E as (w1 & w2 & w3 & sh & body & _ & _ & _ & _ & _ & -> & _).
  do 3 eexists. split; [reflexivity|].
  rewrite be16_pack by apply _calculate_crc_range.
  apply _calculate_crc_spec.
Qed.

(** ** C3 *)

(** C3. For an APID in 0..2047, any packet counter and a payload that the
    JSON codec reads back, decoding the bytes the encoder produced gives a
    packet with that APID, with sequence count the counter modulo 16384 and
    with the encoded payload as its telemetry. *)
Theorem decode_encode_roundtrip self data now_unix now pkt self' :
  0 <= Simulator.apid self < 2048 ->
  json_loads (json_dumps data) = Some data ->
  create_ccsds_packet self data now_unix = Some (pkt, self') ->
  exists p,
    parse_packet pkt now = Parsed p /\
    MoService.apid (header p) = Simulator.apid self /\
    sequence_count (header p) = packet_counter self mod 16384 /\
    telemetry p = data.
Proof.
  intros Ha Hjson E. apply create_ccsds_packet_inv in E.
  destruct E as (w1 & w2 & w3 & sh & body & E1 & E2 & E3 & Hsh & -> & -> & _).
  apply pack_H_Some in E1 as [R1 ->], E2 as [R2 ->], E3 as [R3 ->].
  assert (Hne : json_dumps data <> []).
  { intros Hnil. rewrite Hnil, json_loads_nil in Hjson. discriminate. }
  destruct (word1_fields _ Ha) as (_ & Hflag & Hapid).
  destruct (word2_fields (packet_counter self mod 16384)) as (_ & Hseq);
    [apply Z.mod_pos_bound; lia|].
  eexists. split.
  - rewrite <- !app_assoc. cbn [app].
    apply (parse_packet_framed _ _ _ _ _ _ _ _ sh (json_dumps data)); try assumption.
    rewrite be16_pack, Hflag by assumption. lia.
  - cbn [header MoService.apid sequence_count telemetry].
    rewrite !be16_pack by assumption.
    rewrite Hapid, Hseq, Hjson. auto.
Qed.

(** ** C6 *)

(** C6. The parser is total on byte strings: fewer than six bytes give the
    too-short error, and every other input gives a packet.  With the
    secondary-header flag set and at least 20 bytes, its telemetry is the
    JSON document read from the payload, or the raw-hex form of the
    payload when the codec rejects it; with the flag unset or fewer than
    20 bytes, it is the raw-hex form of everything after the primary
    header. *)
Theorem parse_packet_total (data : list byte) (now : string) :
  (len data < 6 /\ parse_packet data now = ParseError "Packet too short") \/
  (6 <= len data /\
   exists word1 word2 word3 p,
     unpack_HHH (slice_to 6 data) = Some (word1, word2, word3) /\
     parse_packet data now = Parsed p /\
     raw_size p = len data /\
     let sec_header_flag := Z.land (Z.shiftr word1 11) 1 in
     ((sec_header_flag <> 0 /\ 20 <= len data /\
       json_loads (slice_between 17 2 data) = Some (telemetry p)) \/
      (sec_header_flag <> 0 /\ 20 <= len data /\
       json_loads (slice_between 17 2 data) = None /\
       telemetry p = raw_telemetry (slice_between 17 2 data)) \/
      ((sec_header_flag = 0 \/ len data < 20) /\
       telemetry p = raw_telemetry (slice_from 6 data)))).
Proof.
  destruct (Z.lt_ge_cases (len data) 6) as [Hs|Hl].
  - left. split; [exact Hs | apply parse_packet_short, Hs].
  - right. split; [exact Hl|].
    destruct (six_bytes data Hl) as (a & b & c & d & e & f & rest & ->).
    exists (be16 a b), (be16 c d), (be16 e f). eexists.
    split; [reflexivity|]. split; [apply parse_packet_header|].
    cbn [raw_size telemetry]. split; [reflexivity|]. cbv zeta.
    change (slice_from 6 (a :: b :: c :: d :: e :: f :: rest)) with rest.
    destruct (Z.eqb_spec (Z.land (Z.shiftr (be16 a b) 11) 1) 0) as [Hflag|Hflag];
      cbn [negb andb].
    + right. right. split; [left; exact Hflag | reflexivity].
    + destruct (Z.leb_spec 20 (len (a :: b :: c :: d :: e :: f :: rest))) as [Hlen|Hlen].
      * destruct (json_loads _) eqn:Hj; [left | right; left]; auto.
      * right. right. split; [right; exact Hlen | reflexivity].
Qed.

(** ** C7 *)

(** C7. The parser checks neither the CRC nor the declared length: on a
    buffer of at least 20 bytes with the secondary-header flag set,
    replacing the two trailing bytes and the two length bytes by any others
    changes nothing in the outcome but the reported length value. *)
Theorem parse_packet_ignores_crc_and_length
    (h0 h1 h2 h3 l0 l1 l0' l1' c0 c1 c0' c1' : byte) (mid : list byte) (now : string) :
  Z.land (Z.shiftr (be16 h0 h1) 11) 1 <> 0 ->
  20 <= len ([h0; h1; h2; h3; l0; l1] ++ mid ++ [c0; c1]) ->
  exists p,
    parse_packet ([h0; h1; h2; h3; l0; l1] ++ mid ++ [c0; c1]) now = Parsed p /\
    data_length (header p) = be16 l0 l1 /\
    parse_packet ([h0; h1; h2; h3; l0'; l1'] ++ mid ++ [c0'; c1']) now =
    Parsed {|
      header := {|
        version := version (header p);
        type_ := type_ (header p);
        MoService.apid := MoService.apid (header p);
        sequence_flags := sequence_flags (header p);
        sequence_count := sequence_count (header p);
        data_length := be16 l0' l1'
      |};
      telemetry := telemetry p;
      raw_size := raw_size p;
      timestamp := timestamp p
    |}.
Proof.
  intros Hflag Hlen.
  assert (Hmid : (12 <= length mid)%nat).
  { unfold len in Hlen. rewrite !length_app in Hlen. cbn [length] in Hlen. lia. }
  rewrite <- (take_drop 11 mid).
  set (sh := take 11 mid). set (payload := drop 11 mid).
  assert (Hsh : length sh = 11%nat) by (subst sh; rewrite length_take; lia).
  assert (Hne : payload <> []).
  { intros E. apply (f_equal length) in E. subst payload.
    rewrite length_drop in E. cbn in E. lia. }
  rewrite <- !(app_assoc sh payload).
  eexists. split; [apply parse_packet_framed; assumption|].
  split; [reflexivity|].
  rewrite parse_packet_framed by assumption. reflexivity.
Qed.

End Codec.

(** ** The codec on a concrete packet *)

Lemma encode_declared_length_witness :
  exists pkt self',
    Simulator.create_ccsds_packet Simulator.sample_simulator (PDict []) 1700000000
      = Some (pkt, self') /\
    exists word1 word2 word3,
      unpack_HHH (slice_to 6 pkt) = Some (word1, word2, word3) /\
      word3 = (11 + len (json_dumps (PDict [])) + 2) - 7.
Proof.
  eexists _, _. split; [vm_compute; reflexivity|].
  eapply (encode_declared_length Simulator.sample_simulator (PDict []) 1700000000).
  vm_compute. reflexivity.
Defined.

Lemma encode_crc_trailer_witness :
  exists pkt self',
    Simulator.create_ccsds_packet Simulator.sample_simulator (PDict []) 1700000000
      = Some (pkt, self') /\
    exists body hi lo, pkt = body ++ [hi; lo] /\ be16 hi lo = Crc16Spec.compute body.
Proof.
  eexists _, _. split; [vm_compute; reflexivity|].
  eapply (encode_crc_trailer Simulator.sample_simulator (PDict []) 1700000000).
  vm_compute. reflexivity.
Defined.

Lemma decode_encode_roundtrip_witness :
  exists pkt self',
    Simulator.create_ccsds_packet Simulator.sample_simulator (PDict []) 1700000000
      = Some (pkt, self') /\
    exists p,
      MoService.parse_packet pkt "2024-12-27T10:30:45+00:00" = MoService.Parsed p /\
      MoService.apid (MoService.header p) = 100 /\
      MoService.sequence_count (MoService.header p) = 16385 mod 16384 /\
      MoService.telemetry p = PDict [].
Proof.
  eexists _, _. split; [vm_compute; reflexivity|].
  eapply (decode_encode_roundtrip Simulator.sample_simulator (PDict []) 1700000000).
  - simpl. lia.
  - vm_compute. reflexivity.
  - vm_compute. reflexivity.
Defined.

Lemma parse_packet_ignores_crc_and_length_witness :
  exists p,
    MoService.parse_packet
      ([Byte.x08; Byte.x64; Byte.xc0; Byte.x01; Byte.x00; Byte.x08] ++
       [Byte.x00; Byte.x00; Byte.x00; Byte.x00; Byte.x01; Byte.x03; Byte.x01;
        Byte.x03; Byte.xe8; Byte.x07; Byte.xd0; Byte.x7b; Byte.x7d] ++
       [Byte.x12; Byte.x34]) "t" = MoService.Parsed p /\
    MoService.data_length (MoService.header p) = be16 Byte.x00 Byte.x08 /\
    MoService.parse_packet
      ([Byte.x08; Byte.x64; Byte.xc0; Byte.x01; Byte.xff; Byte.xff] ++
       [Byte.x00; Byte.x00; Byte.x00; Byte.x00; Byte.x01; Byte.x03; Byte.x01;
        Byte.x03; Byte.xe8; Byte.x07; Byte.xd0; Byte.x7b; Byte.x7d] ++
       [Byte.x00; Byte.x00]) "t" =
    MoService.Parsed {|
      MoService.header := {|
        MoService.version := MoService.version (MoService.header p);
        MoService.type_ := MoService.type_ (MoService.header p);
        MoService.apid := MoService.apid (MoService.header p);
        MoService.sequence_flags := MoService.sequence_flags (MoService.header p);
        MoService.sequence_count := MoService.sequence_count (MoService.header p);
        MoService.data_length := be16 Byte.xff Byte.xff
      |};
      MoService.telemetry := MoService.telemetry p;
      MoService.raw_size := MoService.raw_size p;
      MoService.timestamp := MoService.timestamp p
    |}.
Proof.
  apply (parse_packet_ignores_crc_and_length
           Byte.x08 Byte.x64 Byte.xc0 Byte.x01 Byte.x00 Byte.x08 Byte.xff Byte.xff
           Byte.x12 Byte.x34 Byte.x00 Byte.x00).
  - vm_compute. discriminate.
  - unfold len. simpl. lia.
Defined.

(* ===================================================================== *)
(** * The telemetry log of [mo_service.py] *)
(* ===================================================================== *)

Section ReceiverFacts.
Context `{Json}.
Import MoService.

Lemma parsed_sequence_count_range (data : list byte) (now : string) (p : Packet) :
  parse_packet data now = Parsed p -> 0 <= sequence_count (header p) < 16384.
Proof.
  intros E.
  destruct (Z.lt_ge_cases (len data) 6) as [Hs|Hl].
  - rewrite parse_packet_short in E by exact Hs. discriminate.
  - destruct (six_bytes data Hl) as (a & b & c & d & e & f & rest & ->).
    rewrite parse_packet_header in E. inversion E; subst p; clear E.
    cbn [header sequence_count].
    change 16383 with (Z.ones 14). rewrite Z.land_ones by lia.
    apply Z.mod_pos_bound. lia.
Qed.

(** A datagram that parses is stored under its sequence count, whatever
    was stored there before. *)
Lemma receive_parsed (data : list byte) (st : State) (p : Packet) :
  parse_packet data (next_reading st) = Parsed p ->
  telemetry_store (receive data st)
  = <[ sequence_count (header p) := p ]> (telemetry_store st).
Proof.
  intros E. unfold receive. rewrite E.
  destruct (is_dict (telemetry p)); reflexivity.
Qed.

(** A datagram that does not parse leaves the state as it is. *)
Lemma receive_error (data : list byte) (st : State) (msg : string) :
  parse_packet data (next_reading st) = ParseError msg -> receive data st = st.
Proof. intros E. unfold receive. rewrite E. reflexivity. Qed.

Lemma receive_keyed (data : list byte) (st : State) :
  (forall k p, telemetry_store st !! k = Some p ->
               sequence_count (header p) = k /\ 0 <= k < 16384) ->
  forall k p, telemetry_store (receive data st) !! k = Some p ->
              sequence_count (header p) = k /\ 0 <= k < 16384.
Proof.
  intros Inv k p.
  destruct (parse_packet data (next_reading st)) as [msg|q] eqn:E.
  - rewrite (receive_error _ _ _ E). apply Inv.
  - rewrite (receive_parsed _ _ _ E).
    destruct (decide (sequence_count (header q) = k)) as [<-|Hne].
    + rewrite lookup_insert_eq. intros [= <-].
      split; [reflexivity | eapply parsed_sequence_count_range, E].
    + rewrite lookup_insert_ne by exact Hne. apply Inv.
Qed.

Lemma run_keyed (datagrams : list (list byte)) (st : State) :
  (forall k p, telemetry_store st !! k = Some p ->
               sequence_count (header p) = k /\ 0 <= k < 16384) ->
  forall k p, telemetry_store (run datagrams st) !! k = Some p ->
              sequence_count (header p) = k /\ 0 <= k < 16384.
Proof.
  revert st. induction datagrams as [|d ds IH]; intros st Inv; [exact Inv|].
  cbn [run fold_left]. apply IH. apply receive_keyed, Inv.
Qed.

End ReceiverFacts.

(* ===================================================================== *)
(** * The two telemetry logs *)
(* ===================================================================== *)

Section XmlLog.
Import MoServiceXml.

Lemma xml_receive_numbered (data : list byte) (addr : string) (st : State) :
  numbered st ->
  numbered (receive data addr st).2 /\
  size (telemetry_store (receive data addr st).2) = S (size (telemetry_store st)) /\
  (exists d, telemetry_store (receive data addr st).2
               !! Z.of_nat (size (telemetry_store st)) = Some d /\
             d_source d = addr /\ d_size d = len data) /\
  (forall k d, telemetry_store st !! k = Some d ->
               telemetry_store (receive data addr st).2 !! k = Some d).
Proof.
  intros Hnum.
  assert (Hfresh : telemetry_store st !! Z.of_nat (size (telemetry_store st)) = None).
  { apply eq_None_not_Some. intros Hs. apply Hnum in Hs. lia. }
  unfold receive, bind, now, put_datagram, ret. cbn [fst snd telemetry_store].
  assert (Hsize : size (<[ Z.of_nat (size (telemetry_store st)) :=
                            {| d_source := addr; d_size := len data;
                               d_timestamp := next_reading st |} ]> (telemetry_store st))
                  = S (size (telemetry_store st))).
  { apply map_size_insert_None, Hfresh. }
  split; [|split; [exact Hsize|split]].
  - intros k. unfold numbered in Hnum. cbn [telemetry_store]. rewrite Hsize.
    destruct (decide (k = Z.of_nat (size (telemetry_store st)))) as [->|Hne].
    + rewrite lookup_insert_eq. split; [lia | by eexists].
    + rewrite lookup_insert_ne by congruence. rewrite Hnum. lia.
  - eexists. rewrite lookup_insert_eq. split; [reflexivity|]. split; reflexivity.
  - intros k d Hk.
    rewrite lookup_insert_ne; [exact Hk|]. intros <-. congruence.
Qed.

Lemma xml_run_numbered (datagrams : list (list byte * string)) (st : State) :
  numbered st ->
  numbered (run datagrams st) /\
  size (telemetry_store (run datagrams st))
  = (size (telemetry_store st) + length datagrams)%nat /\
  forall (i : nat) data addr, datagrams !! i = Some (data, addr) ->
    exists d, telemetry_store (run datagrams st)
                !! Z.of_nat (size (telemetry_store st) + i) = Some d /\
              d_source d = addr /\ d_size d = len data.
Proof.
  revert st. induction datagrams as [|[data addr] rest IH]; intros st Hnum.
  - cbn [run fold_left length]. split; [exact Hnum|]. split; [lia|].
    intros i data addr Hi. rewrite lookup_nil in Hi. discriminate.
  - destruct (xml_receive_numbered data addr st Hnum)
      as (Hnum1 & Hsize1 & (d0 & Hd0 & Hsrc & Hlen) & _).
    cbn [run fold_left fst snd]. fold (run rest (receive data addr st).2).
    destruct (IH _ Hnum1) as (Hnum2 & Hsz & Hnew).
    split; [exact Hnum2|]. split; [rewrite Hsz, Hsize1; cbn [length]; lia|].
    intros [|i] data' addr' Hi.
    + cbn in Hi. inversion Hi; subst data' addr'.
      exists d0. rewrite Nat.add_0_r. split; [|split; assumption].
      clear -Hd0 Hnum1. revert Hd0 Hnum1.
      generalize (receive data addr st).2 as s1.
      generalize (Z.of_nat (size (telemetry_store st))) as k.
      induction rest as [|[data1 addr1] rest IHr]; intros k s1 Hk Hn1; [exact Hk|].
      cbn [run fold_left fst snd]. fold (run rest (receive data1 addr1 s1).2).
      destruct (xml_receive_numbered data1 addr1 s1 Hn1) as (Hn2 & _ & _ & Hkeep).
      apply IHr; [apply Hkeep, Hk | exact Hn2].
    + cbn in Hi. destruct (Hnew i data' addr' Hi) as (d & Hd & Hs & Hl).
      exists d. split; [|split; assumption].
      rewrite <- Hd. f_equal. rewrite Hsize1. lia.
Qed.

End XmlLog.

Section TelemetryLogs.
Context `{Json}.

(** ** C8 *)

(** C8 (as the code has it). The two services keep their telemetry logs
    differently.  In [mo_service.py], after any sequence of datagrams,
    every stored packet sits under its own sequence count, a number below
    16384; a further datagram that parses is stored under its sequence
    count and replaces whatever record was there, one that does not parse
    changes nothing; so two stored records never share a sequence count.
    In [mo_service_xml.py] the receiver does not decode: the [i]-th
    datagram received is filed under the number [i] with the sender's
    address and its length, so the log holds one record per datagram and
    nothing is replaced. *)
Theorem telemetry_log_keys
    (clk : nat -> string) (datagrams : list (list byte))
    (arrivals : list (list byte * string)) :
  let start := MoService.initial_state clk in
  let st := MoService.run datagrams start in
  let xst := MoServiceXml.run arrivals (MoServiceXml.initial_state clk) in
  ((forall k p, MoService.telemetry_store st !! k = Some p ->
                MoService.sequence_count (MoService.header p) = k /\ 0 <= k < 16384) /\
   (forall data p,
       MoService.parse_packet data (MoService.next_reading st) = MoService.Parsed p ->
       MoService.telemetry_store (MoService.run (datagrams ++ [data]) start)
       = <[ MoService.sequence_count (MoService.header p) := p ]>
           (MoService.telemetry_store st)) /\
   (forall data msg,
       MoService.parse_packet data (MoService.next_reading st)
       = MoService.ParseError msg ->
       MoService.run (datagrams ++ [data]) start = st) /\
   (forall k1 k2 p1 p2,
       MoService.telemetry_store st !! k1 = Some p1 ->
       MoService.telemetry_store st !! k2 = Some p2 ->
       MoService.sequence_count (MoService.header p1)
       = MoService.sequence_count (MoService.header p2) ->
       k1 = k2 /\ p1 = p2)) /\
  (size (MoServiceXml.telemetry_store xst) = length arrivals /\
   (forall k : Z, is_Some (MoServiceXml.telemetry_store xst !! k)
                  <-> 0 <= k < Z.of_nat (length arrivals)) /\
   (forall (i : nat) data addr, arrivals !! i = Some (data, addr) ->
      exists d, MoServiceXml.telemetry_store xst !! Z.of_nat i = Some d /\
                MoServiceXml.d_source d = addr /\
                MoServiceXml.d_size d = len data)).
Proof.
  intros start st xst. split.
  - assert (Inv : forall k p, MoService.telemetry_store st !! k = Some p ->
                    MoService.sequence_count (MoService.header p) = k /\ 0 <= k < 16384).
    { apply run_keyed. intros k p. cbn. rewrite lookup_empty. discriminate. }
    assert (Hlast : forall data,
               MoService.run (datagrams ++ [data]) start = MoService.receive data st).
    { intros data. unfold MoService.run. rewrite fold_left_app. reflexivity. }
    split; [exact Inv|]. split; [|split].
    + intros data p E. rewrite Hlast. apply (receive_parsed _ _ _ E).
    + intros data msg E. rewrite Hlast. apply (receive_error _ _ _ E).
    + intros k1 k2 p1 p2 H1 H2 Hs.
      destruct (Inv _ _ H1) as [E1 _], (Inv _ _ H2) as [E2 _].
      assert (Hk : k1 = k2) by congruence.
      split; [exact Hk | congruence].
  - assert (Hnum : MoServiceXml.numbered (MoServiceXml.initial_state clk)).
    { intros k. unfold MoServiceXml.initial_state. cbn [MoServiceXml.telemetry_store].
      rewrite lookup_empty, map_size_empty.
      split; [intros [d Hd]; discriminate Hd | simpl; lia]. }
    destruct (xml_run_numbered arrivals _ Hnum) as (Hnum' & Hsize & Hnew).
    fold xst in Hnum', Hsize, Hnew.
    assert (Hzero : size (MoServiceXml.telemetry_store (MoServiceXml.initial_state clk))
                    = 0%nat) by apply map_size_empty.
    rewrite Hzero in Hsize, Hnew. cbn [Nat.add] in Hsize, Hnew.
    split; [exact Hsize|]. split; [|exact Hnew].
    intros k. rewrite (Hnum' k), Hsize. reflexivity.
Qed.

End TelemetryLogs.

(** C8 as the specification states it fails for the log of
    [mo_service_xml.py]: two datagrams that carry the same packet, of
    sequence count 1, leave two records there, under the keys 0 and 1,
    where the log of [mo_service.py] holds one record, under the key 1. *)
Lemma xml_log_keeps_both_records :
  let packet :=
    [Byte.x08; Byte.x64; Byte.xc0; Byte.x01; Byte.x00; Byte.x08] ++
    [Byte.x00; Byte.x00; Byte.x00; Byte.x00; Byte.x01; Byte.x03; Byte.x01;
     Byte.x03; Byte.xe8; Byte.x07; Byte.xd0; Byte.x7b; Byte.x7d] ++
    [Byte.x12; Byte.x34] in
  let xst := MoServiceXml.run [(packet, "127.0.0.1"); (packet, "127.0.0.1")]
               (MoServiceXml.initial_state MoServiceXml.sample_clock) in
  let st := MoService.run [packet; packet]
              (MoService.initial_state MoServiceXml.sample_clock) in
  (exists p, MoService.parse_packet packet "t" = MoService.Parsed p /\
             MoService.sequence_count (MoService.header p) = 1) /\
  size (MoServiceXml.telemetry_store xst) = 2%nat /\
  MoServiceXml.d_size <$> MoServiceXml.telemetry_store xst !! 0 = Some 21 /\
  MoServiceXml.d_size <$> MoServiceXml.telemetry_store xst !! 1 = Some 21 /\
  size (MoService.telemetry_store st) = 1%nat /\
  is_Some (MoService.telemetry_store st !! 1).
Proof.
  cbv zeta. split; [eexists; split; vm_compute; reflexivity|].
  repeat split; try (vm_compute; reflexivity).
  vm_compute. by eexists.
Qed.

(* ===================================================================== *)
(** * GetParameterValues of [mo_service.py] *)
(* ===================================================================== *)

Section GetParameterValues.
Import MoService.

Lemma answers_widen (st st1 st2 : State) (param_id : string) (p : Parameter_) :
  (ticks st1 <= ticks st2)%nat -> answers st st1 param_id p -> answers st st2 param_id p.
Proof.
  unfold answers. intros Ht [Hn Hp]. split; [exact Hn|].
  destruct (parameter_store st !! name p); [exact Hp|].
  destruct Hp as (? & ? & ? & ? & n & Hr & ?).
  repeat split; try assumption. exists n. split; [lia | assumption].
Qed.

Lemma answers_shift (st0 st st' : State) (param_id : string) (p : Parameter_) :
  parameter_store st = parameter_store st0 ->
  clock st = clock st0 ->
  (ticks st0 <= ticks st)%nat ->
  answers st st' param_id p -> answers st0 st' param_id p.
Proof.
  unfold answers. intros Hs Hc Ht [Hn Hp]. split; [exact Hn|].
  rewrite <- Hs. destruct (parameter_store st !! name p); [exact Hp|].
  destruct Hp as (? & ? & ? & ? & n & Hr & ?).
  repeat split; try assumption. exists n. split; [lia | congruence].
Qed.

Lemma get_one_spec (param_id : string) (st : State) :
  parameter_store (get_one param_id st).2 = parameter_store st /\
  telemetry_store (get_one param_id st).2 = telemetry_store st /\
  command_queue (get_one param_id st).2 = command_queue st /\
  clock (get_one param_id st).2 = clock st /\
  (ticks st <= ticks (get_one param_id st).2)%nat /\
  answers st (get_one param_id st).2 param_id (get_one param_id st).1.
Proof.
  unfold get_one, answers.
  destruct (parameter_store st !! py_upper param_id) as [d|] eqn:E; cbn; rewrite E.
  - repeat split; auto.
  - repeat split; auto.
    exists (ticks st). split; [lia | reflexivity].
Qed.

Lemma for_each_get_one_spec (ids : list string) (st : State) :
  parameter_store (for_each get_one ids st).2 = parameter_store st /\
  telemetry_store (for_each get_one ids st).2 = telemetry_store st /\
  command_queue (for_each get_one ids st).2 = command_queue st /\
  clock (for_each get_one ids st).2 = clock st /\
  (ticks st <= ticks (for_each get_one ids st).2)%nat /\
  Forall2 (answers st (for_each get_one ids st).2) ids (for_each get_one ids st).1.
Proof.
  revert st. induction ids as [|id ids IH]; intros st.
  - cbn. repeat split; auto.
  - cbn [for_each]. unfold bind, ret. cbn beta.
    pose proof (get_one_spec id st) as Hone.
    destruct (get_one id st) as [p st1]. cbn [fst snd] in Hone.
    destruct Hone as (Hs1 & Ht1 & Hq1 & Hc1 & Hk1 & Ha1).
    pose proof (IH st1) as Hrest.
    destruct (for_each get_one ids st1) as [ps st2]. cbn [fst snd] in Hrest.
    destruct Hrest as (Hs2 & Ht2 & Hq2 & Hc2 & Hk2 & Ha2).
    cbn. repeat split; try congruence; try lia.
    constructor.
    + eapply answers_widen; [exact Hk2 | exact Ha1].
    + eapply Forall2_impl; [exact Ha2|].
      intros x y Hxy. eapply answers_shift; eauto.
Qed.

(** ** C2 *)

(** C2. The response of GetParameterValues holds exactly one result per
    requested identifier, in request order.  Each result reports a name,
    the identifier in upper case (the model of [upper()] is Python's on
    ASCII text).  A result whose name is in the parameter store carries
    the stored value, timestamp, validity, units and quality (GOOD when
    the entry stores none); a result whose name is absent carries no
    value, validity INVALID, quality UNKNOWN and a clock reading taken
    during the call.  The call always returns and leaves the stores as
    they were. *)
Theorem get_ccsds_parameters_results
    (request : GetParameterValuesRequest) (st : State) :
  let resp := (get_ccsds_parameters request st).1 in
  let st' := (get_ccsds_parameters request st).2 in
  Forall2 (answers st st') (parameterIds request) (parameters resp) /\
  length (parameters resp) = length (parameterIds request) /\
  r_requestId resp = requestId request /\
  parameter_store st' = parameter_store st /\
  telemetry_store st' = telemetry_store st.
Proof.
  unfold get_ccsds_parameters, bind.
  pose proof (for_each_get_one_spec (parameterIds request) st) as Hloop.
  destruct (for_each get_one (parameterIds request) st) as [ps st1].
  cbn [fst snd] in Hloop. destruct Hloop as (Hs & Ht & _ & _ & Hk & Ha).
  cbn. split; [|split; [|auto]].
  - eapply Forall2_impl; [exact Ha|].
    intros x y Hxy. eapply answers_widen; [|exact Hxy]. cbn. lia.
  - symmetry. eapply Forall2_length, Ha.
Qed.

End GetParameterValues.

(* ===================================================================== *)
(** * Loops in the state monad *)
(* ===================================================================== *)

Section ForEach.
Context {S A B : Type}.
Variable f : A -> M S B.
Variable R : S -> S -> Prop.
Variable P : S -> S -> A -> B -> Prop.
Hypothesis R_refl : forall s, R s s.
Hypothesis R_trans : forall s1 s2 s3, R s1 s2 -> R s2 s3 -> R s1 s3.
Hypothesis body : forall a s, R s (f a s).2 /\ P s (f a s).2 a (f a s).1.
Hypothesis P_widen :
  forall s0 s1 s2 s3 a b, R s0 s1 -> R s2 s3 -> P s1 s2 a b -> P s0 s3 a b.

(** A loop whose body keeps [R] and produces [P] keeps [R] and produces
    [P] item by item, in order. *)
Lemma for_each_spec (xs : list A) (s : S) :
  R s (for_each f xs s).2 /\
  Forall2 (P s (for_each f xs s).2) xs (for_each f xs s).1.
Proof.
  revert s. induction xs as [|x xs IH]; intros s.
  - cbn. split; [apply R_refl | constructor].
  - cbn [for_each]. unfold bind, ret. cbn beta.
    pose proof (body x s) as [Hr Hp].
    destruct (f x s) as [y s1]. cbn [fst snd] in Hr, Hp.
    pose proof (IH s1) as [Hr' Hps].
    destruct (for_each f xs s1) as [ys s2]. cbn [fst snd] in Hr', Hps |- *.
    split; [eapply R_trans; eassumption|].
    constructor.
    + eapply P_widen; [apply R_refl | exact Hr' | exact Hp].
    + eapply Forall2_impl; [exact Hps|].
      intros a b Hab. eapply P_widen; [exact Hr | apply R_refl | exact Hab].
Qed.

End ForEach.

(* ===================================================================== *)
(** * The tree codec: equations of [dict_to_element] *)
(* ===================================================================== *)

Section DictToElement.
Import ET XmlValidator.

Lemma dict_to_element_scalar (t : string) (v : pyval) :
  match v with PDict _ | PList _ => False | _ => True end ->
  dict_to_element t v = Some (Elem t [] (Some (py_str v)) []).
Proof. destruct v; intros Hv; try contradiction; reflexivity. Qed.

Lemma each_item_make_items (t : string) (items : list pyval) :
  (fix each_item (l : list pyval) : option (list Element) :=
     match l with
     | [] => Some []
     | item :: l' =>
         match dict_to_element t item, each_item l' with
         | Some e, Some es => Some (e :: es)
         | _, _ => None
         end
     end) items = make_items t items.
Proof.
  unfold make_items. induction items as [|item items IH]; [reflexivity|].
  rewrite IH. cbn [map sequence].
  destruct (dict_to_element t item); [|reflexivity].
  destruct (sequence _); reflexivity.
Qed.

Lemma dict_to_element_list (t : string) (items : list pyval) :
  dict_to_element t (PList items) =
  match make_items "item" items with
  | Some cs => Some (Elem t [] None cs)
  | None => None
  end.
Proof. cbn [dict_to_element]. rewrite each_item_make_items. reflexivity. Qed.

Lemma dict_to_element_dict (t : string) (entries : list (string * pyval)) :
  dict_to_element t (PDict entries) =
  match make_attrs entries, make_all entries with
  | Some a, Some cs => Some (Elem t a (make_text entries) cs)
  | _, _ => None
  end.
Proof.
  cbn [dict_to_element]. fold (make_attrs entries). fold (make_text entries).
  destruct (make_attrs entries) as [a|].
  - match goal with
    | |- match ?k with _ => _ end = _ => assert (Hk : k = make_all entries)
    end.
    { induction entries as [|[k v] rest IH]; [reflexivity|].
      cbn [make_all]. rewrite <- IH.
      destruct (reserved k); [reflexivity|].
      destruct v; try reflexivity.
      unfold make_children. rewrite <- each_item_make_items. reflexivity. }
    rewrite Hk. reflexivity.
  - reflexivity.
Qed.

End DictToElement.

(* ===================================================================== *)
(** * The handlers of [mo_service_xml.py] *)
(* ===================================================================== *)

Section XmlHandlers.
Import ET XmlValidator MoServiceXml.
Context `{Library}.

Lemma clock_advanced_refl (st : State) : clock_advanced st st.
Proof. unfold clock_advanced. auto 10. Qed.

Lemma clock_advanced_trans (s1 s2 s3 : State) :
  clock_advanced s1 s2 -> clock_advanced s2 s3 -> clock_advanced s1 s3.
Proof.
  unfold clock_advanced.
  intros (? & ? & ? & ? & ? & ?) (? & ? & ? & ? & ? & ?).
  repeat split; try congruence. lia.
Qed.

Lemma now_spec (st : State) :
  clock_advanced st (now st).2 /\
  ticks (now st).2 = S (ticks st) /\
  (now st).1 = clock st (ticks st).
Proof. unfold clock_advanced, now, next_reading. cbn. auto 10. Qed.

Lemma py_upper_empty : py_upper "" = "".
Proof. reflexivity. Qed.

Lemma xml_get_one_spec (param_id : option string) (st : State) :
  clock_advanced st (xml_get_one param_id st).2 /\
  xml_answers st (xml_get_one param_id st).2 param_id (xml_get_one param_id st).1.
Proof.
  unfold xml_get_one, xml_answers.
  assert (Hkey : match param_id with
                 | Some s => if String.eqb s "" then "" else py_upper s
                 | None => ""
                 end = store_key param_id).
  { destruct param_id as [s|]; [|reflexivity]. cbn.
    destruct (String.eqb_spec s ""); [subst; reflexivity | reflexivity]. }
  rewrite Hkey.
  destruct (parameter_store st !! store_key param_id) as [d|] eqn:E; cbn.
  - split; [apply clock_advanced_refl|].
    eexists. split; [reflexivity|].
    destruct (pd_value d); reflexivity.
  - split; [apply now_spec|].
    exists (ticks st). split; [lia | reflexivity].
Qed.

Lemma xml_answers_widen (s0 s1 s2 s3 : State) (a : option string) (b : pyval) :
  clock_advanced s0 s1 -> clock_advanced s2 s3 ->
  xml_answers s1 s2 a b -> xml_answers s0 s3 a b.
Proof.
  unfold clock_advanced, xml_answers.
  intros (_ & Hp & _ & _ & Hc & Ht) (_ & _ & _ & _ & _ & Ht').
  rewrite Hp. destruct (parameter_store s0 !! store_key a); [auto|].
  intros (n & Hn & ->). exists n. split; [lia | congruence].
Qed.

Lemma json_get_one_spec (param_id : string) (st : State) :
  clock_advanced st (json_get_one param_id st).2 /\
  json_answers st (json_get_one param_id st).2 param_id (json_get_one param_id st).1.
Proof.
  unfold json_get_one, json_answers.
  destruct (parameter_store st !! py_upper param_id) as [d|] eqn:E; cbn; rewrite E.
  - split; [apply clock_advanced_refl | auto].
  - split; [apply now_spec|]. repeat split.
    exists (ticks st). split; [lia | reflexivity].
Qed.

Lemma json_answers_widen (s0 s1 s2 s3 : State) (a : string) (b : JSONParameter) :
  clock_advanced s0 s1 -> clock_advanced s2 s3 ->
  json_answers s1 s2 a b -> json_answers s0 s3 a b.
Proof.
  unfold clock_advanced, json_answers.
  intros (_ & Hp & _ & _ & Hc & Ht) (_ & _ & _ & _ & _ & Ht') [Hn Hb].
  split; [exact Hn|]. rewrite <- Hp.
  destruct (parameter_store s1 !! name b); [exact Hb|].
  destruct Hb as (? & ? & ? & n & Hr & ?). repeat split; try assumption.
  exists n. split; [lia | congruence].
Qed.

Lemma set_one_spec (param_set : option string * Element) (st : State) :
  clock_advanced st (set_one param_set st).2 /\
  set_answers st (set_one param_set st).2 param_set (set_one param_set st).1.
Proof.
  unfold set_one, set_answers. cbn.
  split; [apply now_spec|].
  exists (ticks st). split; [lia | reflexivity].
Qed.

Lemma set_answers_widen (s0 s1 s2 s3 : State)
    (a : option string * Element) (b : pyval) :
  clock_advanced s0 s1 -> clock_advanced s2 s3 ->
  set_answers s1 s2 a b -> set_answers s0 s3 a b.
Proof.
  unfold clock_advanced, set_answers.
  intros (_ & _ & _ & _ & Hc & Ht) (_ & _ & _ & _ & _ & Ht') (n & Hn & ->).
  exists n. split; [lia | congruence].
Qed.

(** The response dictionaries hold nothing [dict_to_element] raises on. *)
Lemma make_items_all (t : string) (items : list pyval) :
  Forall (fun v => is_Some (dict_to_element t v)) items ->
  is_Some (make_items t items).
Proof.
  unfold make_items. induction 1 as [|v items [e He] _ [es Hes]]; [by eexists|].
  cbn [map sequence]. rewrite He, Hes. by eexists.
Qed.

Lemma opt_str_element (t : string) (o : option string) :
  dict_to_element t (opt_str o) = Some (Elem t [] (Some (py_str (opt_str o))) []).
Proof. destruct o; reflexivity. Qed.

Lemma xml_answer_element (st st' : State) (t : string) (a : option string) (p : pyval) :
  xml_answers st st' a p -> is_Some (dict_to_element t p).
Proof.
  unfold xml_answers.
  destruct (parameter_store st !! store_key a) as [d|].
  - intros (shown & -> & Hshown).
    destruct (pd_value d); subst shown; cbn; by eexists.
  - intros (n & _ & ->). by eexists.
Qed.

Lemma set_answer_element (st st' : State) (t : string)
    (a : option string * Element) (r : pyval) :
  set_answers st st' a r -> is_Some (dict_to_element t r).
Proof.
  intros (n & _ & ->). destruct a as [[s|] e]; cbn; by eexists.
Qed.

Lemma response_to_xml (list_tag item_tag root_tag : string)
    (request_id : option string) (stamp : string) (items : list pyval) :
  reserved list_tag = false ->
  reserved item_tag = false ->
  Forall (fun v => is_Some (dict_to_element item_tag v)) items ->
  is_Some (dict_to_xml
             (PDict [(list_tag, PDict [(item_tag, PList items)]);
                     ("requestId", opt_str request_id);
                     ("timestamp", PStr stamp);
                     ("result", PDict [("status", PStr "SUCCESS")])])
             root_tag).
Proof.
  intros Hl Hi Hitems. unfold dict_to_xml.
  rewrite dict_to_element_dict.
  assert (Ha : make_attrs [(list_tag, PDict [(item_tag, PList items)]);
                           ("requestId", opt_str request_id);
                           ("timestamp", PStr stamp);
                           ("result", PDict [("status", PStr "SUCCESS")])] = Some []).
  { unfold make_attrs. cbn [dict_get].
    destruct (String.eqb_spec "@attributes" list_tag) as [<-|_]; [discriminate|].
    reflexivity. }
  rewrite Ha. cbn [make_all]. rewrite Hl.
  cbn [make_children]. rewrite dict_to_element_dict.
  assert (Hb : make_attrs [(item_tag, PList items)] = Some []).
  { unfold make_attrs. cbn [dict_get].
    destruct (String.eqb_spec "@attributes" item_tag) as [<-|_]; [discriminate|].
    reflexivity. }
  rewrite Hb. cbn [make_all]. rewrite Hi. cbn [make_children].
  destruct (make_items_all item_tag items Hitems) as [es ->].
  destruct request_id; cbn; by eexists.
Qed.

Lemma xml_answers_later (s0 s1 s2 s3 : State) (a : option string) (b : pyval) :
  clock_advanced s0 s1 -> (ticks s2 <= ticks s3)%nat ->
  xml_answers s1 s2 a b -> xml_answers s0 s3 a b.
Proof.
  unfold clock_advanced, xml_answers.
  intros (_ & Hp & _ & _ & Hc & Ht) Ht'.
  rewrite Hp. destruct (parameter_store s0 !! store_key a); [auto|].
  intros (n & Hn & ->). exists n. split; [lia | congruence].
Qed.

Lemma set_answers_later (s0 s1 s2 s3 : State)
    (a : option string * Element) (b : pyval) :
  clock_advanced s0 s1 -> (ticks s2 <= ticks s3)%nat ->
  set_answers s1 s2 a b -> set_answers s0 s3 a b.
Proof.
  unfold clock_advanced, set_answers.
  intros (_ & _ & _ & _ & Hc & Ht) Ht' (n & Hn & ->).
  exists n. split; [lia | congruence].
Qed.

Lemma json_answers_later (s0 s1 s2 s3 : State) (a : string) (b : JSONParameter) :
  clock_advanced s0 s1 -> (ticks s2 <= ticks s3)%nat ->
  json_answers s1 s2 a b -> json_answers s0 s3 a b.
Proof.
  unfold clock_advanced, json_answers.
  intros (_ & Hp & _ & _ & Hc & Ht) Ht' [Hn Hb].
  split; [exact Hn|]. rewrite <- Hp.
  destruct (parameter_store s1 !! name b); [exact Hb|].
  destruct Hb as (? & ? & ? & n & Hr & ?). repeat split; try assumption.
  exists n. split; [lia | congruence].
Qed.

(** The JSON GetParameterValues of this service answers every identifier
    from the parameter store, in order. *)
Lemma json_get_parameter_values_spec
    (request : JSONGetParameterValuesRequest) (st : State) :
  clock_advanced st (json_get_parameter_values request st).2 /\
  Forall2 (json_answers st (json_get_parameter_values request st).2)
          (parameterIds request)
          (parameters (json_get_parameter_values request st).1).
Proof.
  unfold json_get_parameter_values, bind, ret.
  pose proof (for_each_spec json_get_one clock_advanced json_answers
                clock_advanced_refl clock_advanced_trans json_get_one_spec
                (fun s0 s1 s2 s3 a b H1 H2 => json_answers_widen s0 s1 s2 s3 a b H1 H2)
                (parameterIds request) st) as [Hr Hp].
  destruct (for_each json_get_one (parameterIds request) st) as [ps st1].
  cbn [fst snd] in Hr, Hp.
  pose proof (now_spec st1) as (Hn & Hk & _).
  destruct (now st1) as [stamp st2]. cbn [fst snd] in Hn, Hk |- *.
  split; [eapply clock_advanced_trans; eassumption|].
  eapply Forall2_impl; [exact Hp|].
  intros a b Hab.
  eapply json_answers_later; [apply clock_advanced_refl | | exact Hab]. lia.
Qed.

(** The handler of GetParameterValues on any store. *)
Lemma get_handler_answers
    (root : Element) (request_id : option string) (st : State) :
  let out := _process_get_parameter_values_xml root request_id st in
  exists stamp params,
    Forall2 (xml_answers st out.2) (get_param_ids root) params /\
    out.1 = dict_to_xml (get_response_dict request_id stamp params)
                        "GetParameterValuesResponse" /\
    is_Some out.1 /\
    parameter_store out.2 = parameter_store st.
Proof.
  unfold _process_get_parameter_values_xml, bind, ret. cbn zeta.
  pose proof (now_spec st) as (Hn0 & Hk0 & _).
  destruct (now st) as [stamp st0]. cbn [fst snd] in Hn0, Hk0.
  pose proof (for_each_spec xml_get_one clock_advanced xml_answers
                clock_advanced_refl clock_advanced_trans xml_get_one_spec
                (fun s0 s1 s2 s3 a b H1 H2 => xml_answers_widen s0 s1 s2 s3 a b H1 H2)
                (get_param_ids root) st0) as [Hr Hp].
  destruct (for_each xml_get_one (get_param_ids root) st0) as [params st1].
  cbn [fst snd] in Hr, Hp.
  assert (Hdoc : is_Some (dict_to_xml (get_response_dict request_id stamp params)
                                      "GetParameterValuesResponse")).
  { apply response_to_xml; [reflexivity | reflexivity |].
    clear -Hp. induction Hp as [|a b ids ps Hab _ IH]; constructor; [|exact IH].
    eapply xml_answer_element, Hab. }
  destruct Hdoc as [doc Hdoc]. rewrite Hdoc.
  pose proof (now_spec st1) as (Hn1 & Hk1 & _).
  destruct (now st1) as [logged st2]. cbn [fst snd] in Hn1, Hk1.
  cbn [log_xml fst snd].
  exists stamp, params. repeat split.
  - eapply Forall2_impl; [exact Hp|]. intros a b Hab.
    eapply xml_answers_later; [exact Hn0 | | exact Hab]. cbn. lia.
  - symmetry. exact Hdoc.
  - by eexists.
  - cbn. destruct Hn0 as (_ & H0 & _), Hr as (_ & H1 & _), Hn1 as (_ & H2 & _).
    congruence.
Qed.

Lemma classify_names (root_tag operation : string) :
  classify root_tag = Some operation ->
  (operation = "GetParameterValuesRequest" \/
   operation = "SetParameterValuesRequest" \/
   operation = "GetServiceInfoRequest") \/
  (operation = "GetParameterValuesResponse" \/
   operation = "SetParameterValuesResponse" \/
   operation = "GetServiceInfoResponse").
Proof.
  unfold classify.
  repeat match goal with
         | |- context [if contains ?a ?b then _ else _] => destruct (contains a b)
         end;
    intros [= <-]; tauto.
Qed.

Lemma validate_valid (xml_content : document) (given operation : string)
    (warnings : list string) :
  validate_mo_xml xml_content given = Valid operation warnings ->
  exists root, fromstring xml_content = Some root /\
               classify (tag root) = Some operation.
Proof.
  unfold validate_mo_xml.
  destruct (fromstring xml_content) as [root|]; [|discriminate].
  destruct (classify (tag root)) as [named|] eqn:Hc; [|discriminate].
  destruct mo_schema as [schema_validate|]; [|discriminate].
  destruct (schema_validate xml_content); [|discriminate].
  destruct (_semantic_validation root named); [discriminate|].
  intros [= <- _]. exists root. split; [reflexivity | exact Hc].
Qed.

Lemma get_handler_effect (root : Element) (request_id : option string) (st : State) :
  exists doc logged,
    (_process_get_parameter_values_xml root request_id st).1 = Some doc /\
    xml_requests (_process_get_parameter_values_xml root request_id st).2
    = xml_requests st ++
      [{| x_request_id := request_id; x_operation := "GetParameterValuesResponse";
          x_timestamp := logged; x_xml := text_prefix 1000 doc |}] /\
    command_queue (_process_get_parameter_values_xml root request_id st).2
    = command_queue st /\
    telemetry_store (_process_get_parameter_values_xml root request_id st).2
    = telemetry_store st /\
    parameter_store (_process_get_parameter_values_xml root request_id st).2
    = parameter_store st.
Proof.
  unfold _process_get_parameter_values_xml, bind, ret. cbn zeta.
  pose proof (now_spec st) as (Hn0 & _).
  destruct (now st) as [stamp st0]. cbn [fst snd] in Hn0.
  pose proof (for_each_spec xml_get_one clock_advanced xml_answers
                clock_advanced_refl clock_advanced_trans xml_get_one_spec
                (fun s0 s1 s2 s3 a b H1 H2 => xml_answers_widen s0 s1 s2 s3 a b H1 H2)
                (get_param_ids root) st0) as [Hr Hp].
  destruct (for_each xml_get_one (get_param_ids root) st0) as [params st1].
  cbn [fst snd] in Hr, Hp.
  assert (Hdoc : is_Some (dict_to_xml (get_response_dict request_id stamp params)
                                      "GetParameterValuesResponse")).
  { apply response_to_xml; [reflexivity | reflexivity |].
    clear -Hp. induction Hp as [|a b ids ps Hab _ IH]; constructor; [|exact IH].
    eapply xml_answer_element, Hab. }
  destruct Hdoc as [doc Hdoc]. rewrite Hdoc.
  pose proof (now_spec st1) as (Hn1 & _).
  destruct (now st1) as [logged st2]. cbn [fst snd] in Hn1.
  cbn [log_xml fst snd xml_requests command_queue telemetry_store parameter_store].
  destruct Hn0 as (Ht0 & Hp0 & Hc0 & Hx0 & _), Hr as (Ht1 & Hp1 & Hc1 & Hx1 & _),
    Hn1 as (Ht2 & Hp2 & Hc2 & Hx2 & _).
  exists doc, logged. repeat split; congruence.
Qed.

Lemma set_handler_effect (root : Element) (request_id : option string) (st : State) :
  exists doc queued,
    (_process_set_parameter_values_xml root request_id st).1 = Some doc /\
    command_queue (_process_set_parameter_values_xml root request_id st).2
    = command_queue st ++
      [{| c_request_id := request_id; c_parameters := get_param_sets root;
          c_timestamp := queued |}] /\
    xml_requests (_process_set_parameter_values_xml root request_id st).2
    = xml_requests st /\
    telemetry_store (_process_set_parameter_values_xml root request_id st).2
    = telemetry_store st /\
    parameter_store (_process_set_parameter_values_xml root request_id st).2
    = parameter_store st.
Proof.
  unfold _process_set_parameter_values_xml, bind, ret. cbn zeta.
  pose proof (now_spec st) as (Hn0 & _).
  destruct (now st) as [stamp st0]. cbn [fst snd] in Hn0.
  pose proof (for_each_spec set_one clock_advanced set_answers
                clock_advanced_refl clock_advanced_trans set_one_spec
                (fun s0 s1 s2 s3 a b H1 H2 => set_answers_widen s0 s1 s2 s3 a b H1 H2)
                (get_param_sets root) st0) as [Hr Hp].
  destruct (for_each set_one (get_param_sets root) st0) as [results st1].
  cbn [fst snd] in Hr, Hp.
  assert (Hdoc : is_Some (dict_to_xml (set_response_dict request_id stamp results)
                                      "SetParameterValuesResponse")).
  { apply response_to_xml; [reflexivity | reflexivity |].
    clear -Hp. induction Hp as [|a b ids ps Hab _ IH]; constructor; [|exact IH].
    eapply set_answer_element, Hab. }
  destruct Hdoc as [doc Hdoc]. rewrite Hdoc.
  pose proof (now_spec st1) as (Hn1 & _).
  destruct (now st1) as [queued st2]. cbn [fst snd] in Hn1.
  cbn [queue_command fst snd xml_requests command_queue telemetry_store parameter_store].
  destruct Hn0 as (Ht0 & Hp0 & Hc0 & Hx0 & _), Hr as (Ht1 & Hp1 & Hc1 & Hx1 & _),
    Hn1 as (Ht2 & Hp2 & Hc2 & Hx2 & _).
  exists doc, queued. repeat split; congruence.
Qed.

Lemma info_handler_effect (root : Element) (request_id : option string) (st : State) :
  exists doc,
    (_process_get_service_info_xml root request_id st).1 = Some doc /\
    clock_advanced st (_process_get_service_info_xml root request_id st).2.
Proof.
  unfold _process_get_service_info_xml, bind, ret.
  pose proof (now_spec st) as (Hn0 & _).
  destruct (now st) as [stamp st0]. cbn [fst snd] in Hn0 |- *.
  assert (Hdoc : is_Some (dict_to_xml (service_info_dict request_id stamp)
                                      "GetServiceInfoResponse")).
  { unfold dict_to_xml.
    assert (He : is_Some (dict_to_element "GetServiceInfoResponse"
                            (service_info_dict request_id stamp))).
    { destruct request_id; cbn; by eexists. }
    destruct He as [e ->]. by eexists. }
  destruct Hdoc as [doc Hdoc]. exists doc. split; [exact Hdoc | exact Hn0].
Qed.

(** [xml_operations] on a document that passed validation: the request
    is entered in the history, then the operation decides. *)
Lemma xml_operations_valid (xml_content : document) (st : State)
    (operation : string) (warnings : list string) (root : Element) :
  validate_mo_xml xml_content "" = Valid operation warnings ->
  fromstring xml_content = Some root ->
  let request_id := match find "requestId" root with
                    | Some request_id_elem => text request_id_elem
                    | None => Some "UNKNOWN"
                    end in
  exists asked st2,
    x_request_id asked = request_id /\
    x_operation asked = operation /\
    x_xml asked = text_prefix 1000 xml_content /\
    xml_requests st2 = xml_requests st ++ [asked] /\
    command_queue st2 = command_queue st /\
    telemetry_store st2 = telemetry_store st /\
    parameter_store st2 = parameter_store st /\
    xml_operations xml_content st =
      if contains "GetParameterValuesRequest" operation then
        (handled (_process_get_parameter_values_xml root request_id st2).1,
         (_process_get_parameter_values_xml root request_id st2).2)
      else if contains "SetParameterValuesRequest" operation then
        (handled (_process_set_parameter_values_xml root request_id st2).1,
         (_process_set_parameter_values_xml root request_id st2).2)
      else if contains "GetServiceInfoRequest" operation then
        (handled (_process_get_service_info_xml root request_id st2).1,
         (_process_get_service_info_xml root request_id st2).2)
      else
        (inl (processing_error
                (Raised (Http 501 (PStr ("Operation not implemented: "
                                         +:+ operation))))), st2).
Proof.
  intros Hv Hroot request_id.
  unfold xml_operations. rewrite Hv, Hroot. cbv zeta. fold request_id.
  set (asked := {| x_request_id := request_id; x_operation := operation;
                   x_timestamp := next_reading st;
                   x_xml := text_prefix 1000 xml_content |}).
  exists asked, (log_xml asked (now st).2).2.
  unfold bind at 1 2. unfold now, log_xml. cbn [fst snd].
  repeat split.
  destruct (contains "GetParameterValuesRequest" operation).
  { unfold bind, ret.
    destruct (_process_get_parameter_values_xml root request_id _); reflexivity. }
  destruct (contains "SetParameterValuesRequest" operation).
  { unfold bind, ret.
    destruct (_process_set_parameter_values_xml root request_id _); reflexivity. }
  destruct (contains "GetServiceInfoRequest" operation).
  { unfold bind, ret.
    destruct (_process_get_service_info_xml root request_id _); reflexivity. }
  reflexivity.
Qed.


Lemma xml_operations_keeps_parameters (xml_content : document) (st : State) :
  parameter_store (xml_operations xml_content st).2 = parameter_store st.
Proof.
  destruct (validate_mo_xml xml_content "") as [operation warnings|errors operation] eqn:Hv.
  - destruct (validate_valid _ _ _ _ Hv) as (root & Hroot & _).
    destruct (xml_operations_valid _ st _ _ _ Hv Hroot)
      as (asked & st2 & _ & _ & _ & _ & _ & _ & Hp & ->).
    set (request_id := match find "requestId" root with
                       | Some request_id_elem => text request_id_elem
                       | None => Some "UNKNOWN"
                       end).
    destruct (get_handler_effect root request_id st2) as (? & ? & _ & _ & _ & _ & H1).
    destruct (set_handler_effect root request_id st2) as (? & ? & _ & _ & _ & _ & H2).
    destruct (info_handler_effect root request_id st2) as (? & _ & _ & H3 & _).
    destruct (contains "GetParameterValuesRequest" operation); [cbn [snd]; congruence|].
    destruct (contains "SetParameterValuesRequest" operation); [cbn [snd]; congruence|].
    destruct (contains "GetServiceInfoRequest" operation); cbn [snd]; congruence.
  - unfold xml_operations. rewrite Hv. reflexivity.
Qed.

(** No operation of the service writes the parameter store: it holds
    what [initialize_sample_parameters] wrote. *)
Lemma reachable_parameters (st : State) :
  reachable st -> exists clk, parameter_store st = parameter_store (initial_state clk).
Proof.
  induction 1 as [clk|data addr st _ [clk IH]|request st _ [clk IH]
                  |xml_content st _ [clk IH]|st _ [clk IH]].
  - by exists clk.
  - exists clk. rewrite <- IH. reflexivity.
  - exists clk. rewrite <- IH.
    apply (json_get_parameter_values_spec request st).
  - exists clk. rewrite <- IH. apply xml_operations_keeps_parameters.
  - exists clk. rewrite <- IH. reflexivity.
Qed.

Lemma sample_values (clk : nat -> string) (k : string) (d : ParamData) :
  parameter_store (initial_state clk) !! k = Some d ->
  is_int_or_float (pd_value d) =
  match pd_value d with PInt _ | PFloat _ => true | _ => false end.
Proof.
  unfold initial_state. cbn [parameter_store]. intros Hd.
  repeat (apply lookup_insert_Some in Hd as [[_ <-]|[_ Hd]]; [reflexivity|]).
  rewrite lookup_empty in Hd. discriminate.
Qed.

Lemma sample_mode (clk : nat -> string) :
  exists d, parameter_store (initial_state clk) !! "MODE_SELECTION" = Some d /\
            pd_value d = PStr "SAFE_MODE".
Proof.
  unfold initial_state. cbn [parameter_store]. eexists. split.
  - rewrite lookup_insert_ne by discriminate. apply lookup_insert_eq.
  - reflexivity.
Qed.

(** ** C10 *)


(** ** C1 *)

(** C1 (as the code has it). Processing a SetParameterValues request
    reports SUCCESS for every parameter set that has a [parameterId] and
    a [parameterValue] element, in order, and appends one pending
    command, holding all those sets, to the command queue.  It always
    produces a document.  The parameter store is left as it was: a
    GetParameterValues that follows answers every identifier from the
    store as it was before the request, under the name it reports for
    the identifier (the identifier in upper case; the model of [upper()]
    is Python's on ASCII text), so an identifier that was absent is still
    reported INVALID with no value. *)
Theorem set_parameter_values_queues_command
    (root : Element) (request_id : option string) (st : State) :
  let out := _process_set_parameter_values_xml root request_id st in
  (exists stamp results queued,
      Forall2 (set_answers st out.2) (get_param_sets root) results /\
      out.1 = dict_to_xml (set_response_dict request_id stamp results)
                          "SetParameterValuesResponse" /\
      is_Some out.1 /\
      command_queue out.2
      = command_queue st ++
        [{| c_request_id := request_id;
            c_parameters := get_param_sets root;
            c_timestamp := queued |}]) /\
  parameter_store out.2 = parameter_store st /\
  (forall request : JSONGetParameterValuesRequest,
      Forall2
        (fun param_id p =>
           (is_ascii param_id = true -> name p = py_upper param_id) /\
           match parameter_store st !! name p with
           | Some param_data =>
               value p = pd_value param_data /\ validity p = pd_validity param_data
           | None => value p = PNone /\ validity p = "INVALID"
           end)
        (parameterIds request)
        (parameters (json_get_parameter_values request out.2).1)).
Proof.
  cbn zeta.
  assert (Hmain :
    (exists stamp results queued,
      Forall2 (set_answers st (_process_set_parameter_values_xml root request_id st).2)
              (get_param_sets root) results /\
      (_process_set_parameter_values_xml root request_id st).1
      = dict_to_xml (set_response_dict request_id stamp results)
                    "SetParameterValuesResponse" /\
      is_Some (_process_set_parameter_values_xml root request_id st).1 /\
      command_queue (_process_set_parameter_values_xml root request_id st).2
      = command_queue st ++
        [{| c_request_id := request_id;
            c_parameters := get_param_sets root;
            c_timestamp := queued |}]) /\
    parameter_store (_process_set_parameter_values_xml root request_id st).2
    = parameter_store st).
  { unfold _process_set_parameter_values_xml, bind, ret. cbn zeta.
    pose proof (now_spec st) as (Hn0 & Hk0 & _).
    destruct (now st) as [stamp st0]. cbn [fst snd] in Hn0, Hk0.
    pose proof (for_each_spec set_one clock_advanced set_answers
                  clock_advanced_refl clock_advanced_trans set_one_spec
                  (fun s0 s1 s2 s3 a b H1 H2 => set_answers_widen s0 s1 s2 s3 a b H1 H2)
                  (get_param_sets root) st0) as [Hr Hp].
    destruct (for_each set_one (get_param_sets root) st0) as [results st1].
    cbn [fst snd] in Hr, Hp.
    assert (Hdoc : is_Some (dict_to_xml (set_response_dict request_id stamp results)
                                        "SetParameterValuesResponse")).
    { apply response_to_xml; [reflexivity | reflexivity |].
      clear -Hp. induction Hp as [|a b ids ps Hab _ IH]; constructor; [|exact IH].
      eapply set_answer_element, Hab. }
    destruct Hdoc as [doc Hdoc]. rewrite Hdoc.
    pose proof (now_spec st1) as (Hn1 & Hk1 & _).
    destruct (now st1) as [queued st2]. cbn [fst snd] in Hn1, Hk1.
    cbn [queue_command fst snd].
    pose proof Hn0 as (_ & Hp0 & Hq0 & _).
    pose proof Hr as (_ & Hp1 & Hq1 & _ & _ & Ht1).
    pose proof Hn1 as (_ & Hp2 & Hq2 & _).
    split; [|cbn; congruence].
    exists stamp, results, queued. repeat split.
    - eapply Forall2_impl; [exact Hp|]. intros a b Hab.
      eapply set_answers_later; [exact Hn0 | | exact Hab]. cbn. lia.
    - symmetry. exact Hdoc.
    - by eexists.
    - cbn. congruence. }
  destruct Hmain as [Hresp Hstore].
  split; [exact Hresp|]. split; [exact Hstore|].
  intros request.
  destruct (json_get_parameter_values_spec request
              (_process_set_parameter_values_xml root request_id st).2) as [_ Hget].
  eapply Forall2_impl; [exact Hget|].
  intros a b [Hn Hb]. split; [exact Hn|].
  rewrite Hstore in Hb. revert Hb.
  destruct (parameter_store st !! name b); intros Hb.
  - destruct Hb as (? & _ & ? & _). auto.
  - destruct Hb as (? & ? & _). auto.
Qed.

End XmlHandlers.

(** ** The handlers on the sample requests *)

(** C1 as the specification states it fails: after a SetParameterValues
    for the new parameter [NEW_PARAM] was processed with SUCCESS, the
    parameter store has no such entry and GetParameterValues reports the
    parameter INVALID, with no value. *)
Lemma set_parameter_values_not_visible :
  let out := MoServiceXml._process_set_parameter_values_xml
               MoServiceXml.sample_set_request (Some "CMD_20241227_001")
               (MoServiceXml.initial_state MoServiceXml.sample_clock) in
  map fst (MoServiceXml.get_param_sets MoServiceXml.sample_set_request)
    = [Some "NEW_PARAM"] /\
  is_Some out.1 /\
  MoServiceXml.parameter_store out.2 !! "NEW_PARAM" = None /\
  map (fun p => (MoServiceXml.name p, MoServiceXml.value p, MoServiceXml.validity p))
      (MoServiceXml.parameters
         (MoServiceXml.json_get_parameter_values
            {| MoServiceXml.parameterIds := ["NEW_PARAM"];
               MoServiceXml.requestId := "REQ_20241227_002" |} out.2).1)
    = [("NEW_PARAM", PNone, "INVALID")].
Proof.
  cbv zeta. split; [vm_compute; reflexivity|].
  split; [vm_compute; by eexists|].
  split; vm_compute; reflexivity.
Qed.

(** The response to the sample request in the state after import: FLAG
    and MISSING are not stored and are reported NOT_FOUND; the string
    value of MODE_SELECTION is reported as 0.0. *)
Example xml_get_sample_response :
  match (@MoServiceXml._process_get_parameter_values_xml MoServiceXml.sample_library
           MoServiceXml.sample_get_request (Some "REQ_20241227_001")
           (MoServiceXml.initial_state MoServiceXml.sample_clock)).1 with
  | Some (ET.Document response) =>
      map ET.text (ET.findall "parameterId" response)
        = [Some "FLAG"; Some "MODE_SELECTION"; Some "MISSING"] /\
      map ET.text (ET.findall "floatValue" response) = [Some "0.0"] /\
      map ET.text (ET.findall "stringValue" response)
        = [Some "NOT_FOUND"; Some "NOT_FOUND"]
  | None => False
  end.
Proof. vm_compute. auto. Qed.


(* ===================================================================== *)
(** * The tree codec: names, tags and the dictionary loop *)
(* ===================================================================== *)

Section Names.
Import ET XmlValidator.

Lemma name_start_is_name_char (c : ascii) :
  name_start_char c = true -> name_char c = true.
Proof.
  unfold name_start_char, name_char.
  destruct (is_letter (nat_of_ascii c)); [reflexivity|]. cbn.
  intros ->. rewrite !orb_true_r. reflexivity.
Qed.

Lemma xml_name_chars (k : string) :
  xml_name_ok k = true -> all_chars name_char k = true.
Proof.
  destruct k as [|c rest]; [discriminate|]. cbn.
  intros Hk. apply andb_true_iff in Hk as [Hc Hrest].
  rewrite (name_start_is_name_char _ Hc), Hrest. reflexivity.
Qed.

Lemma name_char_not_rbrace (c : ascii) :
  name_char c = true -> Ascii.eqb c "}" = false.
Proof.
  intros Hc. destruct (Ascii.eqb_spec c "}") as [->|]; [discriminate | reflexivity].
Qed.

Lemma xml_name_not_reserved (k : string) :
  xml_name_ok k = true -> reserved k = false.
Proof.
  intros Hk. unfold reserved.
  destruct (String.eqb_spec k "@attributes") as [->|_]; [discriminate|].
  destruct (String.eqb_spec k "#text") as [->|_]; [discriminate | reflexivity].
Qed.

Lemma xml_name_not_prefix_decl (k : string) :
  xml_name_ok k = true -> prefix_decl k = false.
Proof.
  intros Hk. apply xml_name_chars in Hk. unfold prefix_decl.
  destruct (String.prefix "xmlns:" k) eqn:Hp; [|reflexivity]. exfalso.
  do 6 (destruct k as [|? k]; [cbn in Hp; discriminate|];
        cbn [String.prefix] in Hp;
        match type of Hp with
        | (if ?d then _ else _) = true => destruct d as [<-|]; [|discriminate]
        end).
  cbn in Hk. discriminate.
Qed.

Lemma contains_rbrace_none (k : string) :
  all_chars name_char k = true -> contains "}" k = false.
Proof.
  induction k as [|c rest IH]; [reflexivity|]. cbn [all_chars contains].
  intros Hk. apply andb_true_iff in Hk as [Hc Hrest].
  rewrite (IH Hrest), orb_false_r. cbn [String.prefix].
  destruct (ascii_dec "}" c) as [<-|]; [vm_compute in Hc; discriminate | reflexivity].
Qed.

Lemma split_on_rbrace_none (k : string) :
  all_chars name_char k = true -> split_on "}" k = [k].
Proof.
  induction k as [|c rest IH]; [reflexivity|]. cbn [all_chars split_on].
  intros Hk. apply andb_true_iff in Hk as [Hc Hrest].
  rewrite (name_char_not_rbrace _ Hc), (IH Hrest). reflexivity.
Qed.

Lemma split_on_app (sep : ascii) (a b : string) :
  all_chars (fun c => negb (Ascii.eqb c sep)) a = true ->
  split_on sep (a +:+ String sep b) = a :: split_on sep b.
Proof.
  induction a as [|c a IH].
  - intros _. change ("" +:+ String sep b) with (String sep b).
    cbn [split_on]. rewrite Ascii.eqb_refl. reflexivity.
  - change (String c a +:+ String sep b) with (String c (a +:+ String sep b)).
    cbn [all_chars split_on]. intros Ha. apply andb_true_iff in Ha as [Hc Ha].
    apply negb_true_iff in Hc. rewrite Hc, (IH Ha). reflexivity.
Qed.

Lemma contains_app_sep (sep : ascii) (a b : string) :
  contains (String sep "") (a +:+ String sep b) = true.
Proof.
  induction a as [|c a IH].
  - change ("" +:+ String sep b) with (String sep b).
    cbn [contains String.prefix].
    destruct (ascii_dec sep sep); [destruct b; reflexivity | contradiction].
  - change (String c a +:+ String sep b) with (String c (a +:+ String sep b)).
    cbn [contains]. rewrite IH. apply orb_true_r.
Qed.

(** The tag the parser reports in the service namespace, cut back by
    [_element_to_dict]. *)
Lemma local_tag_qualify (k : string) :
  xml_name_ok k = true -> local_tag (qualify mo_namespace k) = k.
Proof.
  intros Hk. apply xml_name_chars in Hk.
  change (qualify mo_namespace k) with (("{" +:+ mo_namespace) +:+ String "}" k).
  unfold local_tag. rewrite contains_app_sep.
  rewrite split_on_app by reflexivity.
  rewrite (split_on_rbrace_none _ Hk). reflexivity.
Qed.

Lemma indentation_data_ok (level : nat) : xml_data_ok (indentation level) = true.
Proof.
  unfold indentation, xml_data_ok. cbn [all_chars].
  induction level as [|n IH]; [reflexivity|]. cbn in IH |- *. exact IH.
Qed.

Lemma indentation_blank (level : nat) : py_strip (indentation level) = "".
Proof.
  unfold indentation, py_strip. cbn [lstrip].
  change (ascii_isspace (ascii_of_nat 10)) with true. cbn iota.
  induction level as [|n IH]; [reflexivity|].
  change (spaces (S n)) with (String " " (String " " (spaces n))).
  cbn [lstrip]. change (ascii_isspace " ") with true. cbn iota. exact IH.
Qed.

End Names.

Section DictLoop.
Import ET XmlValidator.

Lemma keys_distinct_NoDup {A : Type} (l : list (string * A)) :
  keys_distinct l = true -> NoDup (map fst l).
Proof.
  induction l as [|[k v] rest IH]; cbn [keys_distinct map fst]; [constructor|].
  intros H. apply andb_true_iff in H as [Hk Hrest].
  constructor; [|exact (IH Hrest)].
  intros Hin. apply negb_true_iff in Hk.
  assert (Hex : existsb (String.eqb k) (map fst rest) = true).
  { apply existsb_exists. exists k. split; [|apply String.eqb_refl].
    apply list_elem_of_In. exact Hin. }
  congruence.
Qed.

Lemma dict_get_app_fresh (k : string) (r l : list (string * pyval)) :
  k ∉ map fst r -> dict_get k (r ++ l) = dict_get k l.
Proof.
  induction r as [|[k' v] r IH]; [reflexivity|].
  cbn [map fst app dict_get]. intros Hk.
  apply not_elem_of_cons in Hk as [Hne Hk].
  destruct (String.eqb_spec k k'); [contradiction | exact (IH Hk)].
Qed.

Lemma dict_set_app_fresh (k : string) (v : pyval) (r l : list (string * pyval)) :
  k ∉ map fst r -> dict_set k v (r ++ l) = r ++ dict_set k v l.
Proof.
  induction r as [|[k' v'] r IH]; [reflexivity|].
  cbn [map fst app dict_set]. intros Hk.
  apply not_elem_of_cons in Hk as [Hne Hk].
  destruct (String.eqb_spec k k'); [contradiction|].
  rewrite (IH Hk). reflexivity.
Qed.

(** The first child met under a tag is stored as it is. *)
Lemma add_child_fresh (r : list (string * pyval)) (k : string) (d : pyval) :
  k ∉ map fst r -> add_child r k d = r ++ [(k, d)].
Proof.
  intros Hk. unfold add_child.
  assert (Hg : dict_get k r = None).
  { rewrite <- (app_nil_r r), dict_get_app_fresh by exact Hk. reflexivity. }
  assert (Hs : dict_set k d r = r ++ [(k, d)]).
  { rewrite <- (app_nil_r r) at 1. rewrite dict_set_app_fresh by exact Hk. reflexivity. }
  rewrite Hg, Hs. reflexivity.
Qed.

(** The second child met under a tag turns the entry into a list. *)
Lemma add_child_second (r : list (string * pyval)) (k : string)
    (x : list (string * pyval)) (d : pyval) :
  k ∉ map fst r ->
  add_child (r ++ [(k, PDict x)]) k d = r ++ [(k, PList [PDict x; d])].
Proof.
  intros Hk. unfold add_child.
  rewrite dict_get_app_fresh by exact Hk. cbn [dict_get].
  rewrite String.eqb_refl.
  rewrite dict_set_app_fresh by exact Hk. cbn [dict_set].
  rewrite String.eqb_refl. reflexivity.
Qed.

(** Every further child is appended to the list. *)
Lemma add_child_more (r : list (string * pyval)) (k : string)
    (l : list pyval) (d : pyval) :
  k ∉ map fst r ->
  add_child (r ++ [(k, PList l)]) k d = r ++ [(k, PList (l ++ [d]))].
Proof.
  intros Hk. unfold add_child.
  rewrite dict_get_app_fresh by exact Hk. cbn [dict_get].
  rewrite String.eqb_refl.
  rewrite dict_set_app_fresh by exact Hk. cbn [dict_set].
  rewrite String.eqb_refl. reflexivity.
Qed.

Lemma merge_app (p q r : list (string * pyval)) :
  merge (p ++ q) r = merge q (merge p r).
Proof. unfold merge. apply fold_left_app. Qed.

Lemma merge_list_more (r : list (string * pyval)) (k : string) (l more : list pyval) :
  k ∉ map fst r ->
  merge (map (pair k) more) (r ++ [(k, PList l)]) = r ++ [(k, PList (l ++ more))].
Proof.
  intros Hk. revert l. induction more as [|d more IH]; intros l.
  - rewrite app_nil_r. reflexivity.
  - cbn [map]. unfold merge in *. cbn [fold_left fst snd].
    rewrite add_child_more by exact Hk. rewrite IH, <- app_assoc. reflexivity.
Qed.

(** The children of one tag, merged into a dictionary that does not have
    the tag yet, give back the entry they were made from. *)
Lemma merge_entry (r : list (string * pyval)) (k : string) (child : pyval) :
  k ∉ map fst r ->
  match child with
  | PDict _ => True
  | PList items => (2 <= length items)%nat /\ Forall (fun i => is_dict i = true) items
  | _ => False
  end ->
  merge (map (pair k) (items_of child)) r = r ++ [(k, child)].
Proof.
  intros Hk Hshape. destruct child as [| | | | |items|x]; try contradiction.
  - destruct Hshape as [Hlen Hdicts]. cbn [items_of].
    destruct items as [|i1 [|i2 more]]; [cbn in Hlen; lia | cbn in Hlen; lia |].
    apply Forall_cons_1 in Hdicts as [H1 _].
    destruct i1 as [| | | | | |x1]; try discriminate.
    cbn [map]. unfold merge. cbn [fold_left fst snd].
    rewrite (add_child_fresh r) by exact Hk.
    rewrite (add_child_second r) by exact Hk.
    apply (merge_list_more r k [PDict x1; i2] more Hk).
  - cbn [items_of map]. unfold merge. cbn [fold_left fst snd].
    apply add_child_fresh, Hk.
Qed.

End DictLoop.

(* ===================================================================== *)
(** * The tree codec on canonical trees *)
(* ===================================================================== *)

Section Canonical.
Import ET XmlValidator.

Lemma canonical_dict (entries : list (string * pyval)) :
  canonical (PDict entries) =
  match entries with
  | (k, PDict a) :: rest =>
      if String.eqb k "@attributes" then canonical_attrs a && body_ok rest
      else body_ok entries
  | _ => body_ok entries
  end.
Proof. destruct entries as [|[k [| | | | | |a]] rest]; reflexivity. Qed.

Lemma body_ok_cases (body : list (string * pyval)) :
  body_ok body = true ->
  (exists s, body = [("#text", PStr s)] /\ canonical_text s = true) \/
  (forallb child_ok body = true /\ keys_distinct body = true).
Proof.
  unfold body_ok.
  destruct body as [|[k v] rest]; [right; auto|].
  destruct v, rest; intros Hb; try (right; apply andb_true_iff; exact Hb).
  left. apply andb_true_iff in Hb as [Hk Hs].
  apply String.eqb_eq in Hk. subst k. eauto.
Qed.

Lemma child_ok_name (k : string) (child : pyval) :
  child_ok (k, child) = true -> xml_name_ok k = true.
Proof. cbn. intros H. apply andb_true_iff in H. tauto. Qed.

Lemma children_keys_plain (body : list (string * pyval)) (k : string) :
  forallb child_ok body = true -> xml_name_ok k = false -> k ∉ map fst body.
Proof.
  intros Hb Hk Hin. apply list_elem_of_fmap in Hin as ([k' child] & -> & Hin).
  rewrite forallb_forall in Hb. apply list_elem_of_In in Hin.
  specialize (Hb _ Hin). apply child_ok_name in Hb. cbn in Hk. congruence.
Qed.

Lemma dict_get_fresh (k : string) (d : list (string * pyval)) :
  k ∉ map fst d -> dict_get k d = None.
Proof.
  intros Hk. rewrite <- (app_nil_r d).
  rewrite dict_get_app_fresh by exact Hk. reflexivity.
Qed.

(** ** Attributes *)

Lemma attrib_set_fresh (k v : string) (a : list (string * string)) :
  k ∉ map fst a -> attrib_set k v a = a ++ [(k, v)].
Proof.
  induction a as [|[k' v'] a IH]; [reflexivity|].
  cbn [map fst attrib_set app]. intros Hk.
  apply not_elem_of_cons in Hk as [Hne Hk].
  destruct (String.eqb_spec k k'); [contradiction|].
  rewrite (IH Hk). reflexivity.
Qed.

Lemma attrib_get_fresh (k : string) (a : list (string * string)) :
  k ∉ map fst a -> attrib_get k a = None.
Proof.
  induction a as [|[k' v'] a IH]; [reflexivity|].
  cbn [map fst attrib_get]. intros Hk.
  apply not_elem_of_cons in Hk as [Hne Hk].
  destruct (String.eqb_spec k k'); [contradiction | exact (IH Hk)].
Qed.

(** The attribute dictionary [dict_to_element] builds from distinct keys
    lists them in order. *)
Lemma set_attributes (a : list (string * pyval)) (acc : list (string * string)) :
  NoDup (map fst a) ->
  (forall k, k ∈ map fst a -> k ∉ map fst acc) ->
  fold_left (fun acc kv => attrib_set (fst kv) (py_str (snd kv)) acc) a acc
  = acc ++ map (fun kv => (fst kv, py_str (snd kv))) a.
Proof.
  revert acc. induction a as [|[k v] a IH]; intros acc Hnd Hfresh.
  - cbn. rewrite app_nil_r. reflexivity.
  - cbn [fold_left map fst snd] in *.
    apply NoDup_cons in Hnd as [Hk Hnd].
    rewrite attrib_set_fresh by (apply Hfresh; left).
    rewrite IH; [rewrite <- app_assoc; reflexivity | exact Hnd |].
    intros k' Hk'. rewrite map_app. apply not_elem_of_app. split.
    + apply Hfresh. right. exact Hk'.
    + cbn. intros Hin. apply list_elem_of_singleton in Hin. subst k'. contradiction.
Qed.

Lemma canonical_attr_strings (a : list (string * pyval)) :
  forallb canonical_attr a = true ->
  forallb attr_ok (attr_strings a) = true /\
  ("xmlns" ∉ map fst (attr_strings a)) /\
  ("xmlns:common" ∉ map fst (attr_strings a)) /\
  List.filter (fun kv => negb (is_decl (fst kv))) (attr_strings a) = attr_strings a /\
  map (fun kv => (fst kv, PStr (snd kv))) (attr_strings a) = a.
Proof.
  induction a as [|[k v] a IH]; cbn [forallb].
  - intros _. cbn. repeat split; apply not_elem_of_nil.
  - intros H. apply andb_true_iff in H as [Hkv Ha].
    destruct (IH Ha) as (H1 & H2 & H3 & H4 & H5).
    unfold canonical_attr in Hkv. cbn [fst snd] in Hkv.
    apply andb_true_iff in Hkv as [Hkv Hv].
    apply andb_true_iff in Hkv as [Hname Hx].
    apply negb_true_iff in Hx.
    destruct v as [| | | |s| |]; try discriminate.
    assert (Hdecl : is_decl k = false).
    { unfold is_decl. rewrite Hx, (xml_name_not_prefix_decl _ Hname). reflexivity. }
    change (attr_strings ((k, PStr s) :: a)) with ((k, s) :: attr_strings a).
    cbn [map fst snd forallb List.filter].
    rewrite Hdecl. cbn [negb].
    repeat split.
    + rewrite H1, andb_true_r. unfold attr_ok. cbn [fst snd].
      rewrite Hv, Hname, !orb_true_r. reflexivity.
    + apply not_elem_of_cons. split; [|exact H2].
      intros <-. rewrite String.eqb_refl in Hx. discriminate.
    + apply not_elem_of_cons. split; [|exact H3].
      intros <-. discriminate.
    + rewrite H4. reflexivity.
    + rewrite H5. reflexivity.
Qed.

(** ** Children *)

Lemma sequence_app {A : Type} (l1 l2 : list (option A)) (xs ys : list A) :
  sequence l1 = Some xs -> sequence l2 = Some ys ->
  sequence (l1 ++ l2) = Some (xs ++ ys).
Proof.
  revert xs. induction l1 as [|[x|] l1 IH]; intros xs H1 H2; cbn in *.
  - injection H1 as <-. exact H2.
  - destruct (sequence l1) as [xs'|]; [|discriminate].
    injection H1 as <-. rewrite (IH xs' eq_refl H2). reflexivity.
  - discriminate.
Qed.

Lemma list_sum_bound (x : nat) (l : list nat) :
  x ∈ l -> (x <= list_sum l)%nat.
Proof.
  induction l as [|y l IH]; intros Hin.
  - apply elem_of_nil in Hin. contradiction.
  - change (list_sum (y :: l)) with (y + list_sum l)%nat.
    apply elem_of_cons in Hin as [->|Hin]; [apply Nat.le_add_r|].
    specialize (IH Hin). etrans; [exact IH | apply Nat.le_add_l].
Qed.

Section Step.
Variable n : nat.
Hypothesis IH :
  forall t, (pysize t <= n)%nat -> canonical t = true ->
  forall tag level, xml_name_ok tag = true -> reads_back tag level t.

(** The items of a list, written under one tag and read back. *)
Lemma items_read_back (tag : string) (level : nat) (items : list pyval) :
  xml_name_ok tag = true ->
  Forall (fun i => canonical i = true /\ (pysize i <= n)%nat) items ->
  exists es es',
    make_items tag items = Some es /\
    sequence (map (read mo_namespace) (map (indent_at level) es)) = Some es' /\
    map seen es' = map (pair tag) items.
Proof.
  intros Htag. induction 1 as [|i items [Hc Hs] _ (es & es' & H1 & H2 & H3)].
  - exists [], []. auto.
  - destruct (IH i Hs Hc tag level Htag) as (e & e' & He & Hr & Ht & Hd & _).
    exists (e :: es), (e' :: es'). unfold make_items in *.
    cbn [map sequence]. rewrite He, H1, Hr, H2.
    repeat split. unfold seen at 1. rewrite Ht, Hd, H3.
    rewrite (local_tag_qualify _ Htag). reflexivity.
Qed.

(** One entry of a canonical dictionary, written and read back. *)
Lemma entry_read_back (level : nat) (k : string) (child : pyval) :
  child_ok (k, child) = true ->
  (pysize child <= n)%nat ->
  exists es es',
    make_children k child = Some es /\
    sequence (map (read mo_namespace) (map (indent_at level) es)) = Some es' /\
    map seen es' = map (pair k) (items_of child).
Proof.
  cbn [child_ok]. intros Hok Hsize.
  apply andb_true_iff in Hok as [Hk Hchild].
  destruct child as [| | | | |items|d]; try discriminate.
  - apply andb_true_iff in Hchild as [_ Hitems].
    cbn [make_children items_of].
    apply items_read_back; [exact Hk|].
    rewrite forallb_forall in Hitems. apply Forall_forall. intros i Hi.
    pose proof (Hitems i (proj1 (list_elem_of_In _ _) Hi)) as Hci.
    apply andb_true_iff in Hci as [_ Hci]. split; [exact Hci|].
    cbn [pysize] in Hsize.
    assert (pysize i <= list_sum (map pysize items))%nat; [|lia].
    apply list_sum_bound, list_elem_of_fmap. eauto.
  - destruct (IH (PDict d) Hsize Hchild k level Hk) as (e & e' & He & Hr & Ht & Hd & _).
    exists [e], [e']. cbn [make_children items_of map sequence].
    rewrite He, Hr. repeat split. unfold seen. rewrite Ht, Hd.
    rewrite (local_tag_qualify _ Hk). reflexivity.
Qed.

(** All the entries of a canonical dictionary, written and read back. *)
Lemma body_read_back (level : nat) (body : list (string * pyval)) :
  forallb child_ok body = true ->
  Forall (fun kv => (pysize (snd kv) <= n)%nat) body ->
  exists cs cs',
    make_all body = Some cs /\
    sequence (map (read mo_namespace) (map (indent_at level) cs)) = Some cs' /\
    map seen cs' = flat_map (fun kv => map (pair (fst kv)) (items_of (snd kv))) body.
Proof.
  intros Hok Hsize. induction Hsize as [|[k child] body Hs _ IHb].
  - exists [], []. auto.
  - cbn [forallb] in Hok. apply andb_true_iff in Hok as [Hkv Hok].
    destruct (IHb Hok) as (cs & cs' & H1 & H2 & H3).
    destruct (entry_read_back level k child Hkv Hs) as (es & es' & G1 & G2 & G3).
    exists (es ++ cs), (es' ++ cs'). cbn [make_all flat_map fst snd].
    rewrite (xml_name_not_reserved _ (child_ok_name _ _ Hkv)), G1, H1.
    repeat split.
    + rewrite !map_app. apply sequence_app; assumption.
    + rewrite map_app, G3, H3. reflexivity.
Qed.

End Step.


(** The whole loop over the children gives the entries back. *)
Lemma merge_body (body r : list (string * pyval)) :
  forallb child_ok body = true ->
  NoDup (map fst body) ->
  (forall k, k ∈ map fst body -> k ∉ map fst r) ->
  merge (flat_map (fun kv => map (pair (fst kv)) (items_of (snd kv))) body) r
  = r ++ body.
Proof.
  revert r. induction body as [|[k child] body IHb]; intros r Hok Hnd Hfresh.
  - cbn. rewrite app_nil_r. reflexivity.
  - cbn [forallb] in Hok. apply andb_true_iff in Hok as [Hkv Hok].
    cbn [map fst] in Hnd, Hfresh. apply NoDup_cons in Hnd as [Hk Hnd].
    cbn [flat_map fst snd]. rewrite merge_app.
    rewrite merge_entry.
    + rewrite IHb; [rewrite <- app_assoc; reflexivity | exact Hok | exact Hnd |].
      intros k' Hk'. rewrite map_app. apply not_elem_of_app. split.
      * apply Hfresh. right. exact Hk'.
      * cbn. intros Hin. apply list_elem_of_singleton in Hin. subst k'. contradiction.
    + apply Hfresh. left.
    + cbn [child_ok] in Hkv. apply andb_true_iff in Hkv as [_ Hchild].
      destruct child as [| | | | |items|d]; try discriminate; [|exact I].
      apply andb_true_iff in Hchild as [Hlen Hitems].
      split; [apply Nat.leb_le, Hlen|].
      rewrite forallb_forall in Hitems. apply Forall_forall. intros i Hi.
      pose proof (Hitems i (proj1 (list_elem_of_In _ _) Hi)) as Hci.
      apply andb_true_iff in Hci. tauto.
Qed.

(** ** Elements *)

(** Reading an element whose names and data are in the fragment and which
    declares no namespace. *)
Lemma read_plain (ns t : string) (a : list (string * string)) (x : option string)
    (cs cs' : list Element) :
  xml_name_ok t = true ->
  forallb attr_ok a = true ->
  ("xmlns" ∉ map fst a) ->
  List.filter (fun kv => negb (is_decl (fst kv))) a = a ->
  match x with Some s => xml_data_ok s | None => true end = true ->
  sequence (map (read ns) cs) = Some cs' ->
  read ns (Elem t a x cs)
  = Some (Elem (qualify ns t) a
               (match x with Some EmptyString => None | _ => x end) cs').
Proof.
  intros Ht Ha Hx Hf Hd Hcs. cbn [read].
  rewrite (attrib_get_fresh _ _ Hx), Ht, Ha, Hd, Hcs, Hf. reflexivity.
Qed.

Lemma element_to_dict_children (t : string) (a : list (string * string))
    (x : option string) (c : Element) (cs : list Element) :
  _element_to_dict (Elem t a x (c :: cs))
  = PDict (merge (map seen (c :: cs)) (attrs_entry a)).
Proof.
  cbn [_element_to_dict]. fold (attrs_entry a). f_equal.
  unfold merge. generalize (attrs_entry a). generalize (c :: cs).
  induction l as [|d l IHl]; intros r; [reflexivity|].
  cbn [map fold_left]. rewrite <- IHl. reflexivity.
Qed.

Lemma element_to_dict_leaf (t : string) (a : list (string * string)) (s : string) :
  canonical_text s = true ->
  _element_to_dict (Elem t a (Some s) [])
  = PDict (attrs_entry a ++ [("#text", PStr s)]).
Proof.
  unfold canonical_text. intros H.
  apply andb_true_iff in H as [H Hstrip]. apply andb_true_iff in H as [_ Hne].
  apply String.eqb_eq in Hstrip.
  cbn [_element_to_dict]. fold (attrs_entry a). rewrite Hstrip, Hne. cbn [andb].
  destruct a; reflexivity.
Qed.

Lemma element_to_dict_empty (t : string) (a : list (string * string)) :
  _element_to_dict (Elem t a None []) = PDict (attrs_entry a).
Proof. reflexivity. Qed.

Lemma attrs_entry_keys (a : list (string * string)) (k : string) :
  xml_name_ok k = true -> k ∉ map fst (attrs_entry a).
Proof.
  intros Hk. destruct a; cbn; [apply not_elem_of_nil|].
  intros Hin. apply list_elem_of_singleton in Hin. subst k. discriminate.
Qed.

Section Assemble.
Variable n : nat.
Hypothesis IH :
  forall t, (pysize t <= n)%nat -> canonical t = true ->
  forall tag level, xml_name_ok tag = true -> reads_back tag level t.

(** The element made for the entries [body] under the attributes [a],
    read back. *)
Lemma body_element (tag : string) (level : nat) (a : list (string * string))
    (body : list (string * pyval)) :
  xml_name_ok tag = true ->
  forallb attr_ok a = true ->
  ("xmlns" ∉ map fst a) ->
  List.filter (fun kv => negb (is_decl (fst kv))) a = a ->
  body_ok body = true ->
  Forall (fun kv => (pysize (snd kv) <= n)%nat) body ->
  exists cs e',
    make_all body = Some cs /\
    read mo_namespace (indent_at level (Elem tag a (make_text body) cs)) = Some e' /\
    ET.tag e' = qualify mo_namespace tag /\
    _element_to_dict e' = PDict (attrs_entry a ++ body).
Proof.
  intros Htag Ha Hx Hf Hbody Hsize.
  destruct (body_ok_cases body Hbody) as [(s & -> & Hs)|[Hkids Hkeys]].
  - (* a leaf with text *)
    exists [], (Elem (qualify mo_namespace tag) a (Some s) []).
    split; [reflexivity|].
    assert (Hs' := Hs). unfold canonical_text in Hs'.
    apply andb_true_iff in Hs' as [Hs' _]. apply andb_true_iff in Hs' as [Hdata Hne].
    split.
    + change (make_text [("#text", PStr s)]) with (Some s).
      cbn [indent_at].
      rewrite (read_plain mo_namespace tag a (Some s) [] []); try assumption;
        try reflexivity.
      destruct s; [discriminate | reflexivity].
    + split; [reflexivity | apply element_to_dict_leaf, Hs].
  - assert (Htext : make_text body = None).
    { unfold make_text. rewrite dict_get_fresh; [reflexivity|].
      apply children_keys_plain; [exact Hkids | reflexivity]. }
    rewrite Htext.
    destruct (body_read_back n IH (S level) body Hkids Hsize)
      as (cs & cs' & Hmake & Hread & Hseen).
    exists cs. rewrite Hmake.
    assert (Hmerge : merge (map seen cs') (attrs_entry a) = attrs_entry a ++ body).
    { rewrite Hseen. apply merge_body; [exact Hkids | |].
      - apply keys_distinct_NoDup, Hkeys.
      - intros k Hk. apply attrs_entry_keys.
        destruct (xml_name_ok k) eqn:Hok; [reflexivity|].
        exfalso. exact (children_keys_plain body k Hkids Hok Hk). }
    destruct cs as [|c cs].
    + (* no children *)
      cbn in Hread. injection Hread as <-.
      exists (Elem (qualify mo_namespace tag) a None []).
      split; [reflexivity|]. split.
      * cbn [indent_at]. apply read_plain; try assumption; reflexivity.
      * split; [reflexivity|]. rewrite element_to_dict_empty.
        cbn in Hmerge. rewrite <- Hmerge. reflexivity.
    + (* children: the text becomes the indentation *)
      destruct cs' as [|c' cs'].
      { cbn in Hread. destruct (read _ _); [|discriminate].
        destruct (sequence _); discriminate. }
      exists (Elem (qualify mo_namespace tag) a (Some (indentation (S level)))
                   (c' :: cs')).
      split; [reflexivity|]. split.
      * cbn [indent_at blank].
        rewrite (read_plain mo_namespace tag a (Some (indentation (S level)))
                   (map (indent_at (S level)) (c :: cs)) (c' :: cs'));
          try assumption; [reflexivity | apply indentation_data_ok].
      * split; [reflexivity|].
        rewrite element_to_dict_children, Hmerge. reflexivity.
Qed.

End Assemble.

(** ** The whole tree *)

Lemma pysize_pos (t : pyval) : (1 <= pysize t)%nat.
Proof. destruct t; cbn; lia. Qed.

Lemma body_no_attributes (body : list (string * pyval)) :
  body_ok body = true -> dict_get "@attributes" body = None.
Proof.
  intros Hb. destruct (body_ok_cases body Hb) as [(s & -> & _)|[Hkids _]].
  - reflexivity.
  - apply dict_get_fresh, children_keys_plain; [exact Hkids | reflexivity].
Qed.

Lemma entries_sizes (entries : list (string * pyval)) (n : nat) :
  (pysize (PDict entries) <= S n)%nat ->
  Forall (fun kv => (pysize (snd kv) <= n)%nat) entries.
Proof.
  cbn [pysize]. intros Hs. apply Forall_forall. intros kv Hin.
  assert (pysize (snd kv) <= list_sum (map (fun kv => pysize (snd kv)) entries))%nat;
    [|lia].
  apply list_sum_bound.
  apply (list_elem_of_fmap_2 (fun kv : string * pyval => pysize (snd kv))). exact Hin.
Qed.

(** Every canonical tree, written under a plain tag at any depth, reads
    back as itself. *)
Lemma canonical_reads_back (n : nat) :
  forall t, (pysize t <= n)%nat -> canonical t = true ->
  forall tag level, xml_name_ok tag = true -> reads_back tag level t.
Proof.
  induction n as [|n IH]; intros t Hsize Hc tag level Htag.
  - pose proof (pysize_pos t). lia.
  - destruct t as [| | | | | |entries]; try discriminate.
    rewrite canonical_dict in Hc.
    pose proof (entries_sizes entries n Hsize) as Hsizes.
    unfold reads_back. rewrite dict_to_element_dict.
    assert (Hplain : body_ok entries = true ->
              exists e e',
                match make_attrs entries, make_all entries with
                | Some a, Some cs => Some (Elem tag a (make_text entries) cs)
                | _, _ => None
                end = Some e /\
                read mo_namespace (indent_at level e) = Some e' /\
                ET.tag e' = qualify mo_namespace tag /\
                _element_to_dict e' = PDict entries /\
                ("xmlns" ∉ map fst (attrib e)) /\
                ("xmlns:common" ∉ map fst (attrib e))).
    { intros Hb.
      destruct (body_element n IH tag level [] entries Htag eq_refl
                  (not_elem_of_nil _) eq_refl Hb Hsizes)
        as (cs & e' & Hmake & Hread & Ht & Hd).
      unfold make_attrs. rewrite (body_no_attributes _ Hb), Hmake.
      eexists _, e'. split; [reflexivity|].
      repeat split; try assumption; apply not_elem_of_nil. }
    destruct entries as [|[k v] rest]; [exact (Hplain Hc)|].
    destruct v as [| | | | | |a]; try exact (Hplain Hc).
    destruct (String.eqb_spec k "@attributes") as [->|_]; [|exact (Hplain Hc)].
    clear Hplain. apply andb_true_iff in Hc as [Ha Hb].
    unfold canonical_attrs in Ha.
    destruct a as [|a0 a]; [discriminate|].
    apply andb_true_iff in Ha as [Hattrs Hkeys].
    destruct (canonical_attr_strings _ Hattrs) as (A1 & A2 & A3 & A4 & A5).
    apply Forall_cons_1 in Hsizes as [_ Hsizes].
    destruct (body_element n IH tag level (attr_strings (a0 :: a)) rest Htag A1 A2 A4
                Hb Hsizes) as (cs & e' & Hmake & Hread & Ht & Hd).
    assert (Hmk : make_attrs (("@attributes", PDict (a0 :: a)) :: rest)
                  = Some (attr_strings (a0 :: a))).
    { unfold make_attrs. cbn [dict_get]. rewrite String.eqb_refl.
      rewrite set_attributes; [reflexivity | apply keys_distinct_NoDup, Hkeys |].
      intros ? _. apply not_elem_of_nil. }
    rewrite Hmk.
    change (make_all (("@attributes", PDict (a0 :: a)) :: rest)) with (make_all rest).
    change (make_text (("@attributes", PDict (a0 :: a)) :: rest)) with (make_text rest).
    rewrite Hmake.
    eexists _, e'. split; [reflexivity|].
    repeat split; try assumption.
    rewrite Hd. unfold attrs_entry.
    change (attr_strings (a0 :: a))
      with ((fst a0, py_str (snd a0)) :: attr_strings a) at 1.
    cbv iota. rewrite A5. reflexivity.
Qed.

Lemma indent_at_set (level : nat) (k v : string) (e : Element) :
  indent_at level (set k v e) = set k v (indent_at level e).
Proof. destruct e as [t a x [|c cs]]; reflexivity. Qed.

Lemma indent_at_attrib (level : nat) (e : Element) :
  attrib (indent_at level e) = attrib e.
Proof. destruct e as [t a x [|c cs]]; reflexivity. Qed.

Lemma attrib_get_app_fresh (k : string) (a b : list (string * string)) :
  k ∉ map fst a -> attrib_get k (a ++ b) = attrib_get k b.
Proof.
  induction a as [|[k' v'] a IHa]; [reflexivity|].
  cbn [map fst app attrib_get]. intros Hk.
  apply not_elem_of_cons in Hk as [Hne Hk].
  destruct (String.eqb_spec k k'); [contradiction | exact (IHa Hk)].
Qed.

(** The two namespace declarations [dict_to_xml] adds to the root put
    the document in the service namespace and are not read as
    attributes. *)
Lemma read_root (e : Element) :
  "xmlns" ∉ map fst (attrib e) ->
  "xmlns:common" ∉ map fst (attrib e) ->
  read "" (set "xmlns:common" common_namespace (set "xmlns" mo_namespace e))
  = read mo_namespace e.
Proof.
  destruct e as [t a x cs]. cbn [attrib set]. intros H1 H2.
  rewrite (attrib_set_fresh "xmlns" _ a H1).
  rewrite attrib_set_fresh.
  2:{ rewrite map_app. apply not_elem_of_app. split; [exact H2|].
      cbn. intros Hin. apply list_elem_of_singleton in Hin. discriminate. }
  rewrite <- app_assoc. cbn [app read].
  rewrite (attrib_get_app_fresh "xmlns" a _ H1), (attrib_get_fresh "xmlns" a H1).
  cbn [attrib_get]. rewrite String.eqb_refl.
  rewrite forallb_app, List.filter_app.
  change (forallb attr_ok [("xmlns", mo_namespace); ("xmlns:common", common_namespace)])
    with true.
  change (List.filter (fun kv : string * string => negb (is_decl (fst kv)))
            [("xmlns", mo_namespace); ("xmlns:common", common_namespace)])
    with (@nil (string * string)).
  rewrite andb_true_r, app_nil_r. reflexivity.
Qed.

(** ** Dictionaries with their items in another order *)

Lemma attributes_first_dict (entries : list (string * pyval)) :
  attributes_first (PDict entries) = PDict (attributes_front (items_below entries)).
Proof.
  cbn [attributes_first]. unfold attributes_front.
  match goal with
  | |- match dict_get _ ?l with _ => _ end = _ =>
      assert (Hl : l = items_below entries)
  end.
  { unfold items_below. induction entries as [|[k v] rest IH]; [reflexivity|].
    cbn [map fst snd]. rewrite <- IH. reflexivity. }
  rewrite Hl. destruct (dict_get "@attributes" (items_below entries)); reflexivity.
Qed.

Lemma attributes_first_list (items : list pyval) :
  attributes_first (PList items) = PList (map attributes_first items).
Proof.
  cbn [attributes_first]. f_equal.
  all: induction items as [|item rest IH]; [reflexivity|].
  all: cbn [map]; rewrite <- IH; reflexivity.
Qed.

Lemma dict_get_items_below (k : string) (entries : list (string * pyval)) :
  dict_get k (items_below entries)
  = (if reserved k then id else attributes_first) <$> dict_get k entries.
Proof.
  unfold items_below. induction entries as [|[k' v] rest IH]; [reflexivity|].
  cbn [map fst snd dict_get].
  destruct (String.eqb_spec k k') as [->|Hne]; [|exact IH].
  destruct (reserved k'); reflexivity.
Qed.

Lemma dict_get_filter (k : string) (l : list (string * pyval)) :
  k <> "@attributes" ->
  dict_get k (List.filter (fun kv => negb (String.eqb (fst kv) "@attributes")) l)
  = dict_get k l.
Proof.
  intros Hk. induction l as [|[k' v] rest IH]; [reflexivity|].
  cbn [List.filter fst dict_get].
  destruct (String.eqb_spec k' "@attributes") as [->|Hne]; cbn [negb].
  - destruct (String.eqb_spec k "@attributes"); [contradiction | exact IH].
  - cbn [dict_get]. rewrite IH. reflexivity.
Qed.

Lemma dict_get_attributes_front (k : string) (l : list (string * pyval)) :
  dict_get k (attributes_front l) = dict_get k l.
Proof.
  unfold attributes_front.
  destruct (dict_get "@attributes" l) as [a|] eqn:Ha; [|reflexivity].
  cbn [dict_get].
  destruct (String.eqb_spec k "@attributes") as [->|Hne]; [congruence|].
  apply dict_get_filter, Hne.
Qed.

Lemma make_all_filter (l : list (string * pyval)) :
  make_all (List.filter (fun kv => negb (String.eqb (fst kv) "@attributes")) l)
  = make_all l.
Proof.
  induction l as [|[k v] rest IH]; [reflexivity|].
  cbn [List.filter fst].
  destruct (String.eqb_spec k "@attributes") as [->|Hne]; cbn [negb].
  - cbn [make_all]. change (reserved "@attributes") with true. cbv iota. exact IH.
  - cbn [make_all]. rewrite IH. reflexivity.
Qed.

Lemma make_all_attributes_front (l : list (string * pyval)) :
  make_all (attributes_front l) = make_all l.
Proof.
  unfold attributes_front.
  destruct (dict_get "@attributes" l); [|reflexivity].
  cbn [make_all]. change (reserved "@attributes") with true. cbv iota.
  apply make_all_filter.
Qed.

(** [dict_to_element] finds the attributes and the text by their keys and
    the children in the order of the other items: it makes the same
    element of a tree and of the tree with its attributes first. *)
Lemma attributes_first_element (n : nat) :
  forall t, (pysize t <= n)%nat ->
  forall tag, dict_to_element tag (attributes_first t) = dict_to_element tag t.
Proof.
  induction n as [|n IH]; intros t Hsize tag.
  - pose proof (pysize_pos t). lia.
  - destruct t as [| | | | |items|entries]; try reflexivity.
    + rewrite attributes_first_list, !dict_to_element_list.
      assert (Hitems : make_items "item" (map attributes_first items)
                       = make_items "item" items); [|rewrite Hitems; reflexivity].
      unfold make_items. f_equal. rewrite map_map. apply map_ext_in.
      intros item Hin. apply IH.
      cbn [pysize] in Hsize.
      assert (pysize item <= list_sum (map pysize items))%nat; [|lia].
      apply list_sum_bound, (list_elem_of_fmap_2 pysize), list_elem_of_In, Hin.
    + rewrite attributes_first_dict, !dict_to_element_dict.
      pose proof (entries_sizes entries n Hsize) as Hsizes.
      assert (Ha : make_attrs (attributes_front (items_below entries))
                   = make_attrs entries).
      { unfold make_attrs. rewrite dict_get_attributes_front, dict_get_items_below.
        change (reserved "@attributes") with true. cbv iota.
        destruct (dict_get "@attributes" entries); reflexivity. }
      assert (Hx : make_text (attributes_front (items_below entries))
                   = make_text entries).
      { unfold make_text. rewrite dict_get_attributes_front, dict_get_items_below.
        change (reserved "#text") with true. cbv iota.
        destruct (dict_get "#text" entries); reflexivity. }
      assert (Hk : make_all (attributes_front (items_below entries))
                   = make_all entries).
      { rewrite make_all_attributes_front. unfold items_below.
        clear Ha Hx Hsize. induction entries as [|[k v] rest IHr]; [reflexivity|].
        apply Forall_cons in Hsizes as [Hv Hrest].
        cbn [map fst snd make_all]. rewrite (IHr Hrest).
        destruct (reserved k); [reflexivity|].
        assert (Hc : make_children k (attributes_first v) = make_children k v);
          [|rewrite Hc; reflexivity].
        cbn [snd] in Hv.
        destruct v as [| | | | |items|sub]; try reflexivity.
        - rewrite attributes_first_list. cbn [make_children].
          unfold make_items. f_equal. rewrite map_map. apply map_ext_in.
          intros item Hin. apply IH.
          cbn [pysize] in Hv.
          assert (pysize item <= list_sum (map pysize items))%nat; [|lia].
          apply list_sum_bound, (list_elem_of_fmap_2 pysize), list_elem_of_In, Hin.
        - assert (Hd : exists l, attributes_first (PDict sub) = PDict l)
            by (rewrite attributes_first_dict; eauto).
          destruct Hd as [l Hl].
          pose proof (IH (PDict sub) ltac:(lia) k) as He. rewrite Hl in He.
          rewrite Hl. cbn [make_children]. rewrite He. reflexivity. }
      rewrite Ha, Hx, Hk. reflexivity.
Qed.

Lemma round_trip_attributes_first (t : pyval) (root_tag : string) :
  round_trip (attributes_first t) root_tag = round_trip t root_tag.
Proof.
  unfold round_trip, dict_to_xml.
  rewrite (attributes_first_element (pysize t) t (Nat.le_refl _)). reflexivity.
Qed.

(** The tree with its attributes first is the same tree to [==]. *)
Lemma attributes_first_eq (n : nat) :
  forall t, (pysize t <= n)%nat -> py_eq (attributes_first t) t.
Proof.
  induction n as [|n IH]; intros t Hsize.
  - pose proof (pysize_pos t). lia.
  - destruct t as [| | | | |items|entries]; try apply py_eq_same.
    + rewrite attributes_first_list. apply py_eq_list.
      cbn [pysize] in Hsize.
      assert (Hall : Forall (fun item => (pysize item <= n)%nat) items).
      { apply Forall_forall. intros item Hin.
        assert (pysize item <= list_sum (map pysize items))%nat; [|lia].
        apply list_sum_bound, (list_elem_of_fmap_2 pysize), Hin. }
      clear Hsize. induction Hall as [|item rest Hitem _ IHr]; constructor.
      * apply IH, Hitem.
      * exact IHr.
    + rewrite attributes_first_dict. apply py_eq_dict. intros k.
      rewrite dict_get_attributes_front, dict_get_items_below.
      pose proof (entries_sizes entries n Hsize) as Hsizes.
      destruct (dict_get k entries) as [v|] eqn:Hv; [|constructor].
      cbn [fmap option_fmap option_map]. constructor.
      destruct (reserved k); [apply py_eq_same|].
      apply IH.
      clear -Hv Hsizes. induction entries as [|[k' v'] rest IHr]; [discriminate|].
      apply Forall_cons in Hsizes as [Hv' Hrest]. cbn [dict_get] in Hv.
      destruct (String.eqb k k'); [injection Hv as <-; exact Hv' | auto].
Qed.

(** The codec on a tree whose dictionaries have their attributes first. *)
Lemma round_trip_in_order (t : pyval) (root_tag : string) :
  canonical t = true ->
  xml_name_ok root_tag = true ->
  round_trip t root_tag = Some t.
Proof.
  intros Hc Htag.
  destruct (canonical_reads_back (pysize t) t (Nat.le_refl _) Hc root_tag 0%nat Htag)
    as (e & e' & He & Hr & _ & Hd & Hx1 & Hx2).
  unfold round_trip, dict_to_xml. rewrite He.
  unfold xml_to_dict, tostring, fromstring, indent.
  rewrite !indent_at_set.
  rewrite read_root by (rewrite indent_at_attrib; assumption).
  rewrite Hr, Hd. reflexivity.
Qed.

(** ** C9 *)


End Canonical.

(** ** The tree codec on concrete trees *)


(** Text loses the white space at its ends. *)
Example round_trip_strips_text :
  XmlValidator.round_trip (PDict [("requestId", PDict [("#text", PStr " REQ 1 ")])]) "r"
  = Some (PDict [("requestId", PDict [("#text", PStr "REQ 1")])]).
Proof. vm_compute. reflexivity. Qed.

(** A list of one item comes back as the item, an empty list not at all. *)
Example round_trip_short_lists :
  XmlValidator.round_trip
    (PDict [("parameter", PList [PDict [("#text", PStr "a")]]); ("operation", PList [])])
    "r"
  = Some (PDict [("parameter", PDict [("#text", PStr "a")])]).
Proof. vm_compute. reflexivity. Qed.

(** A bare string, as the handlers' own response dictionaries hold them,
    comes back as a dictionary with a ['#text']. *)
Example round_trip_scalar :
  XmlValidator.round_trip (PDict [("status", PStr "SUCCESS")]) "result"
  = Some (PDict [("status", PDict [("#text", PStr "SUCCESS")])]).
Proof. vm_compute. reflexivity. Qed.


(* ===================================================================== *)
(** * The receiver of [mo_service_xml.py] and other examples *)
(* ===================================================================== *)

(** The receiver of the XML service does not decode: it files each
    datagram under the number of records it already holds. *)
Lemma xml_receive_keyed_by_count (data : list byte) (addr : string)
    (st : MoServiceXml.State) :
  MoServiceXml.telemetry_store (MoServiceXml.receive data addr st).2
  = <[ Z.of_nat (size (MoServiceXml.telemetry_store st)) :=
         {| MoServiceXml.d_source := addr;
            MoServiceXml.d_size := len data;
            MoServiceXml.d_timestamp := MoServiceXml.next_reading st |} ]>
    (MoServiceXml.telemetry_store st).
Proof. reflexivity. Qed.

Example units_gyro : MoService._get_units "gyro_x" = "rad/s".
Proof. vm_compute. reflexivity. Qed.

Example units_charge : MoService._get_units "battery_charge" = "%".
Proof. vm_compute. reflexivity. Qed.

Example units_unknown : MoService._get_units "data_volume" = "".
Proof. vm_compute. reflexivity. Qed.

(** A datagram of three bytes is reported as too short and leaves the
    stores as they are. *)
Example short_datagram_ignored :
  MoService.receive [Byte.x08; Byte.x64; Byte.xc0]
    (MoService.initial_state MoServiceXml.sample_clock)
  = MoService.initial_state MoServiceXml.sample_clock.
Proof. reflexivity. Qed.

(* ##################################################################### *)
(** * Part III: further properties of the code *)
(* ##################################################################### *)

(* ===================================================================== *)
(** * The encoder: counters, sizes, failures *)
(* ===================================================================== *)

Section EncoderMore.
Context `{Json}.
Import Simulator MoService.
#[local] Arguments Simulator._calculate_crc : simpl never.

(** X1. The sequence count wraps: a simulator whose counter is 16384 further
    on builds, from the same telemetry at the same time, the same bytes. *)
Theorem encode_counter_wraps (h : string) (p c a : Z) (data : pyval) (now_unix : Z) :
  fst <$> create_ccsds_packet
            {| host := h; port := p; packet_counter := c + 16384; Simulator.apid := a |}
            data now_unix
  = fst <$> create_ccsds_packet
              {| host := h; port := p; packet_counter := c; Simulator.apid := a |}
              data now_unix.
Proof.
  unfold create_ccsds_packet. cbn [packet_counter Simulator.apid host port]. cbv zeta.
  replace ((c + 16384) mod 16384) with (c mod 16384)
    by (rewrite <- (Z.mul_1_l 16384) at 2; rewrite Z.mod_add by lia; reflexivity).
  repeat match goal with
         | |- context [pack_H ?v] => destruct (pack_H v); [|reflexivity]
         | |- context [pack_I ?v] => destruct (pack_I v); [|reflexivity]
         | |- context [pack_B ?v] => destruct (pack_B v); [|reflexivity]
         end; cbn.
  match goal with
  | |- context [pack_H ?v] => destruct (pack_H v); reflexivity
  end.
Qed.

Lemma lor_flag_range (a : Z) : 0 <= Z.lor 2048 a < 65536 <-> 0 <= a < 65536.
Proof.
  assert (Hlog : 0 <= a -> Z.log2 (Z.lor 2048 a) = Z.max 11 (Z.log2 a)).
  { intros Ha. rewrite Z.log2_lor by lia. reflexivity. }
  assert (Hpos : 0 <= a -> 0 < Z.lor 2048 a).
  { intros Ha. specialize (Hlog Ha).
    assert (0 <= Z.lor 2048 a) by (apply Z.lor_nonneg; lia).
    destruct (Z.eq_dec (Z.lor 2048 a) 0) as [E|]; [|lia].
    rewrite E in Hlog. cbn in Hlog. lia. }
  split.
  - intros [Hlo Hhi].
    assert (Ha : 0 <= a) by (apply Z.lor_nonneg in Hlo; tauto).
    split; [exact Ha|].
    destruct (Z.eq_dec a 0) as [->|Hne]; [lia|].
    change 65536 with (2 ^ 16) in *.
    apply Z.log2_lt_pow2; [lia|].
    apply Z.log2_lt_pow2 in Hhi; [|apply Hpos, Ha].
    rewrite (Hlog Ha) in Hhi. lia.
  - intros [Hlo Hhi]. split; [apply Z.lor_nonneg; lia|].
    change 65536 with (2 ^ 16) in *.
    apply Z.log2_lt_pow2; [apply Hpos, Hlo|].
    rewrite (Hlog Hlo).
    destruct (Z.eq_dec a 0) as [->|Hne]; [reflexivity|].
    apply Z.log2_lt_pow2 in Hhi; lia.
Qed.

(** X2. The encoder returns a packet exactly when the APID fits 16 bits and
    the JSON text has at most 65529 bytes; it does not check that the
    APID fits its 11-bit field. *)
Theorem encode_succeeds_iff self data now_unix :
  is_Some (create_ccsds_packet self data now_unix) <->
  0 <= Simulator.apid self < 65536 /\ len (json_dumps data) <= 65529.
Proof.
  pose proof (len_nonneg (json_dumps data)) as Hlen.
  pose proof (Z.mod_pos_bound (packet_counter self) 16384 ltac:(lia)) as Hc.
  pose proof (Z.mod_pos_bound now_unix 86400 ltac:(lia)) as Ht.
  split.
  - intros [[pkt self'] E]. apply create_ccsds_packet_inv in E.
    destruct E as (w1 & w2 & w3 & sh & body & E1 & _ & E3 & _).
    apply pack_H_Some in E1 as [R1 _], E3 as [R3 _].
    split; [apply lor_flag_range, R1 | lia].
  - intros [Ha Hl]. apply lor_flag_range in Ha.
    unfold create_ccsds_packet. cbv zeta.
    change (Z.lor (Z.lor (Z.lor (0 ≪ 13) (0 ≪ 12)) (1 ≪ 11)) (Simulator.apid self))
      with (Z.lor 2048 (Simulator.apid self)).
    destruct (word2_fields _ Hc) as [R2 _]. change (3 ≪ 14) with 49152.
    rewrite !pack_H_ok by (assumption || lia). cbn.
    destruct (pack_I_ok (now_unix mod 86400) ltac:(lia)) as (b0 & b1 & b2 & b3 & ->).
    cbn.
    match goal with
    | |- context [pack_H (Simulator._calculate_crc ?b)] =>
        rewrite (pack_H_ok _ (_calculate_crc_range b))
    end.
    cbn. by eexists.
Qed.

(** X3. Decoding what the encoder produced also gives version 0, type TM,
    sequence flags 3, and a declared length that is the packet size less
    the 6 header bytes and 7. *)
Theorem decode_encode_header self data now_unix now pkt self' :
  0 <= Simulator.apid self < 2048 ->
  create_ccsds_packet self data now_unix = Some (pkt, self') ->
  exists p,
    parse_packet pkt now = Parsed p /\
    version (header p) = 0 /\
    type_ (header p) = "TM" /\
    sequence_flags (header p) = 3 /\
    raw_size p = 19 + len (json_dumps data) /\
    data_length (header p) = raw_size p - 6 - 7.
Proof.
  intros Ha E. apply create_ccsds_packet_inv in E.
  destruct E as (w1 & w2 & w3 & sh & body & E1 & E2 & E3 & Hsh & -> & -> & _).
  apply pack_H_Some in E1 as [R1 ->], E2 as [R2 ->], E3 as [R3 ->].
  cbn [app]. rewrite parse_packet_header.
  eexists. split; [reflexivity|].
  cbn [header version type_ sequence_flags raw_size data_length].
  rewrite !be16_pack by assumption.
  assert (E1 : Z.lor 2048 (Simulator.apid self) = 2048 + Simulator.apid self).
  { apply (lor_shiftl_add 1 _ 11); simpl; lia. }
  assert (E2 : Z.lor 49152 (packet_counter self mod 16384)
               = 49152 + packet_counter self mod 16384).
  { apply (lor_shiftl_add 3 _ 14); [lia|]. apply Z.mod_pos_bound. lia. }
  pose proof (Z.mod_pos_bound (packet_counter self) 16384 ltac:(lia)).
  rewrite E1, E2, !Z.shiftr_div_pow2 by lia.
  match goal with
  | |- context [len ?l] =>
      assert (Hlen : len l = 19 + len (json_dumps data))
        by (unfold len; cbn [length]; rewrite !length_app, Hsh; cbn [length]; lia);
      rewrite Hlen
  end.
  replace ((2048 + Simulator.apid self) / 2 ^ 13) with 0
    by (symmetry; apply Z.div_small; simpl; lia).
  replace ((2048 + Simulator.apid self) / 2 ^ 12) with 0
    by (symmetry; apply Z.div_small; simpl; lia).
  replace ((49152 + packet_counter self mod 16384) / 2 ^ 14) with 3
    by (apply Z.div_unique with (packet_counter self mod 16384); simpl; lia).
  repeat split; lia.
Qed.

End EncoderMore.

(* ===================================================================== *)
(** * The CRC of a packet with its CRC *)
(* ===================================================================== *)

Section CrcResidue.
Context `{Json}.
Import Simulator.

Lemma shift_low_byte (l : Z) : 0 <= l < 256 -> Nat.iter 8 crc_bit l = l * 256.
Proof.
  intros Hl.
  assert (Hall : forallb (fun n => Nat.iter 8 crc_bit (Z.of_nat n) =? Z.of_nat n * 256)
                         (seq 0 256) = true) by (vm_compute; reflexivity).
  rewrite forallb_forall in Hall.
  specialize (Hall (Z.to_nat l)).
  rewrite Z2Nat.id in Hall by lia.
  apply Z.eqb_eq, Hall, in_seq. lia.
Qed.

Lemma xor_high_byte (r : Z) :
  Z.lxor r (Z.shiftl (Z.shiftr r 8) 8) = r mod 2 ^ 8.
Proof.
  apply Z.bits_inj'. intros n Hn. rewrite Z.lxor_spec.
  destruct (Z.ltb_spec n 8).
  - rewrite Z.shiftl_spec_low, Z.mod_pow2_bits_low by lia. apply xorb_false_r.
  - rewrite Z.shiftl_spec, Z.shiftr_spec, Z.mod_pow2_bits_high by lia.
    replace (n - 8 + 8) with n by lia. apply xorb_nilpotent.
Qed.

(** Feeding a register its own two bytes, high byte first, empties it. *)
Lemma crc_own_bytes (r : Z) :
  0 <= r < 65536 ->
  crc_byte (crc_byte r (byte_of_Z (Z.shiftr r 8))) (byte_of_Z r) = 0.
Proof.
  intros Hr.
  assert (Hhi : byte_val (byte_of_Z (Z.shiftr r 8)) = Z.shiftr r 8).
  { rewrite byte_val_of_Z, Z.shiftr_div_pow2 by lia. apply Z.mod_small.
    change (2 ^ 8) with 256.
    split; [apply Z.div_pos; lia | apply Z.div_lt_upper_bound; lia]. }
  assert (Hlow : 0 <= r mod 2 ^ 8 < 256) by (apply Z.mod_pos_bound; lia).
  unfold crc_byte at 2. rewrite Hhi, xor_high_byte, shift_low_byte by exact Hlow.
  unfold crc_byte. rewrite byte_val_of_Z. change 256 with (2 ^ 8) at 2.
  rewrite Z.shiftl_mul_pow2, Z.lxor_nilpotent by lia. reflexivity.
Qed.

(** X4. The CRC taken over a whole packet of the simulator, trailer included,
    is zero: a receiver can check a packet without cutting it. *)
Theorem packet_crc_residue self data now_unix pkt self' :
  create_ccsds_packet self data now_unix = Some (pkt, self') ->
  _calculate_crc pkt = 0.
Proof.
  intros E. apply create_ccsds_packet_inv in E.
  destruct E as (w1 & w2 & w3 & sh & body & _ & _ & _ & _ & _ & -> & _).
  unfold _calculate_crc. rewrite fold_left_app. cbn [fold_left].
  apply crc_own_bytes, _calculate_crc_range.
Qed.

End CrcResidue.

Lemma packet_crc_residue_witness :
  exists pkt self',
    Simulator.create_ccsds_packet Simulator.sample_simulator (PDict []) 1700000000
      = Some (pkt, self') /\
    Simulator._calculate_crc pkt = 0.
Proof.
  eexists _, _. split; [vm_compute; reflexivity|].
  eapply (packet_crc_residue Simulator.sample_simulator (PDict []) 1700000000).
  vm_compute. reflexivity.
Defined.

Lemma decode_encode_header_witness :
  exists pkt self',
    Simulator.create_ccsds_packet Simulator.sample_simulator (PDict []) 1700000000
      = Some (pkt, self') /\
    exists p,
      MoService.parse_packet pkt "2024-12-27T10:30:45+00:00" = MoService.Parsed p /\
      MoService.version (MoService.header p) = 0 /\
      MoService.type_ (MoService.header p) = "TM" /\
      MoService.sequence_flags (MoService.header p) = 3 /\
      MoService.raw_size p = 19 + len (json_dumps (PDict [])) /\
      MoService.data_length (MoService.header p) = MoService.raw_size p - 6 - 7.
Proof.
  eexists _, _. split; [vm_compute; reflexivity|].
  eapply (decode_encode_header Simulator.sample_simulator (PDict []) 1700000000).
  - simpl. lia.
  - vm_compute. reflexivity.
Defined.

(* ===================================================================== *)
(** * The parser: ranges of the decoded fields *)
(* ===================================================================== *)

Section ParserMore.
Context `{Json}.
Import MoService.

Lemma land_ones_range (x k : Z) : 0 <= k -> 0 <= Z.land x (Z.ones k) < 2 ^ k.
Proof.
  intros Hk. rewrite Z.land_ones by exact Hk. apply Z.mod_pos_bound.
  apply Z.pow_pos_nonneg; lia.
Qed.

(** X5. Whatever bytes arrive, the fields of a decoded header stay within the
    widths of the wire format, and the reported size is the size of the
    datagram. *)
Theorem parsed_fields_in_range (data : list byte) (now : string) (p : Packet) :
  parse_packet data now = Parsed p ->
  0 <= version (header p) < 8 /\
  (type_ (header p) = "TM" \/ type_ (header p) = "TC") /\
  0 <= apid (header p) < 2048 /\
  0 <= sequence_flags (header p) < 4 /\
  0 <= sequence_count (header p) < 16384 /\
  0 <= data_length (header p) < 65536 /\
  raw_size p = len data /\
  timestamp p = now.
Proof.
  intros E.
  destruct (Z.lt_ge_cases (len data) 6) as [Hs|Hl].
  - rewrite parse_packet_short in E by exact Hs. discriminate.
  - destruct (six_bytes data Hl) as (a & b & c & d & e & f & rest & ->).
    rewrite parse_packet_header in E. inversion E; subst p; clear E.
    cbn [header version type_ apid sequence_flags sequence_count data_length
         raw_size timestamp].
    repeat split; try apply be16_range.
    + apply (land_ones_range _ 3). lia.
    + apply (land_ones_range _ 3). lia.
    + destruct (_ =? 0); auto.
    + apply (land_ones_range _ 11). lia.
    + apply (land_ones_range _ 11). lia.
    + apply (land_ones_range _ 2). lia.
    + apply (land_ones_range _ 2). lia.
    + apply (land_ones_range _ 14). lia.
    + apply (land_ones_range _ 14). lia.
Qed.

End ParserMore.

Lemma parsed_fields_in_range_witness :
  exists p,
    MoService.parse_packet
      [Byte.xff; Byte.xff; Byte.xff; Byte.xff; Byte.xff; Byte.xff; Byte.x00] "t"
      = MoService.Parsed p /\
    0 <= MoService.version (MoService.header p) < 8 /\
    (MoService.type_ (MoService.header p) = "TM" \/
     MoService.type_ (MoService.header p) = "TC") /\
    0 <= MoService.apid (MoService.header p) < 2048 /\
    0 <= MoService.sequence_flags (MoService.header p) < 4 /\
    0 <= MoService.sequence_count (MoService.header p) < 16384 /\
    0 <= MoService.data_length (MoService.header p) < 65536 /\
    MoService.raw_size p = 7 /\
    MoService.timestamp p = "t".
Proof.
  eexists. split; [vm_compute; reflexivity|].
  apply (parsed_fields_in_range
           [Byte.xff; Byte.xff; Byte.xff; Byte.xff; Byte.xff; Byte.xff; Byte.x00] "t").
  vm_compute. reflexivity.
Defined.

(* ===================================================================== *)
(** * The receiver of [mo_service.py]: what a datagram does to the stores *)
(* ===================================================================== *)

Section ReceiverMore.
Context `{Json}.
Import MoService.

(** X6. A datagram too short to hold a header changes nothing, and the
    datagrams after it are processed as if it had not come. *)
Theorem run_skips_short_datagram
    (before after : list (list byte)) (bad : list byte) (st : State) :
  len bad < 6 ->
  run (before ++ bad :: after) st = run (before ++ after) st.
Proof.
  intros Hbad. unfold run. rewrite !fold_left_app. cbn [fold_left].
  rewrite (receive_error bad _ "Packet too short"); [reflexivity|].
  apply parse_packet_short, Hbad.
Qed.

Lemma store_items_keeps prefix units_of stamp source items
    (ps : gmap string ParamData) (k : string) :
  is_Some (ps !! k) ->
  is_Some (store_items prefix units_of stamp source items ps !! k).
Proof.
  unfold store_items. revert ps.
  induction items as [|[key value] items IH]; intros ps Hk; [exact Hk|].
  cbn [fold_left]. apply IH. apply lookup_insert_is_Some'. right. exact Hk.
Qed.

Lemma extract_parameters_keeps (parsed : Packet) (packet_id : Z)
    (ps : gmap string ParamData) (k : string) :
  is_Some (ps !! k) ->
  is_Some ((_extract_parameters parsed packet_id ps).1 !! k).
Proof.
  intros Hk. unfold _extract_parameters.
  destruct (telemetry parsed) as [| | | | | |t]; try exact Hk.
  destruct (dict_get "measurements" t) as [[| | | | | |m]|];
    destruct (dict_get "health" t) as [[| | | | | |h]|];
    destruct (dict_get "subsystem" t);
    cbv zeta; cbn [fst];
    repeat first [ exact Hk
                 | apply lookup_insert_is_Some'; right
                 | apply store_items_keeps ].
Qed.

(** X7. The receiver only ever adds to the stores: a packet or a parameter
    that was there before any run of the loop is still there after it,
    and the command queue is not touched. *)
Theorem run_never_forgets (datagrams : list (list byte)) (st : State) :
  (forall k, is_Some (telemetry_store st !! k) ->
             is_Some (telemetry_store (run datagrams st) !! k)) /\
  (forall k, is_Some (parameter_store st !! k) ->
             is_Some (parameter_store (run datagrams st) !! k)) /\
  command_queue (run datagrams st) = command_queue st.
Proof.
  revert st. induction datagrams as [|d ds IH]; intros st; [auto|].
  cbn [run fold_left]. fold (run ds (receive d st)).
  destruct (IH (receive d st)) as (IH1 & IH2 & IH3).
  assert (Hstep :
    (forall k, is_Some (telemetry_store st !! k) ->
               is_Some (telemetry_store (receive d st) !! k)) /\
    (forall k, is_Some (parameter_store st !! k) ->
               is_Some (parameter_store (receive d st) !! k)) /\
    command_queue (receive d st) = command_queue st).
  { unfold receive. destruct (parse_packet d (next_reading st)) as [msg|p]; [auto|].
    destruct (is_dict (telemetry p)); cbn; repeat split; intros;
      try (apply lookup_insert_is_Some'; right; assumption);
      try (apply extract_parameters_keeps; assumption); try assumption. }
  destruct Hstep as (S1 & S2 & S3).
  repeat split; [intros; apply IH1, S1; assumption
                | intros; apply IH2, S2; assumption | congruence].
Qed.

End ReceiverMore.

(* ===================================================================== *)
(** * From a telemetry packet to GetParameterValues *)
(* ===================================================================== *)

Section Strings.

Lemma string_map_app (f : ascii -> ascii) (a b : string) :
  string_map f (a +:+ b) = string_map f a +:+ string_map f b.
Proof.
  induction a as [|c a IH]; [reflexivity|].
  change (String c a +:+ b) with (String c (a +:+ b)).
  cbn [string_map]. rewrite IH. reflexivity.
Qed.

Lemma append_inj_r (p a b : string) : p +:+ a = p +:+ b -> a = b.
Proof.
  induction p as [|c p IH]; [auto|].
  change (String c p +:+ a) with (String c (p +:+ a)).
  change (String c p +:+ b) with (String c (p +:+ b)).
  intros E. injection E as E. exact (IH E).
Qed.

Lemma ascii_lower_upper (c : ascii) : ascii_lower (ascii_upper c) = ascii_lower c.
Proof. destruct c as [[] [] [] [] [] [] [] []]; reflexivity. Qed.

Lemma ascii_upper_lower (c : ascii) : ascii_upper (ascii_lower c) = ascii_upper c.
Proof. destruct c as [[] [] [] [] [] [] [] []]; reflexivity. Qed.

Lemma ascii_upper_upper (c : ascii) : ascii_upper (ascii_upper c) = ascii_upper c.
Proof. destruct c as [[] [] [] [] [] [] [] []]; reflexivity. Qed.

Lemma py_lower_upper (s : string) : py_lower (py_upper s) = py_lower s.
Proof.
  unfold py_lower, py_upper. induction s as [|c s IH]; [reflexivity|].
  cbn [string_map]. rewrite ascii_lower_upper, IH. reflexivity.
Qed.

Lemma py_upper_lower (s : string) : py_upper (py_lower s) = py_upper s.
Proof.
  unfold py_lower, py_upper. induction s as [|c s IH]; [reflexivity|].
  cbn [string_map]. rewrite ascii_upper_lower, IH. reflexivity.
Qed.

Lemma py_upper_upper (s : string) : py_upper (py_upper s) = py_upper s.
Proof.
  unfold py_upper. induction s as [|c s IH]; [reflexivity|].
  cbn [string_map]. rewrite ascii_upper_upper, IH. reflexivity.
Qed.

End Strings.

Section Extraction.
Context `{Json}.
Import MoService.

(** X8. The units of a parameter do not depend on the letter case of its
    name, for a name of ASCII characters. *)
Theorem units_ignore_case (param_name : string) :
  is_ascii param_name = true ->
  _get_units (py_upper param_name) = _get_units param_name /\
  _get_units (py_lower param_name) = _get_units param_name.
Proof.
  intros _. unfold _get_units. cbv zeta. rewrite py_lower_upper.
  assert (E : py_lower (py_lower param_name) = py_lower param_name).
  { rewrite <- (py_lower_upper param_name) at 2.
    rewrite <- (py_lower_upper (py_lower param_name)).
    rewrite py_upper_lower. reflexivity. }
  rewrite E. split; reflexivity.
Qed.

Lemma store_items_other prefix units_of stamp source items
    (ps : gmap string ParamData) (k : string) :
  (forall key, key ∈ map fst items -> k <> prefix +:+ py_upper key) ->
  store_items prefix units_of stamp source items ps !! k = ps !! k.
Proof.
  unfold store_items. revert ps.
  induction items as [|[key value] items IH]; intros ps Hk; [reflexivity|].
  cbn [fold_left]. rewrite IH.
  - apply lookup_insert_ne. intros E. apply (Hk key); [left | congruence].
  - intros key' Hin. apply Hk. right. exact Hin.
Qed.

(** After the loop over [items], an item whose upper-cased key no other
    item shares is in the store, with its value. *)
Lemma store_items_lookup prefix units_of stamp source items
    (ps : gmap string ParamData) (key : string) (v : pyval) :
  XmlValidator.keys_distinct (map (fun kv => (py_upper (fst kv), snd kv)) items) = true ->
  dict_get key items = Some v ->
  store_items prefix units_of stamp source items ps !! (prefix +:+ py_upper key)
  = Some {| pd_value := v; pd_timestamp := stamp; pd_validity := "VALID";
            pd_units := Some (units_of key); pd_quality := None;
            pd_source := Some source |}.
Proof.
  revert ps. induction items as [|[key' v'] items IH]; intros ps Hd Hget; [discriminate|].
  cbn [map fst snd XmlValidator.keys_distinct] in Hd.
  apply andb_true_iff in Hd as [Hfresh Hd]. apply negb_true_iff in Hfresh.
  cbn [dict_get] in Hget.
  change (store_items prefix units_of stamp source ((key', v') :: items) ps)
    with (store_items prefix units_of stamp source items
            (<[ prefix +:+ py_upper key' :=
                  {| pd_value := v'; pd_timestamp := stamp; pd_validity := "VALID";
                     pd_units := Some (units_of key'); pd_quality := None;
                     pd_source := Some source |} ]> ps)).
  destruct (String.eqb_spec key key') as [<-|Hne].
  - injection Hget as <-.
    rewrite store_items_other; [apply lookup_insert_eq|].
    intros k Hin E. apply append_inj_r in E.
    assert (Hex : existsb (String.eqb (py_upper key))
                    (map fst (map (fun kv => (py_upper (fst kv), snd kv)) items)) = true).
    { apply existsb_exists. exists (py_upper k). split; [|apply String.eqb_eq, E].
      apply list_elem_of_In. rewrite map_map. cbn [fst].
      apply list_elem_of_fmap in Hin as (kv & -> & Hin).
      apply (list_elem_of_fmap_2 (fun kv : string * pyval => py_upper (fst kv))), Hin. }
    congruence.
  - apply IH; assumption.
Qed.

Lemma meas_not_health (a b : string) : "MEAS_" +:+ a <> "HEALTH_" +:+ b.
Proof. discriminate. Qed.

Lemma meas_not_subsystem (a : string) : "MEAS_" +:+ a <> "SUBSYSTEM".
Proof. discriminate. Qed.

(** X9. A measurement of a received telemetry packet is what
    GetParameterValues then reports for [MEAS_<KEY>], asked for in any
    letter case: the value, VALID, the units of the key, the packet's
    time.  It holds whatever the rest of the telemetry contains.  The
    keys of the measurements and the identifier asked for are ASCII
    text, on which the model of [upper()] is Python's. *)
Theorem measurement_visible (data : list byte) (st : State) (p : Packet)
    (t m : list (string * pyval)) (key param_id : string) (v : pyval) :
  parse_packet data (next_reading st) = Parsed p ->
  telemetry p = PDict t ->
  dict_get "measurements" t = Some (PDict m) ->
  forallb (fun kv => is_ascii (fst kv)) m = true ->
  is_ascii param_id = true ->
  XmlValidator.keys_distinct (map (fun kv => (py_upper (fst kv), snd kv)) m) = true ->
  dict_get key m = Some v ->
  py_upper param_id = "MEAS_" +:+ py_upper key ->
  (get_one param_id (receive data st)).1
  = {| name := "MEAS_" +:+ py_upper key;
       value := v;
       p_timestamp := timestamp p;
       validity := "VALID";
       units := Some (_get_units key);
       quality := Some "GOOD" |}.
Proof.
  intros Hparse Ht Hm _ _ Hd Hget Hid.
  assert (Hstore : parameter_store (receive data st) !! ("MEAS_" +:+ py_upper key)
                   = Some {| pd_value := v; pd_timestamp := timestamp p;
                             pd_validity := "VALID";
                             pd_units := Some (_get_units key); pd_quality := None;
                             pd_source := Some ("Packet_" +:+
                                                str_of_int (sequence_count (header p))) |}).
  { unfold receive. rewrite Hparse, Ht. cbn [is_dict].
    cbn [set_parameter_store parameter_store set_telemetry_store advance].
    unfold _extract_parameters. rewrite Ht, Hm. cbv zeta.
    pose proof (store_items_lookup "MEAS_" _get_units (timestamp p)
                  ("Packet_" +:+ str_of_int (sequence_count (header p)))
                  m (parameter_store st) key v Hd Hget) as Hmeas.
    assert (Hhealth : forall h,
      store_items "HEALTH_" (fun _ => "") (timestamp p)
        ("Packet_" +:+ str_of_int (sequence_count (header p))) h
        (store_items "MEAS_" _get_units (timestamp p)
           ("Packet_" +:+ str_of_int (sequence_count (header p))) m (parameter_store st))
        !! ("MEAS_" +:+ py_upper key)
      = Some {| pd_value := v; pd_timestamp := timestamp p; pd_validity := "VALID";
                pd_units := Some (_get_units key); pd_quality := None;
                pd_source := Some ("Packet_" +:+
                                   str_of_int (sequence_count (header p))) |}).
    { intros h. rewrite store_items_other; [exact Hmeas|].
      intros k _. apply meas_not_health. }
    destruct (dict_get "health" t) as [[| | | | | |h]|]; cbn [fst];
      try exact Hmeas;
      destruct (dict_get "subsystem" t); cbn [fst];
      try rewrite lookup_insert_ne by (apply not_eq_sym, meas_not_subsystem);
      auto. }
  unfold get_one. rewrite Hid, Hstore. reflexivity.
Qed.

(** X10. When the ["measurements"] entry of the telemetry is not a
    dictionary, the packet is logged all the same but no parameter is
    taken from it, not even its health or subsystem. *)
Theorem bad_measurements_block_extraction (data : list byte) (st : State) (p : Packet)
    (t : list (string * pyval)) (bad : pyval) :
  parse_packet data (next_reading st) = Parsed p ->
  telemetry p = PDict t ->
  dict_get "measurements" t = Some bad ->
  is_dict bad = false ->
  parameter_store (receive data st) = parameter_store st /\
  telemetry_store (receive data st) !! sequence_count (header p) = Some p.
Proof.
  intros Hparse Ht Hm Hbad. split.
  - unfold receive. rewrite Hparse, Ht. cbn [is_dict].
    cbn [set_parameter_store parameter_store set_telemetry_store advance].
    unfold _extract_parameters. rewrite Ht, Hm.
    destruct bad; try discriminate; reflexivity.
  - rewrite (receive_parsed _ _ _ Hparse). apply lookup_insert_eq.
Qed.

End Extraction.

(* ===================================================================== *)
(** * The telemetry endpoints of [mo_service.py] *)
(* ===================================================================== *)

Section Telemetry.
Import MoService.

Lemma telemetry_keys_elem (st : State) (k : Z) :
  k ∈ telemetry_keys st <-> is_Some (telemetry_store st !! k).
Proof.
  unfold telemetry_keys. rewrite list_elem_of_fmap. split.
  - intros ([k' p] & -> & Hin). apply elem_of_map_to_list in Hin. by eexists.
  - intros [p Hp]. exists (k, p). split; [reflexivity|].
    apply elem_of_map_to_list, Hp.
Qed.

Lemma telemetry_keys_NoDup (st : State) : NoDup (telemetry_keys st).
Proof. apply NoDup_fst_map_to_list. Qed.

Lemma telemetry_keys_length (st : State) :
  length (telemetry_keys st) = size (telemetry_store st).
Proof. unfold telemetry_keys. rewrite length_map. apply length_map_to_list. Qed.

Lemma fold_max_spec (ks : list Z) (k : Z) :
  fold_left Z.max ks k ∈ k :: ks /\
  forall x, x ∈ k :: ks -> x <= fold_left Z.max ks k.
Proof.
  revert k. induction ks as [|y ks IH]; intros k; cbn [fold_left].
  - split; [left|]. intros x Hx. apply list_elem_of_singleton in Hx. lia.
  - destruct (IH (Z.max k y)) as [Hin Hmax]. split.
    + apply elem_of_cons in Hin as [E|Hin].
      * rewrite E. destruct (Z.max_spec k y) as [[_ ->]|[_ ->]];
          [right; left | left].
      * right. right. exact Hin.
    + intros x Hx.
      assert (Hk : Z.max k y <= fold_left Z.max ks (Z.max k y)) by (apply Hmax; left).
      apply elem_of_cons in Hx as [->|Hx]; [lia|].
      apply elem_of_cons in Hx as [->|Hx]; [lia|].
      apply Hmax. right. exact Hx.
Qed.

Lemma fold_min_spec (ks : list Z) (k : Z) :
  fold_left Z.min ks k ∈ k :: ks /\
  forall x, x ∈ k :: ks -> fold_left Z.min ks k <= x.
Proof.
  revert k. induction ks as [|y ks IH]; intros k; cbn [fold_left].
  - split; [left|]. intros x Hx. apply list_elem_of_singleton in Hx. lia.
  - destruct (IH (Z.min k y)) as [Hin Hmin]. split.
    + apply elem_of_cons in Hin as [E|Hin].
      * rewrite E. destruct (Z.min_spec k y) as [[_ ->]|[_ ->]];
          [left | right; left].
      * right. right. exact Hin.
    + intros x Hx.
      assert (Hk : fold_left Z.min ks (Z.min k y) <= Z.min k y) by (apply Hmin; left).
      apply elem_of_cons in Hx as [->|Hx]; [lia|].
      apply elem_of_cons in Hx as [->|Hx]; [lia|].
      apply Hmin. right. exact Hx.
Qed.

(** X11. [GET /telemetry/latest] answers 404 exactly when nothing is stored;
    otherwise it returns the stored packet with the greatest key, which
    is the greatest sequence count and not the last arrival. *)
Theorem latest_is_greatest_key (st : State) :
  match get_latest_telemetry st with
  | inl e =>
      e = Http 404 (PStr "No telemetry received") /\ telemetry_store st = ∅
  | inr parsed =>
      exists k,
        telemetry_store st !! k = Some parsed /\
        forall k', is_Some (telemetry_store st !! k') -> k' <= k
  end.
Proof.
  unfold get_latest_telemetry.
  destruct (telemetry_keys st) as [|k ks] eqn:E.
  - split; [reflexivity|].
    apply map_to_list_empty_iff. unfold telemetry_keys in E.
    destruct (map_to_list (telemetry_store st)); [reflexivity | discriminate].
  - cbv zeta. destruct (fold_max_spec ks k) as [Hin Hmax].
    rewrite <- E in Hin, Hmax.
    apply telemetry_keys_elem in Hin as [p Hp]. rewrite Hp.
    exists (fold_left Z.max ks k). split; [exact Hp|].
    intros k' Hk'. apply Hmax, telemetry_keys_elem, Hk'.
Qed.

Lemma sorted_keys_desc_perm (st : State) : sorted_keys_desc st ≡ₚ telemetry_keys st.
Proof.
  unfold sorted_keys_desc. rewrite reverse_Permutation. apply merge_sort_Permutation.
Qed.

Lemma sorted_keys_desc_sorted (st : State) :
  StronglySorted (fun a b => b < a) (sorted_keys_desc st).
Proof.
  assert (Hnd : NoDup (sorted_keys_desc st)).
  { rewrite sorted_keys_desc_perm. apply telemetry_keys_NoDup. }
  assert (Hs : StronglySorted (flip Z.le) (sorted_keys_desc st)).
  { apply Sorted_StronglySorted; [intros x y z; unfold flip; lia|].
    unfold sorted_keys_desc. apply Sorted_reverse, Sorted_merge_sort.
    intros x y. lia. }
  revert Hnd. induction Hs as [|x l Hs IH Hx]; intros Hnd; constructor.
  - apply IH. apply NoDup_cons in Hnd. tauto.
  - apply NoDup_cons in Hnd as [Hnotin _].
    rewrite Forall_forall in Hx |- *. intros y Hy.
    specialize (Hx y Hy). unfold flip in Hx.
    assert (y <> x) by (intros ->; contradiction). lia.
Qed.

Lemma omap_lookup_all (st : State) (ids : list Z) :
  (forall k, k ∈ ids -> is_Some (telemetry_store st !! k)) ->
  map fst (omap (fun pid => pair pid <$> telemetry_store st !! pid) ids) = ids /\
  forall k p, (k, p) ∈ omap (fun pid => pair pid <$> telemetry_store st !! pid) ids ->
              telemetry_store st !! k = Some p.
Proof.
  induction ids as [|i ids IH]; intros Hall.
  - split; [reflexivity|]. intros k p Hin. apply elem_of_nil in Hin. contradiction.
  - destruct (Hall i ltac:(left)) as [p Hp].
    destruct IH as [IH1 IH2]; [intros k Hk; apply Hall; right; exact Hk|].
    cbn [omap list_omap]. rewrite Hp. cbn [fmap option_fmap option_map map fst].
    split; [f_equal; exact IH1|].
    intros k q Hin. apply elem_of_cons in Hin as [[= -> ->]|Hin]; [exact Hp|].
    apply IH2, Hin.
Qed.

(** X12. [GET /telemetry?limit=n] lists stored packets only, by strictly
    descending sequence count, and the packets it leaves out all have
    smaller sequence counts than those it lists.  For [n >= 0] it lists
    [min(n, stored)] packets; a negative [n] is no error: it leaves out
    the [-n] smallest sequence counts. *)
Theorem recent_telemetry (limit : Z) (st : State) :
  let count := (get_all_telemetry limit st).1 in
  let packets := (get_all_telemetry limit st).2 in
  let stored := Z.of_nat (size (telemetry_store st)) in
  count = (if 0 <=? limit then Z.min limit stored else Z.max 0 (stored + limit)) /\
  Z.of_nat (length packets) = count /\
  (forall k p, (k, p) ∈ packets -> telemetry_store st !! k = Some p) /\
  StronglySorted (fun a b => b < a) (map fst packets) /\
  (forall k k', is_Some (telemetry_store st !! k) -> k ∉ map fst packets ->
                k' ∈ map fst packets -> k < k').
Proof.
  cbv zeta. unfold get_all_telemetry. cbn [fst snd].
  assert (Hslice : exists n, py_slice_to limit (sorted_keys_desc st)
                             = take n (sorted_keys_desc st)).
  { unfold py_slice_to. destruct (0 <=? limit); eauto. }
  destruct Hslice as [n Hn].
  assert (Hlen : length (sorted_keys_desc st) = size (telemetry_store st)).
  { rewrite sorted_keys_desc_perm. apply telemetry_keys_length. }
  assert (Hall : forall k, k ∈ py_slice_to limit (sorted_keys_desc st) ->
                           is_Some (telemetry_store st !! k)).
  { intros k Hk. rewrite Hn in Hk. apply telemetry_keys_elem.
    rewrite <- sorted_keys_desc_perm. apply elem_of_take in Hk as (i & Hi & _).
    eapply list_elem_of_lookup_2, Hi. }
  destruct (omap_lookup_all st _ Hall) as [Hids Hstored].
  assert (Hcount : Z.of_nat (length (py_slice_to limit (sorted_keys_desc st)))
                   = if 0 <=? limit
                     then Z.min limit (Z.of_nat (size (telemetry_store st)))
                     else Z.max 0 (Z.of_nat (size (telemetry_store st)) + limit)).
  { unfold py_slice_to. destruct (Z.leb_spec 0 limit); rewrite length_take, Hlen; lia. }
  split; [exact Hcount|]. split.
  { rewrite <- (length_map fst), Hids. reflexivity. }
  split; [exact Hstored|]. rewrite Hids, Hn.
  pose proof (sorted_keys_desc_sorted st) as Hsorted.
  rewrite <- (take_drop n (sorted_keys_desc st)) in Hsorted.
  split; [eapply StronglySorted_app_1_l, Hsorted|].
  intros k k' Hk Hout Hin.
  apply telemetry_keys_elem in Hk. rewrite <- sorted_keys_desc_perm in Hk.
  rewrite <- (take_drop n (sorted_keys_desc st)) in Hk.
  apply elem_of_app in Hk as [Hk|Hk]; [contradiction|].
  exact (StronglySorted_app_1_elem_of _ _ _ _ _ Hsorted Hin Hk).
Qed.

(** X13. [GET /statistics]: no figures before the first packet; afterwards the
    figures are consistent with each other. *)
Theorem statistics_consistent (st : State) :
  match get_statistics st with
  | None => telemetry_store st = ∅
  | Some s =>
      1 <= unique_apids s <= total_packets s /\
      oldest_packet s <= latest_packet s /\
      is_Some (telemetry_store st !! oldest_packet s) /\
      is_Some (telemetry_store st !! latest_packet s) /\
      0 <= valid_parameters s <= total_monitored s
  end.
Proof.
  unfold get_statistics.
  destruct (telemetry_keys st) as [|k ks] eqn:E.
  - apply map_to_list_empty_iff. unfold telemetry_keys in E.
    destruct (map_to_list (telemetry_store st)); [reflexivity | discriminate].
  - cbv zeta. cbn [unique_apids total_packets oldest_packet latest_packet
                   valid_parameters total_monitored].
    destruct (fold_max_spec ks k) as [Hmaxin Hmax].
    destruct (fold_min_spec ks k) as [Hminin Hmin].
    rewrite <- E in Hmaxin, Hminin.
    set (apids := map (fun kp => apid (header (snd kp))) (map_to_list (telemetry_store st))).
    assert (Hlen : length apids = size (telemetry_store st)).
    { unfold apids. rewrite length_map. apply length_map_to_list. }
    assert (Hne : apids <> []).
    { unfold apids. unfold telemetry_keys in E.
      destruct (map_to_list (telemetry_store st)); discriminate. }
    assert (Hup : (length (remove_dups apids) <= length apids)%nat).
    { apply submseteq_length, NoDup_submseteq; [apply NoDup_remove_dups|].
      intros x. apply elem_of_remove_dups. }
    assert (Hlow : (1 <= length (remove_dups apids))%nat).
    { destruct apids as [|a rest] eqn:Ea; [contradiction|].
      assert (Hin : a ∈ remove_dups (a :: rest)) by (apply elem_of_remove_dups; left).
      destruct (remove_dups (a :: rest)); [apply elem_of_nil in Hin; contradiction|].
      cbn. lia. }
    repeat split.
    + lia.
    + lia.
    + assert (fold_left Z.min ks k <= k) by (apply Hmin; left).
      assert (k <= fold_left Z.max ks k) by (apply Hmax; left). lia.
    + apply telemetry_keys_elem, Hminin.
    + apply telemetry_keys_elem, Hmaxin.
    + lia.
    + pose proof (List.filter_length_le
                    (fun kp : string * ParamData => String.eqb (pd_validity (snd kp)) "VALID")
                    (map_to_list (parameter_store st))) as Hf.
      rewrite length_map_to_list in Hf. lia.
Qed.

End Telemetry.

(* ===================================================================== *)
(** * Parameter look-up and telecommands of [mo_service.py] *)
(* ===================================================================== *)

Section Lookup.
Import MoService.

Lemma py_lower_lower (s : string) : py_lower (py_lower s) = py_lower s.
Proof.
  rewrite <- (py_lower_upper s) at 2.
  rewrite <- (py_lower_upper (py_lower s)).
  rewrite py_upper_lower. reflexivity.
Qed.

Lemma get_one_upper (param_id : string) (st : State) :
  get_one (py_upper param_id) st = get_one param_id st.
Proof. unfold get_one. cbv zeta. rewrite py_upper_upper. reflexivity. Qed.

Lemma get_one_lower (param_id : string) (st : State) :
  get_one (py_lower param_id) st = get_one param_id st.
Proof. unfold get_one. cbv zeta. rewrite py_upper_lower. reflexivity. Qed.

Lemma for_each_map {S A B C : Type} (f : B -> M S C) (g : A -> B) (xs : list A) (st : S) :
  for_each f (map g xs) st = for_each (fun x => f (g x)) xs st.
Proof.
  revert st. induction xs as [|x xs IH]; intros st; [reflexivity|].
  cbn [map for_each]. unfold bind. destruct (f (g x) st) as [y st1].
  rewrite IH. reflexivity.
Qed.

Lemma for_each_ext {S A B : Type} (f g : A -> M S B) (xs : list A) (st : S) :
  (forall x s, f x s = g x s) -> for_each f xs st = for_each g xs st.
Proof.
  intros Hfg. revert st. induction xs as [|x xs IH]; intros st; [reflexivity|].
  cbn [for_each]. unfold bind. rewrite Hfg. destruct (g x st) as [y st1].
  rewrite IH. reflexivity.
Qed.

(** X14. [POST /ccsds/parameters] does not see the letter case of the
    identifiers it is asked for (identifiers of ASCII characters): the
    response and the state after the call are the same for the
    identifiers as given, in lower case and in upper case. *)
Theorem parameter_ids_ignore_case (ids : list string) (r : string) (st : State) :
  Forall (fun param_id => is_ascii param_id = true) ids ->
  get_ccsds_parameters {| parameterIds := map py_lower ids; requestId := r |} st
  = get_ccsds_parameters {| parameterIds := ids; requestId := r |} st /\
  get_ccsds_parameters {| parameterIds := map py_upper ids; requestId := r |} st
  = get_ccsds_parameters {| parameterIds := ids; requestId := r |} st.
Proof.
  intros _. unfold get_ccsds_parameters, bind. cbn [parameterIds requestId].
  rewrite !for_each_map.
  rewrite (for_each_ext (fun x => get_one (py_lower x)) get_one)
    by (intros; apply get_one_lower).
  rewrite (for_each_ext (fun x => get_one (py_upper x)) get_one)
    by (intros; apply get_one_upper).
  split; reflexivity.
Qed.

(** X15. [GET /parameter/{name}] and [POST /ccsds/parameters] agree on what is
    stored: a name the first answers with 404 is answered by the second
    with an INVALID parameter of value [None] and quality UNKNOWN, and a
    name the first finds is answered by the second with the stored value,
    timestamp, validity and units under the same name, the one asked for
    in upper case (the model of [upper()] is Python's on ASCII text).
    The second never fails. *)
Theorem endpoints_agree_on_parameter (param_name r : string) (st : State) :
  let response := (get_ccsds_parameters
                     {| parameterIds := [param_name]; requestId := r |} st).1 in
  r_requestId response = r /\
  exists p,
    parameters response = [p] /\
    match get_parameter param_name st with
    | inl e =>
        e = Http 404 (PStr ("Parameter '" +:+ param_name +:+ "' not found")) /\
        value p = PNone /\ validity p = "INVALID" /\ quality p = Some "UNKNOWN" /\
        units p = None /\
        (is_ascii param_name = true -> name p = py_upper param_name)
    | inr (stored_name, param_data) =>
        name p = stored_name /\
        (is_ascii param_name = true -> stored_name = py_upper param_name) /\
        value p = pd_value param_data /\
        p_timestamp p = pd_timestamp param_data /\
        validity p = pd_validity param_data /\
        units p = pd_units param_data
    end.
Proof.
  cbv zeta. unfold get_ccsds_parameters, get_parameter, bind.
  cbn [parameterIds requestId for_each]. unfold bind, get_one. cbv zeta.
  destruct (parameter_store st !! py_upper param_name) as [d|] eqn:E.
  - cbn. split; [reflexivity|]. eexists. split; [reflexivity|].
    cbn. repeat split; reflexivity.
  - cbn. split; [reflexivity|]. eexists. split; [reflexivity|].
    cbn. repeat split; reflexivity.
Qed.

(** X16. A telecommand that is sent is acknowledged under its own identifier
    and is from then on the last of the pending commands; the pending
    list shows at most ten commands while the count grows by one; the
    telemetry and the parameters are not touched. *)
Theorem telecommand_pending (command : Telecommand) (st : State) :
  let response := (send_telecommand command st).1 in
  let st' := (send_telecommand command st).2 in
  tr_commandId response = commandId command /\
  tr_status response = "ACKNOWLEDGED" /\
  (get_pending_commands st').1 = (get_pending_commands st).1 + 1 /\
  last (get_pending_commands st').2 = Some (telecommand_dict command) /\
  (length (get_pending_commands st').2 <= 10)%nat /\
  (get_pending_commands st').2 `suffix_of` command_queue st ++ [telecommand_dict command] /\
  telemetry_store st' = telemetry_store st /\
  parameter_store st' = parameter_store st.
Proof.
  cbv zeta. unfold send_telecommand, bind, append_command, now, advance, ret,
    get_pending_commands, py_last.
  cbn [fst snd command_queue telemetry_store parameter_store
       tr_commandId tr_status].
  repeat split.
  - rewrite length_app. cbn [length]. lia.
  - rewrite length_app. cbn [length].
    rewrite drop_app_le by lia. apply last_snoc.
  - rewrite length_drop, length_app. cbn [length]. lia.
  - apply suffix_drop.
Qed.

End Lookup.

(* ===================================================================== *)
(** * From the simulator to the service *)
(* ===================================================================== *)

Section EndToEnd.
Context `{Json}.
Import Simulator MoService.
#[local] Arguments Simulator._calculate_crc : simpl never.

(** The parser on a packet of the encoder, at any clock reading. *)
Lemma encoded_parses self data now_unix now pkt self' :
  0 <= Simulator.apid self < 2048 ->
  json_loads (json_dumps data) = Some data ->
  create_ccsds_packet self data now_unix = Some (pkt, self') ->
  exists p,
    parse_packet pkt now = Parsed p /\
    MoService.apid (header p) = Simulator.apid self /\
    sequence_count (header p) = packet_counter self mod 16384 /\
    telemetry p = data /\
    timestamp p = now.
Proof.
  intros Ha Hjson E. apply create_ccsds_packet_inv in E.
  destruct E as (w1 & w2 & w3 & sh & body & E1 & E2 & E3 & Hsh & -> & -> & _).
  apply pack_H_Some in E1 as [R1 ->], E2 as [R2 ->], E3 as [R3 ->].
  assert (Hne : json_dumps data <> []).
  { intros Hnil. rewrite Hnil, json_loads_nil in Hjson. discriminate. }
  destruct (word1_fields _ Ha) as (_ & Hflag & Hapid).
  destruct (word2_fields (packet_counter self mod 16384)) as (_ & Hseq);
    [apply Z.mod_pos_bound; lia|].
  eexists. split.
  - rewrite <- !app_assoc. cbn [app].
    apply (parse_packet_framed _ _ _ _ _ _ _ _ sh (json_dumps data)); try assumption.
    rewrite be16_pack, Hflag by assumption. lia.
  - cbn [header MoService.apid sequence_count telemetry timestamp].
    rewrite !be16_pack by assumption.
    rewrite Hapid, Hseq, Hjson. auto.
Qed.

Lemma run_keeps_other (datagrams : list (list byte)) (st : State) (k : Z) :
  (forall data now p, data ∈ datagrams -> parse_packet data now = Parsed p ->
                      sequence_count (header p) <> k) ->
  telemetry_store (run datagrams st) !! k = telemetry_store st !! k.
Proof.
  revert st. induction datagrams as [|d ds IH]; intros st Hother; [reflexivity|].
  cbn [run fold_left]. fold (run ds (receive d st)).
  rewrite IH by (intros data now p Hin; apply Hother; right; exact Hin).
  destruct (parse_packet d (next_reading st)) as [msg|q] eqn:E.
  - rewrite (receive_error _ _ _ E). reflexivity.
  - rewrite (receive_parsed _ _ _ E). apply lookup_insert_ne.
    eapply Hother; [left | exact E].
Qed.

(** Datagrams with consecutive sequence counts, at most 16384 of them,
    are all in the telemetry store after the receiver has run on them. *)
Lemma run_stores_consecutive (good : nat -> Packet -> Prop)
    (sent : list (list byte)) (c : Z) (st : State) :
  Z.of_nat (length sent) <= 16384 ->
  (forall i pkt now, sent !! i = Some pkt ->
     exists p, parse_packet pkt now = Parsed p /\
               sequence_count (header p) = (c + Z.of_nat i) mod 16384 /\
               good i p) ->
  forall i, (i < length sent)%nat ->
    exists p, telemetry_store (run sent st) !! ((c + Z.of_nat i) mod 16384) = Some p /\
              good i p.
Proof.
  revert good c st. induction sent as [|pkt rest IH]; intros good c st Hn Hall i Hi.
  - cbn in Hi. lia.
  - cbn [run fold_left]. fold (run rest (receive pkt st)).
    destruct i as [|i].
    + destruct (Hall 0%nat pkt (next_reading st) eq_refl) as (p & Ep & Hs & Hg).
      exists p. split; [|exact Hg].
      rewrite run_keeps_other.
      * rewrite (receive_parsed _ _ _ Ep), Hs. apply lookup_insert_eq.
      * intros data now q Hin Eq.
        apply list_elem_of_lookup in Hin as [j Hj].
        destruct (Hall (S j) data now Hj) as (q' & Eq' & Hs' & _).
        rewrite Eq in Eq'. inversion Eq'; subst q'. rewrite Hs'.
        apply lookup_lt_Some in Hj. cbn [length] in Hn.
        intros Heq.
        assert (Hd : ((c + Z.of_nat (S j)) - (c + Z.of_nat 0%nat)) mod 16384 = 0).
        { rewrite Zminus_mod, Heq, Z.sub_diag. reflexivity. }
        replace (c + Z.of_nat (S j) - (c + Z.of_nat 0%nat)) with (Z.of_nat (S j)) in Hd by lia.
        rewrite Z.mod_small in Hd by lia. lia.
    + cbn [length] in Hn, Hi.
      destruct (IH (fun j => good (S j)) (c + 1) (receive pkt st)) with (i := i)
        as (p & Hp & Hg); [lia | | lia |].
      * intros j data now Hj.
        destruct (Hall (S j) data now Hj) as (q & Eq & Hs & Hq).
        exists q. split; [exact Eq|]. split; [|exact Hq].
        rewrite Hs. f_equal. lia.
      * exists p. split; [|exact Hg].
        rewrite <- Hp. f_equal. f_equal. lia.
Qed.

Lemma generate_telemetry_counter (a b : CCSDSSimulator) (d : Draw) :
  packet_counter a = packet_counter b -> generate_telemetry a d = generate_telemetry b d.
Proof. intros E. unfold generate_telemetry. rewrite E. reflexivity. Qed.

(** The datagrams of a run of [send_packets] in which no packet fails. *)
Lemma send_packets_spec (draws : list (Draw * Z)) (self : CCSDSSimulator)
    (telemetry_of : nat -> Draw -> pyval) :
  0 <= Simulator.apid self < 2048 ->
  (forall i d t s, draws !! i = Some (d, t) ->
     packet_counter s = packet_counter self + Z.of_nat i ->
     generate_telemetry s d = telemetry_of i d /\
     len (json_dumps (telemetry_of i d)) <= 65529) ->
  length (send_packets draws self).1 = length draws /\
  packet_counter (send_packets draws self).2
  = packet_counter self + Z.of_nat (length draws) /\
  forall i d t, draws !! i = Some (d, t) ->
    exists pkt s s',
      (send_packets draws self).1 !! i = Some pkt /\
      Simulator.apid s = Simulator.apid self /\
      packet_counter s = packet_counter self + Z.of_nat i /\
      create_ccsds_packet s (telemetry_of i d) t = Some (pkt, s').
Proof.
  revert self telemetry_of.
  induction draws as [|[d t] rest IH]; intros self telemetry_of Ha Hok.
  - cbn. split; [reflexivity|]. split; [lia|]. intros i d t Hi.
    rewrite lookup_nil in Hi. discriminate.
  - destruct (Hok 0%nat d t self eq_refl ltac:(lia)) as [Hgen Hlen].
    destruct (create_ccsds_packet_succeeds self (telemetry_of 0%nat d) t Ha Hlen)
      as (pkt & self1 & E).
    pose proof (create_ccsds_packet_inv _ _ _ _ _ E)
      as (_ & _ & _ & _ & _ & _ & _ & _ & _ & _ & _ & Hself1).
    cbn [send_packets]. cbv zeta. rewrite Hgen, E.
    destruct (IH self1 (fun i => telemetry_of (S i))) as (Hl & Hc & Hrest).
    { rewrite Hself1. exact Ha. }
    { intros i d' t' s Hi Hs. apply (Hok (S i) d' t' s Hi).
      rewrite Hs, Hself1. cbn [packet_counter]. lia. }
    destruct (send_packets rest self1) as [sent final] eqn:Es.
    cbn [fst snd] in *. split; [cbn [length]; lia|]. split.
    { rewrite Hc, Hself1. cbn [packet_counter length]. lia. }
    intros [|i] d' t' Hi.
    + cbn in Hi. inversion Hi; subst d' t'.
      exists pkt, self, self1. repeat split; [lia | exact E].
    + cbn in Hi. destruct (Hrest i d' t' Hi) as (pkt' & s & s' & Hlk & Has & Hcs & Ecs).
      exists pkt', s, s'. split; [exact Hlk|]. split.
      { rewrite Has, Hself1. reflexivity. }
      split; [|exact Ecs].
      rewrite Hcs, Hself1. cbn [packet_counter]. lia.
Qed.

Lemma sent_packets_stored_as (draws : list (Draw * Z)) (self : CCSDSSimulator)
    (st : State) (telemetry_of : nat -> Draw -> pyval) :
  0 <= Simulator.apid self < 2048 ->
  Z.of_nat (length draws) <= 16384 ->
  (forall i d t s, draws !! i = Some (d, t) ->
     packet_counter s = packet_counter self + Z.of_nat i ->
     generate_telemetry s d = telemetry_of i d /\
     len (json_dumps (telemetry_of i d)) <= 65529 /\
     json_loads (json_dumps (telemetry_of i d)) = Some (telemetry_of i d)) ->
  let sent := (send_packets draws self).1 in
  let self' := (send_packets draws self).2 in
  length sent = length draws /\
  packet_counter self' = packet_counter self + Z.of_nat (length draws) /\
  forall i d t, draws !! i = Some (d, t) ->
    exists p,
      telemetry_store (run sent st) !! ((packet_counter self + Z.of_nat i) mod 16384)
      = Some p /\
      MoService.apid (header p) = Simulator.apid self /\
      sequence_count (header p) = (packet_counter self + Z.of_nat i) mod 16384 /\
      telemetry p = telemetry_of i d.
Proof.
  intros Ha Hn Hok. cbv zeta.
  destruct (send_packets_spec draws self telemetry_of Ha) as (Hl & Hc & Hsent).
  { intros i d t s Hi Hs. destruct (Hok i d t s Hi Hs) as (? & ? & ?). auto. }
  split; [exact Hl|]. split; [exact Hc|].
  intros i d t Hi.
  set (good := fun (j : nat) (p : Packet) =>
         MoService.apid (header p) = Simulator.apid self /\
         sequence_count (header p) = (packet_counter self + Z.of_nat j) mod 16384 /\
         forall d' t', draws !! j = Some (d', t') -> telemetry p = telemetry_of j d').
  destruct (run_stores_consecutive good (send_packets draws self).1
              (packet_counter self) st) with (i := i) as (p & Hp & Hg1 & Hg2 & Hg3).
  - rewrite Hl. exact Hn.
  - intros j pkt now Hj.
    assert (Hjl : (j < length draws)%nat).
    { rewrite <- Hl. eapply lookup_lt_Some, Hj. }
    destruct (lookup_lt_is_Some_2 draws j Hjl) as [[d' t'] Hd'].
    destruct (Hsent j d' t' Hd') as (pkt' & s & s' & Hlk & Has & Hcs & E).
    rewrite Hj in Hlk. inversion Hlk; subst pkt'.
    destruct (Hok j d' t' s Hd' Hcs) as (_ & _ & Hjson).
    destruct (encoded_parses s (telemetry_of j d') t' now pkt s') as (p & Ep & Hap & Hsq & Htl & _);
      [lia | exact Hjson | exact E |].
    exists p. split; [exact Ep|]. split; [rewrite Hsq, Hcs; reflexivity|].
    split; [rewrite Hap; exact Has|].
    split; [rewrite Hsq, Hcs; reflexivity|].
    intros d'' t'' Hd''. rewrite Hd' in Hd''. inversion Hd''; subst. exact Htl.
  - rewrite Hl. eapply lookup_lt_Some, Hi.
  - exists p. split; [exact Hp|]. split; [exact Hg1|]. split; [exact Hg2|].
    eapply Hg3, Hi.
Qed.


(** X18. The parameters the service monitors after it received one packet of
    the simulator (whose JSON text the codec reads back): the nine
    measurements under [MEAS_...] with the units the service derives from
    their names, the three health entries under [HEALTH_...] and the
    subsystem, all VALID, stamped with the time of reception and
    attributed to the packet's sequence count; every other parameter is
    as it was. *)
Theorem simulator_packet_monitored (self : CCSDSSimulator) (d : Draw) (now_unix : Z)
    (pkt : list byte) (self' : CCSDSSimulator) (st : State) :
  0 <= Simulator.apid self < 2048 ->
  json_loads (json_dumps (generate_telemetry self d)) = Some (generate_telemetry self d) ->
  create_ccsds_packet self (generate_telemetry self d) now_unix = Some (pkt, self') ->
  let entry (v : pyval) (u : string) :=
    Some {| pd_value := v; pd_timestamp := next_reading st; pd_validity := "VALID";
            pd_units := Some u; pd_quality := None;
            pd_source :=
              Some ("Packet_" +:+ str_of_int (packet_counter self mod 16384)) |} in
  let monitored := parameter_store (receive pkt st) in
  monitored !! "MEAS_TEMPERATURE_BUS" = entry (PFloat (drawn_temperature_bus d)) "°C" /\
  monitored !! "MEAS_TEMPERATURE_BATTERY"
    = entry (PFloat (drawn_temperature_battery d)) "°C" /\
  monitored !! "MEAS_VOLTAGE_BUS" = entry (PFloat (drawn_voltage_bus d)) "V" /\
  monitored !! "MEAS_CURRENT_BUS" = entry (PFloat (drawn_current_bus d)) "A" /\
  monitored !! "MEAS_BATTERY_CHARGE" = entry (PInt (drawn_battery_charge d)) "%" /\
  monitored !! "MEAS_SOLAR_CURRENT" = entry (PFloat (drawn_solar_current d)) "A" /\
  monitored !! "MEAS_GYRO_X" = entry (PFloat (drawn_gyro_x d)) "rad/s" /\
  monitored !! "MEAS_GYRO_Y" = entry (PFloat (drawn_gyro_y d)) "rad/s" /\
  monitored !! "MEAS_GYRO_Z" = entry (PFloat (drawn_gyro_z d)) "rad/s" /\
  monitored !! "HEALTH_STATUS" = entry (PStr (drawn_status d)) "" /\
  monitored !! "HEALTH_MODE" = entry (PStr (drawn_mode d)) "" /\
  monitored !! "HEALTH_ERRORS" = entry (PInt (drawn_errors d)) "" /\
  monitored !! "SUBSYSTEM" = entry (PStr (drawn_subsystem d)) "" /\
  forall other : string,
    other ∉ ["MEAS_TEMPERATURE_BUS"; "MEAS_TEMPERATURE_BATTERY"; "MEAS_VOLTAGE_BUS";
             "MEAS_CURRENT_BUS"; "MEAS_BATTERY_CHARGE"; "MEAS_SOLAR_CURRENT";
             "MEAS_GYRO_X"; "MEAS_GYRO_Y"; "MEAS_GYRO_Z";
             "HEALTH_STATUS"; "HEALTH_MODE"; "HEALTH_ERRORS"; "SUBSYSTEM"] ->
    monitored !! other = parameter_store st !! other.
Proof.
  intros Ha Hjson E. cbv zeta.
  destruct (encoded_parses self _ now_unix (next_reading st) pkt self' Ha Hjson E)
    as (p & Ep & _ & Hsq & Htl & Hts).
  set (source := Some ("Packet_" +:+ str_of_int (packet_counter self mod 16384))).
  set (entry := fun (v : pyval) (u : string) =>
         {| pd_value := v; pd_timestamp := next_reading st; pd_validity := "VALID";
            pd_units := Some u; pd_quality := None; pd_source := source |}).
  assert (Hstore : parameter_store (receive pkt st) =
    <[ "SUBSYSTEM" := entry (PStr (drawn_subsystem d)) "" ]>
    (<[ "HEALTH_ERRORS" := entry (PInt (drawn_errors d)) "" ]>
    (<[ "HEALTH_MODE" := entry (PStr (drawn_mode d)) "" ]>
    (<[ "HEALTH_STATUS" := entry (PStr (drawn_status d)) "" ]>
    (<[ "MEAS_GYRO_Z" := entry (PFloat (drawn_gyro_z d)) "rad/s" ]>
    (<[ "MEAS_GYRO_Y" := entry (PFloat (drawn_gyro_y d)) "rad/s" ]>
    (<[ "MEAS_GYRO_X" := entry (PFloat (drawn_gyro_x d)) "rad/s" ]>
    (<[ "MEAS_SOLAR_CURRENT" := entry (PFloat (drawn_solar_current d)) "A" ]>
    (<[ "MEAS_BATTERY_CHARGE" := entry (PInt (drawn_battery_charge d)) "%" ]>
    (<[ "MEAS_CURRENT_BUS" := entry (PFloat (drawn_current_bus d)) "A" ]>
    (<[ "MEAS_VOLTAGE_BUS" := entry (PFloat (drawn_voltage_bus d)) "V" ]>
    (<[ "MEAS_TEMPERATURE_BATTERY" := entry (PFloat (drawn_temperature_battery d)) "°C" ]>
    (<[ "MEAS_TEMPERATURE_BUS" := entry (PFloat (drawn_temperature_bus d)) "°C" ]>
       (parameter_store st)))))))))))))).
  { unfold receive. rewrite Ep. cbv zeta. rewrite Htl.
    change (is_dict (generate_telemetry self d)) with true. cbv iota.
    unfold _extract_parameters. rewrite Htl, Hts, Hsq. reflexivity. }
  rewrite Hstore.
  repeat split;
    try (repeat (rewrite lookup_insert_ne by discriminate); apply lookup_insert_eq).
  intros other Hother.
  repeat (apply not_elem_of_cons in Hother as [? Hother]).
  repeat (rewrite lookup_insert_ne by congruence). reflexivity.
Qed.

End EndToEnd.

(* ===================================================================== *)
(** * The receiver and the operations history of [mo_service_xml.py] *)
(* ===================================================================== *)

Section XmlReceiver.
Import ET XmlValidator MoServiceXml.

(** X19. The receiver of the XML service numbers the datagrams as they arrive:
    on a store whose keys are the numbers below its size (the empty store
    the service starts with is one), every datagram received gets the
    next number, with the sender's address and the datagram's length;
    nothing stored before is replaced or lost. *)
Theorem xml_receiver_numbers_arrivals
    (datagrams : list (list byte * string)) (st : State) :
  (forall k : Z, is_Some (telemetry_store st !! k)
                 <-> 0 <= k < Z.of_nat (size (telemetry_store st))) ->
  let st' := run datagrams st in
  size (telemetry_store st') = (size (telemetry_store st) + length datagrams)%nat /\
  (forall k d, telemetry_store st !! k = Some d -> telemetry_store st' !! k = Some d) /\
  (forall (i : nat) data addr, datagrams !! i = Some (data, addr) ->
     exists d, telemetry_store st' !! Z.of_nat (size (telemetry_store st) + i) = Some d /\
               d_source d = addr /\ d_size d = len data) /\
  parameter_store st' = parameter_store st /\
  command_queue st' = command_queue st /\
  xml_requests st' = xml_requests st.
Proof.
  cbv zeta. revert st.
  induction datagrams as [|[data addr] rest IH]; intros st Hnum.
  - cbn [run fold_left length]. split; [lia|]. split; [auto|].
    split; [|auto]. intros i data addr Hi. rewrite lookup_nil in Hi. discriminate.
  - destruct (xml_receive_numbered data addr st Hnum)
      as (Hnum1 & Hsize1 & (d0 & Hd0 & Hsrc & Hlen) & Hkeep1).
    cbn [run fold_left fst snd]. fold (run rest (receive data addr st).2).
    destruct (IH _ Hnum1) as (Hsz & Hkeep & Hnew & Hp & Hc & Hx).
    split; [rewrite Hsz, Hsize1; cbn [length]; lia|].
    split; [intros k d Hk; apply Hkeep, Hkeep1, Hk|].
    split.
    + intros [|i] data' addr' Hi.
      * cbn in Hi. inversion Hi; subst data' addr'.
        exists d0. rewrite Nat.add_0_r. split; [apply Hkeep, Hd0|]. split; assumption.
      * cbn in Hi. destruct (Hnew i data' addr' Hi) as (d & Hd & Hs & Hl).
        exists d. split; [|split; assumption].
        rewrite <- Hd. f_equal. rewrite Hsize1. lia.
    + rewrite Hp, Hc, Hx. auto.
Qed.

(** X20. [GET /xml/operations/history?limit=n] returns the end of the log, in
    the order of the log.  For [n >= 1] these are the last [n] entries,
    or all when there are fewer; [n = 0] does not give an empty list but
    the whole log; a negative [n] leaves out the first [-n] entries. *)
Theorem history_is_recent (limit : Z) (st : State) :
  let count := (get_xml_operations_history limit st).1 in
  let operations := (get_xml_operations_history limit st).2 in
  let logged := Z.of_nat (length (xml_requests st)) in
  operations `suffix_of` xml_requests st /\
  count = Z.of_nat (length operations) /\
  count = (if 0 <? limit then Z.min limit logged else Z.max 0 (logged + limit)).
Proof.
  cbv zeta. unfold get_xml_operations_history, py_slice_from. cbn [fst snd].
  destruct (Z.ltb_spec limit (Z.of_nat (length (xml_requests st)))) as [Hlt|Hge].
  - destruct (Z.leb_spec 0 (- limit)) as [Hneg|Hpos].
    + split; [apply suffix_drop|]. split; [reflexivity|].
      rewrite length_drop. destruct (Z.ltb_spec 0 limit); lia.
    + split; [apply suffix_drop|]. split; [reflexivity|].
      rewrite length_drop. destruct (Z.ltb_spec 0 limit); lia.
  - split; [reflexivity|]. split; [reflexivity|].
    destruct (Z.ltb_spec 0 limit); lia.
Qed.

End XmlReceiver.

(* ===================================================================== *)
(** * [POST /xml/operations] *)
(* ===================================================================== *)

Section XmlOperations.
Import ET XmlValidator MoServiceXml.
Context `{Library}.

(** X21. A document that passes validation as one of the three requests is
    always answered with a response document.  The request is entered
    in the operations history, with the first 1000 characters of its
    text, under its request identifier (UNKNOWN when the document has no
    [requestId] element); a GetParameterValues also enters its response
    in the same way, a SetParameterValues appends one pending command
    with the parameter sets of the document; the telemetry and the
    parameters are never changed. *)
Theorem xml_operations_answers_requests
    (xml_content : document) (st : State) (operation : string) (warnings : list string) :
  validate_mo_xml xml_content "" = Valid operation warnings ->
  operation = "GetParameterValuesRequest" \/
  operation = "SetParameterValuesRequest" \/
  operation = "GetServiceInfoRequest" ->
  let out := xml_operations xml_content st in
  exists root response asked,
    fromstring xml_content = Some root /\
    out.1 = inr response /\
    x_operation asked = operation /\
    x_xml asked = text_prefix 1000 xml_content /\
    x_request_id asked = match find "requestId" root with
                         | Some request_id_elem => text request_id_elem
                         | None => Some "UNKNOWN"
                         end /\
    (if String.eqb operation "GetParameterValuesRequest"
     then exists answered,
            xml_requests out.2 = xml_requests st ++ [asked; answered] /\
            x_operation answered = "GetParameterValuesResponse" /\
            x_xml answered = text_prefix 1000 response /\
            x_request_id answered = x_request_id asked
     else xml_requests out.2 = xml_requests st ++ [asked]) /\
    (if String.eqb operation "SetParameterValuesRequest"
     then exists command,
            command_queue out.2 = command_queue st ++ [command] /\
            c_request_id command = x_request_id asked /\
            c_parameters command = get_param_sets root
     else command_queue out.2 = command_queue st) /\
    telemetry_store out.2 = telemetry_store st /\
    parameter_store out.2 = parameter_store st.
Proof.
  intros Hv Hop. cbv zeta.
  destruct (validate_valid _ _ _ _ Hv) as (root & Hroot & _).
  destruct (xml_operations_valid _ st _ _ _ Hv Hroot)
    as (asked & st2 & Hid & Hopn & Hxml & Hx & Hc & Ht & Hp & ->).
  exists root.
  destruct Hop as [-> | [-> | ->]].
  - change (contains "GetParameterValuesRequest" "GetParameterValuesRequest") with true.
    cbv iota. cbn [fst snd].
    destruct (get_handler_effect root (x_request_id asked) st2)
      as (doc & logged & Hdoc & Hx' & Hc' & Ht' & Hp').
    rewrite <- Hid. rewrite Hdoc. cbn [handled].
    exists doc, asked.
    change ("GetParameterValuesRequest" =? "GetParameterValuesRequest")%string with true.
    change ("GetParameterValuesRequest" =? "SetParameterValuesRequest")%string with false.
    cbv iota. repeat split; try congruence.
    eexists. split; [rewrite Hx', Hx, <- app_assoc; reflexivity|].
    repeat split.
  - change (contains "GetParameterValuesRequest" "SetParameterValuesRequest") with false.
    change (contains "SetParameterValuesRequest" "SetParameterValuesRequest") with true.
    cbv iota. cbn [fst snd].
    destruct (set_handler_effect root (x_request_id asked) st2)
      as (doc & queued & Hdoc & Hc' & Hx' & Ht' & Hp').
    rewrite <- Hid. rewrite Hdoc. cbn [handled].
    exists doc, asked.
    change ("SetParameterValuesRequest" =? "GetParameterValuesRequest")%string with false.
    change ("SetParameterValuesRequest" =? "SetParameterValuesRequest")%string with true.
    cbv iota. repeat split; try congruence.
    eexists. split; [rewrite Hc', Hc; reflexivity|]. split; reflexivity.
  - change (contains "GetParameterValuesRequest" "GetServiceInfoRequest") with false.
    change (contains "SetParameterValuesRequest" "GetServiceInfoRequest") with false.
    change (contains "GetServiceInfoRequest" "GetServiceInfoRequest") with true.
    cbv iota. cbn [fst snd].
    destruct (info_handler_effect root (x_request_id asked) st2)
      as (doc & Hdoc & Ht' & Hp' & Hc' & Hx' & _).
    rewrite <- Hid. rewrite Hdoc. cbn [handled].
    exists doc, asked.
    change ("GetServiceInfoRequest" =? "GetParameterValuesRequest")%string with false.
    change ("GetServiceInfoRequest" =? "SetParameterValuesRequest")%string with false.
    cbv iota. repeat split; congruence.
Qed.

(** X22. A document that passes validation as one of the three responses is
    entered in the operations history, with the first 1000 characters of
    its text, and then refused: the status 501
    raised for it never leaves the endpoint, which answers 500 with the
    text of that exception; nothing else is changed. *)
Theorem xml_operations_refuses_responses
    (xml_content : document) (st : State) (operation : string) (warnings : list string) :
  validate_mo_xml xml_content "" = Valid operation warnings ->
  operation = "GetParameterValuesResponse" \/
  operation = "SetParameterValuesResponse" \/
  operation = "GetServiceInfoResponse" ->
  let out := xml_operations xml_content st in
  out.1 = inl (Http 500
                 (PStr ("XML processing error: " +:+
                        str_exception
                          (Raised (Http 501 (PStr ("Operation not implemented: "
                                                   +:+ operation))))))) /\
  (exists asked,
     xml_requests out.2 = xml_requests st ++ [asked] /\
     x_operation asked = operation /\
     x_xml asked = text_prefix 1000 xml_content) /\
  command_queue out.2 = command_queue st /\
  telemetry_store out.2 = telemetry_store st /\
  parameter_store out.2 = parameter_store st.
Proof.
  intros Hv Hop. cbv zeta.
  destruct (validate_valid _ _ _ _ Hv) as (root & Hroot & _).
  destruct (xml_operations_valid _ st _ _ _ Hv Hroot)
    as (asked & st2 & Hid & Hopn & Hxml & Hx & Hc & Ht & Hp & ->).
  assert (Hnone : contains "GetParameterValuesRequest" operation = false /\
                  contains "SetParameterValuesRequest" operation = false /\
                  contains "GetServiceInfoRequest" operation = false).
  { destruct Hop as [-> | [-> | ->]]; repeat split; reflexivity. }
  destruct Hnone as (-> & -> & ->). unfold processing_error. cbn [fst snd].
  split; [reflexivity|]. split; [|auto].
  exists asked. auto.
Qed.

(** X23. The endpoint raises no status but 400 and 500.  It answers 400
    exactly to the documents that fail validation, and then no store and
    no history has changed; it answers 500 only to documents that were
    validated as responses. *)
Theorem xml_operations_error_codes
    (xml_content : document) (st : State) (code : Z) (detail : pyval) :
  (xml_operations xml_content st).1 = inl (Http code detail) ->
  (code = 400 /\ (xml_operations xml_content st).2 = st /\
   exists errors operation, validate_mo_xml xml_content "" = Invalid errors operation) \/
  (code = 500 /\
   exists operation warnings,
     validate_mo_xml xml_content "" = Valid operation warnings /\
     (operation = "GetParameterValuesResponse" \/
      operation = "SetParameterValuesResponse" \/
      operation = "GetServiceInfoResponse")).
Proof.
  destruct (validate_mo_xml xml_content "") as [operation warnings|errors operation] eqn:Hv.
  - intros Hout. right.
    destruct (validate_valid _ _ _ _ Hv) as (root & Hroot & Hclass).
    destruct (xml_operations_valid _ st _ _ _ Hv Hroot)
      as (asked & st2 & Hid & _ & _ & _ & _ & _ & _ & Heq).
    rewrite Heq in Hout. clear Heq.
    apply classify_names in Hclass as [Hreq|Hresp].
    + exfalso.
      destruct (get_handler_effect root (x_request_id asked) st2) as (d1 & ? & Hd1 & _).
      destruct (set_handler_effect root (x_request_id asked) st2) as (d2 & ? & Hd2 & _).
      destruct (info_handler_effect root (x_request_id asked) st2) as (d3 & Hd3 & _).
      rewrite <- Hid in Hout.
      destruct Hreq as [-> | [-> | ->]].
      * change (contains "GetParameterValuesRequest" "GetParameterValuesRequest")
          with true in Hout.
        cbv iota in Hout. cbn [fst] in Hout. rewrite Hd1 in Hout. discriminate.
      * change (contains "GetParameterValuesRequest" "SetParameterValuesRequest")
          with false in Hout.
        change (contains "SetParameterValuesRequest" "SetParameterValuesRequest")
          with true in Hout.
        cbv iota in Hout. cbn [fst] in Hout. rewrite Hd2 in Hout. discriminate.
      * change (contains "GetParameterValuesRequest" "GetServiceInfoRequest")
          with false in Hout.
        change (contains "SetParameterValuesRequest" "GetServiceInfoRequest")
          with false in Hout.
        change (contains "GetServiceInfoRequest" "GetServiceInfoRequest")
          with true in Hout.
        cbv iota in Hout. cbn [fst] in Hout. rewrite Hd3 in Hout. discriminate.
    + assert (Hnone : contains "GetParameterValuesRequest" operation = false /\
                      contains "SetParameterValuesRequest" operation = false /\
                      contains "GetServiceInfoRequest" operation = false).
      { destruct Hresp as [-> | [-> | ->]]; repeat split; reflexivity. }
      destruct Hnone as (E1 & E2 & E3). rewrite E1, E2, E3 in Hout.
      unfold processing_error in Hout. cbn [fst] in Hout.
      injection Hout as <- _. split; [reflexivity|]. eauto.
  - intros Hout. left. revert Hout. unfold xml_operations. rewrite Hv.
    unfold ret. cbn [fst snd]. intros [= <- _].
    split; [reflexivity|]. split; [reflexivity|]. eauto.
Qed.

(** X24. The [operation] argument of [validate_mo_xml] has no part in the
    verdict: whether a document is valid, under which operation, and with
    which warnings or errors does not depend on it. *)
Theorem validate_ignores_operation_argument
    (xml_content : document) (given given' : string) :
  match validate_mo_xml xml_content given, validate_mo_xml xml_content given' with
  | Valid operation warnings, Valid operation' warnings' =>
      operation = operation' /\ warnings = warnings'
  | Invalid errors _, Invalid errors' _ => errors = errors'
  | _, _ => False
  end.
Proof.
  unfold validate_mo_xml.
  destruct (fromstring xml_content) as [root|]; [|reflexivity].
  destruct (classify (tag root)) as [named|]; [|reflexivity].
  destruct mo_schema as [schema_validate|]; [|reflexivity].
  destruct (schema_validate xml_content); [|reflexivity].
  destruct (_semantic_validation root named); [reflexivity | auto].
Qed.

End XmlOperations.

(* ===================================================================== *)
(** * Examples *)
(* ===================================================================== *)

Lemma run_skips_short_datagram_witness :
  MoService.run
    ([[Byte.x08; Byte.x64; Byte.xc0; Byte.x01; Byte.x00; Byte.x08; Byte.x00]] ++
     [Byte.x08; Byte.x64] ::
     [[Byte.x08; Byte.x65; Byte.xc0; Byte.x02; Byte.x00; Byte.x08]])
    (MoService.initial_state MoServiceXml.sample_clock)
  = MoService.run
      ([[Byte.x08; Byte.x64; Byte.xc0; Byte.x01; Byte.x00; Byte.x08; Byte.x00]] ++
       [[Byte.x08; Byte.x65; Byte.xc0; Byte.x02; Byte.x00; Byte.x08]])
      (MoService.initial_state MoServiceXml.sample_clock).
Proof.
  apply (run_skips_short_datagram
           [[Byte.x08; Byte.x64; Byte.xc0; Byte.x01; Byte.x00; Byte.x08; Byte.x00]]
           [[Byte.x08; Byte.x65; Byte.xc0; Byte.x02; Byte.x00; Byte.x08]]
           [Byte.x08; Byte.x64]).
  vm_compute. reflexivity.
Defined.

Lemma units_ignore_case_witness :
  MoService._get_units (py_upper "Temperature_Bus") = MoService._get_units "Temperature_Bus" /\
  MoService._get_units (py_lower "Temperature_Bus") = MoService._get_units "Temperature_Bus".
Proof.
  apply (units_ignore_case "Temperature_Bus"). vm_compute. reflexivity.
Defined.

Lemma measurement_visible_witness :
  let doc := PDict [("measurements", PDict [("voltage_bus", PFloat "12.3")])] in
  let data :=
    [Byte.x08; Byte.x64; Byte.xc0; Byte.x01; Byte.x00; Byte.x08] ++
    [Byte.x00; Byte.x00; Byte.x00; Byte.x00; Byte.x01; Byte.x03; Byte.x01;
     Byte.x03; Byte.xe8; Byte.x07; Byte.xd0; Byte.x7b; Byte.x7d] ++
    [Byte.x12; Byte.x34] in
  let st := MoService.initial_state MoServiceXml.sample_clock in
  exists p,
    @MoService.parse_packet (reading_json doc) data (MoService.next_reading st)
    = MoService.Parsed p /\
    (MoService.get_one "meas_Voltage_Bus" (@MoService.receive (reading_json doc) data st)).1
    = {| MoService.name := "MEAS_" +:+ py_upper "voltage_bus";
         MoService.value := PFloat "12.3";
         MoService.p_timestamp := MoService.timestamp p;
         MoService.validity := "VALID";
         MoService.units := Some (MoService._get_units "voltage_bus");
         MoService.quality := Some "GOOD" |}.
Proof.
  cbv zeta. eexists. split; [vm_compute; reflexivity|].
  eapply (@measurement_visible
            (reading_json (PDict [("measurements", PDict [("voltage_bus", PFloat "12.3")])]))
            _ _ _
            [("measurements", PDict [("voltage_bus", PFloat "12.3")])]
            [("voltage_bus", PFloat "12.3")]
            "voltage_bus" "meas_Voltage_Bus" (PFloat "12.3"));
    vm_compute; reflexivity.
Defined.

Lemma bad_measurements_block_extraction_witness :
  let doc := PDict [("measurements", PInt 5); ("subsystem", PStr "EPS")] in
  let data :=
    [Byte.x08; Byte.x64; Byte.xc0; Byte.x01; Byte.x00; Byte.x08] ++
    [Byte.x00; Byte.x00; Byte.x00; Byte.x00; Byte.x01; Byte.x03; Byte.x01;
     Byte.x03; Byte.xe8; Byte.x07; Byte.xd0; Byte.x7b; Byte.x7d] ++
    [Byte.x12; Byte.x34] in
  let st := MoService.initial_state MoServiceXml.sample_clock in
  exists p,
    @MoService.parse_packet (reading_json doc) data (MoService.next_reading st)
    = MoService.Parsed p /\
    MoService.parameter_store (@MoService.receive (reading_json doc) data st)
    = MoService.parameter_store st /\
    MoService.telemetry_store (@MoService.receive (reading_json doc) data st)
      !! MoService.sequence_count (MoService.header p) = Some p.
Proof.
  cbv zeta. eexists. split; [vm_compute; reflexivity|].
  eapply (@bad_measurements_block_extraction
            (reading_json (PDict [("measurements", PInt 5); ("subsystem", PStr "EPS")]))
            _ _ _
            [("measurements", PInt 5); ("subsystem", PStr "EPS")]
            (PInt 5));
    vm_compute; reflexivity.
Defined.

Lemma parameter_ids_ignore_case_witness :
  let st := MoService.initial_state MoServiceXml.sample_clock in
  MoService.get_ccsds_parameters
    {| MoService.parameterIds := map py_lower ["Meas_Voltage_Bus"; "SubSystem"];
       MoService.requestId := "REQ_1" |} st
  = MoService.get_ccsds_parameters
      {| MoService.parameterIds := ["Meas_Voltage_Bus"; "SubSystem"];
         MoService.requestId := "REQ_1" |} st /\
  MoService.get_ccsds_parameters
    {| MoService.parameterIds := map py_upper ["Meas_Voltage_Bus"; "SubSystem"];
       MoService.requestId := "REQ_1" |} st
  = MoService.get_ccsds_parameters
      {| MoService.parameterIds := ["Meas_Voltage_Bus"; "SubSystem"];
         MoService.requestId := "REQ_1" |} st.
Proof.
  cbv zeta.
  apply (parameter_ids_ignore_case ["Meas_Voltage_Bus"; "SubSystem"] "REQ_1").
  repeat constructor.
Defined.


Lemma simulator_packet_monitored_witness :
  let codec := reading_json
                 (Simulator.generate_telemetry Simulator.sample_simulator
                                               Simulator.sample_draw) in
  let st := MoService.initial_state MoServiceXml.sample_clock in
  exists pkt self',
    @Simulator.create_ccsds_packet codec Simulator.sample_simulator
      (Simulator.generate_telemetry Simulator.sample_simulator Simulator.sample_draw)
      1700000000 = Some (pkt, self') /\
    MoService.parameter_store (@MoService.receive codec pkt st) !! "MEAS_VOLTAGE_BUS"
    = Some {| pd_value := PFloat "12.345";
              pd_timestamp := MoService.next_reading st;
              pd_validity := "VALID";
              pd_units := Some "V";
              pd_quality := None;
              pd_source := Some ("Packet_" +:+ str_of_int (16385 mod 16384)) |}.
Proof.
  cbv zeta. eexists _, _. split; [vm_compute; reflexivity|].
  eapply (@simulator_packet_monitored
            (reading_json (Simulator.generate_telemetry Simulator.sample_simulator
                                                        Simulator.sample_draw))
            Simulator.sample_simulator Simulator.sample_draw 1700000000).
  - simpl. lia.
  - reflexivity.
  - vm_compute. reflexivity.
Defined.

Lemma xml_receiver_numbers_arrivals_witness :
  let datagrams := [([Byte.x08; Byte.x64], "127.0.0.1"); ([Byte.x00], "10.0.0.2")] in
  let st := MoServiceXml.initial_state MoServiceXml.sample_clock in
  size (MoServiceXml.telemetry_store (MoServiceXml.run datagrams st))
  = (size (MoServiceXml.telemetry_store st) + length datagrams)%nat.
Proof.
  cbv zeta.
  apply (xml_receiver_numbers_arrivals
           [([Byte.x08; Byte.x64], "127.0.0.1"); ([Byte.x00], "10.0.0.2")]
           (MoServiceXml.initial_state MoServiceXml.sample_clock)).
  intros k. unfold MoServiceXml.initial_state. cbn [MoServiceXml.telemetry_store].
  rewrite lookup_empty, map_size_empty.
  split; [intros [d Hd]; discriminate Hd | simpl; lia].
Defined.

Lemma xml_operations_answers_requests_witness :
  exists response,
    (@MoServiceXml.xml_operations MoServiceXml.sample_library
       MoServiceXml.sample_get_document MoServiceXml.state_with_flag).1
    = inr response.
Proof.
  destruct (@xml_operations_answers_requests MoServiceXml.sample_library
              MoServiceXml.sample_get_document MoServiceXml.state_with_flag
              "GetParameterValuesRequest" [])
    as (root & response & asked & _ & Hresponse & _).
  - vm_compute. reflexivity.
  - left. reflexivity.
  - exists response. exact Hresponse.
Defined.

Lemma xml_operations_refuses_responses_witness :
  (@MoServiceXml.xml_operations MoServiceXml.sample_library
     MoServiceXml.sample_response_document MoServiceXml.state_with_flag).1
  = inl (Http 500
           (PStr ("XML processing error: " +:+
                  @XmlValidator.str_exception MoServiceXml.sample_library
                    (XmlValidator.Raised
                       (Http 501 (PStr ("Operation not implemented: "
                                        +:+ "GetParameterValuesResponse"))))))).
Proof.
  apply (@xml_operations_refuses_responses MoServiceXml.sample_library
           MoServiceXml.sample_response_document MoServiceXml.state_with_flag
           "GetParameterValuesResponse" []).
  - vm_compute. reflexivity.
  - left. reflexivity.
Defined.

Lemma xml_operations_error_codes_witness :
  let out := @MoServiceXml.xml_operations MoServiceXml.sample_library
               MoServiceXml.sample_unknown_document MoServiceXml.state_with_flag in
  (400 = 400 /\ out.2 = MoServiceXml.state_with_flag /\
   exists errors operation,
     @XmlValidator.validate_mo_xml MoServiceXml.sample_library
       MoServiceXml.sample_unknown_document "" = XmlValidator.Invalid errors operation) \/
  (400 = 500 /\
   exists operation warnings,
     @XmlValidator.validate_mo_xml MoServiceXml.sample_library
       MoServiceXml.sample_unknown_document "" = XmlValidator.Valid operation warnings /\
     (operation = "GetParameterValuesResponse" \/
      operation = "SetParameterValuesResponse" \/
      operation = "GetServiceInfoResponse")).
Proof.
  cbv zeta.
  apply (@xml_operations_error_codes MoServiceXml.sample_library
           MoServiceXml.sample_unknown_document MoServiceXml.state_with_flag 400
           (PDict [("message", PStr "XML validation failed");
                   ("errors",
                    PList [PStr ("Unknown operation type: " +:+
                                 "{http://www.ccsds.org/schema/Service/MonitorAndControl}Unknown")]);
                   ("operation", PStr "unknown")])).
  vm_compute. reflexivity.
Defined.
